(** * Schema retrieval and column pruning (wren-ai-service)

    A shallow embedding of
    [src/pipelines/retrieval/db_schema_retrieval.py]: the schema
    reassembler [construct_db_schemas], the token budget evaluator
    [check_using_db_schemas_without_pruning], the prompt and pruning
    request steps, and the result assembler
    [construct_retrieval_results], together with the properties the
    specification states about them.

    Python values are modelled dynamically (the code works on decoded
    literals and JSON), exceptions by a [result] type, and calls to the
    embedder, the retrievers and the generator by a log of calls threaded
    through a small state monad. The [observe] decorators only report
    to the tracing service and are left out. *)

From Stdlib Require Import String ZArith List Bool Ascii.
From stdpp Require Import base gmap strings list pretty.

#[local] Set Warnings "-register-all".

(** ** Python values and exceptions *)

(** The exceptions the modelled code can raise. [ExternalError] stands
    for whatever a collaborator (embedder, retriever, generator, prompt
    builder, DDL builder) raises on its own. *)
Inductive exn :=
| KeyError
| TypeError
| IndexError
| AttributeError
| SyntaxError
| ValueError
| JSONDecodeError
| ExternalError (msg : string).

Inductive result (A : Type) :=
| Ok (a : A)
| Raise (e : exn).

Arguments Ok {A} a.
Arguments Raise {A} e.

#[global] Instance result_ret : MRet result := λ A x, Ok x.
#[global] Instance result_bind : MBind result :=
  λ A B f m, match m with Ok a => f a | Raise e => Raise e end.

Definition is_ok {A} (r : result A) : bool :=
  match r with Ok _ => true | Raise _ => false end.

(** Decoded literals. What [ast.literal_eval] and [orjson.loads] return
    is restricted to [None], booleans, integers, strings, lists and
    dicts with string keys; floats, tuples, sets, bytes and dicts keyed
    by other values are outside the model. A dict is an association list
    in insertion order. *)
Inductive value :=
| VNone
| VBool (b : bool)
| VInt (z : Z)
| VStr (s : string)
| VList (l : list value)
| VDict (d : list (string * value)).

Definition dict := list (string * value).

(** Hashable values as dict keys and set members: [True == 1] and
    [False == 0] hash alike, lists and dicts are unhashable. *)
Inductive key :=
| KNone
| KInt (z : Z)
| KStr (s : string).

#[global] Instance key_eq_dec : EqDecision key.
Proof. solve_decision. Defined.

#[global] Instance key_countable : Countable key.
Proof.
  refine (inj_countable'
    (λ k, match k with
          | KNone => inl ()
          | KInt z => inr (inl z)
          | KStr s => inr (inr s)
          end)
    (λ x, match x with
          | inl _ => KNone
          | inr (inl z) => KInt z
          | inr (inr s) => KStr s
          end) _).
  by intros [].
Defined.

Definition to_key (v : value) : result key :=
  match v with
  | VNone => Ok KNone
  | VBool b => Ok (KInt (if b then 1 else 0))
  | VInt z => Ok (KInt z)
  | VStr s => Ok (KStr s)
  | VList _ | VDict _ => Raise TypeError
  end.

(** ** Insertion-ordered dicts *)

Section alist.
Context {K V : Type} `{EqDecision K}.

Fixpoint alist_get (k : K) (d : list (K * V)) : option V :=
  match d with
  | [] => None
  | (k', v) :: d' => if decide (k' = k) then Some v else alist_get k d'
  end.

(** [d[k] = v]: an existing key keeps its position, a new key goes
    to the end. *)
Fixpoint alist_set (k : K) (v : V) (d : list (K * V)) : list (K * V) :=
  match d with
  | [] => [(k, v)]
  | (k', v') :: d' =>
      if decide (k' = k) then (k, v) :: d' else (k', v') :: alist_set k v d'
  end.

Definition alist_in (k : K) (d : list (K * V)) : bool :=
  match alist_get k d with Some _ => true | None => false end.
End alist.

Definition dict_get (k : string) (d : dict) : option value := alist_get k d.
Definition dict_set (k : string) (v : value) (d : dict) : dict := alist_set k v d.
Definition dict_in (k : string) (d : dict) : bool := alist_in k d.

(** [d[k]] on a dict. *)
Definition dict_getitem (d : dict) (k : string) : result value :=
  match dict_get k d with
  | Some v => Ok v
  | None => Raise KeyError
  end.

(** [d.get(k, default)]. *)
Definition dict_get_default (k : string) (default : value) (d : dict) : value :=
  match dict_get k d with
  | Some v => v
  | None => default
  end.

(** [v[k]] with a string subscript on any decoded value: only a dict
    accepts it. *)
Definition getitem (v : value) (k : string) : result value :=
  match v with
  | VDict d => dict_getitem d k
  | _ => Raise TypeError
  end.

(** A [str] is held as its UTF-8 encoding, and Python indexes and
    iterates it by code point: a byte [10xxxxxx] continues the code
    point begun before it. *)
Definition is_continuation (c : ascii) : bool :=
  let n := nat_of_ascii c in (128 <=? n)%nat && (n <? 192)%nat.

Fixpoint code_points (s : string) : list string :=
  match s with
  | EmptyString => []
  | String c s' =>
      match code_points s' with
      | String c' p :: ps =>
          if is_continuation c' then String c (String c' p) :: ps
          else String c EmptyString :: String c' p :: ps
      | ps => String c EmptyString :: ps
      end
  end.

Definition chars (s : string) : list value := map VStr (code_points s).

(** [v[0]]. *)
Definition getitem_0 (v : value) : result value :=
  match v with
  | VList (x :: _) => Ok x
  | VList [] => Raise IndexError
  | VStr s =>
      match code_points s with
      | p :: _ => Ok (VStr p)
      | [] => Raise IndexError
      end
  | VDict _ => Raise KeyError
  | _ => Raise TypeError
  end.

(** [v == "s"] for a string literal [s]. *)
Definition value_is_str (v : value) (s : string) : bool :=
  match v with
  | VStr s' => String.eqb s' s
  | _ => false
  end.


(** Iteration ([for x in v], [set(v)], [list += v]): a list gives its
    items, a string its code points, a dict its keys. *)
Definition py_iter (v : value) : result (list value) :=
  match v with
  | VList l => Ok l
  | VStr s => Ok (chars s)
  | VDict d => Ok (map (λ kv, VStr kv.1) d)
  | _ => Raise TypeError
  end.

Definition int_of (v : value) : option Z :=
  match v with
  | VInt z => Some z
  | VBool b => Some (if b then 1 else 0)%Z
  | _ => None
  end.

(** [a += b]. *)
Definition iadd (a b : value) : result value :=
  match a with
  | VList l => items ← py_iter b; Ok (VList (l ++ items))
  | VStr s =>
      match b with
      | VStr s' => Ok (VStr (String.append s s'))
      | _ => Raise TypeError
      end
  | VInt _ | VBool _ =>
      match int_of a, int_of b with
      | Some x, Some y => Ok (VInt (x + y))
      | _, _ => Raise TypeError
      end
  | VNone | VDict _ => Raise TypeError
  end.

Fixpoint keys_of (l : list value) : result (list key) :=
  match l with
  | [] => Ok []
  | v :: l' => k ← to_key v; ks ← keys_of l'; Ok (k :: ks)
  end.

(** [set(v)]. *)
Definition py_set (v : value) : result (gset key) :=
  items ← py_iter v;
  ks ← keys_of items;
  Ok (list_to_set ks).

(** ["sep".join(parts)]. *)
Fixpoint join (sep : string) (parts : list string) : string :=
  match parts with
  | [] => EmptyString
  | [p] => p
  | p :: rest => String.append p (String.append sep (join sep rest))
  end.

(** ** Documents and collaborators *)

(** A haystack [Document]: the content is text to be decoded, the meta
    dict carries strings. *)
Record Document := {
  content : string;
  meta : list (string * string);
}.

(** [document.meta["name"]]. *)
Definition meta_name (document : Document) : result string :=
  match alist_get "name"%string document.(meta) with
  | Some n => Ok n
  | None => Raise KeyError
  end.

(** The Python runtime and libraries the module calls:
    [ast.literal_eval], [orjson.loads], [str.lower] and the formatting
    of a value inside an f-string. *)
Class PyRuntime := {
  literal_eval : string → result value;
  orjson_loads : string → result value;
  str_lower : string → string;
  format_value : value → string;
}.

(** [src.pipelines.common], which this module imports: the table DDL
    builder (with its optional [columns] and [tables] sets; it returns
    the DDL and the calculated-field and JSON-field flags), the prompt
    clean-up and the data type normalisation. *)
Class Common := {
  build_table_ddl :
    dict → option (gset key) → option (gset key) → result (string * bool * bool);
  clean_up_new_lines : string → string;
  get_engine_supported_data_type : string → string;
}.

(** The embedding vector an embedder returns is opaque to the pipeline:
    [payload] is the type of the entries of the embedder's output dict. *)
Inductive query_embedding (payload : Type) :=
| QEmptyList
| QGet (o : option payload).

Arguments QEmptyList {payload}.
Arguments QGet {payload} o.

(** Document store filters: a condition [{"field", "operator",
    "value"}] or a group [{"operator", "conditions"}]. *)
Inductive filter :=
| Condition (field operator : string) (v : value)
| Group (operator : string) (conditions : list filter).

(** The output dict of a retriever; only its ["documents"] entry is
    read. *)
Record RetrieverOutput := {
  documents : option (list Document);
}.

(** The components and configuration [DbSchemaRetrieval.__init__] sets
    up. *)
Class Providers (payload : Type) := {
  embedder_run : string → result (list (string * payload));
  table_retriever_run : query_embedding payload → filter → result RetrieverOutput;
  dbschema_retriever_run : query_embedding payload → filter → result RetrieverOutput;
  table_columns_selection_generator : string → result dict;
  generator_name : string;
  prompt_builder_run : string → list string → result string;
  encoding : string → result (list nat);
  context_window_size : Z;
}.

(** [AskHistory], of which only the question is read. *)
Record AskHistory := {
  question : string;
}.

Definition nl : string := String (ascii_of_nat 10) EmptyString.

(** [x.lower()] exists on strings only. *)
Definition str_of (v : value) : result string :=
  match v with
  | VStr s => Ok s
  | _ => Raise AttributeError
  end.

(** ** Results of the stages *)

Record RetrievalResult := {
  table_name : value;
  table_ddl : string;
}.

Record AggregateFlags := {
  has_calculated_field : bool;
  has_metric : bool;
  has_json_field : bool;
}.

(** What [check_using_db_schemas_without_pruning] returns. *)
Record BudgetResult := {
  db_schemas : list RetrievalResult;
  tokens : nat;
  budget_flags : AggregateFlags;
}.

(** What [construct_retrieval_results] returns. *)
Record Retrieval := {
  retrieval_results : list RetrievalResult;
  flags : AggregateFlags;
}.

Section stages.
Context {R : PyRuntime} {C : Common}.

(** ** DDL of metrics and views *)

(** The list comprehension of [_build_metric_ddl]. *)
Fixpoint metric_columns_ddl (columns : list value) : result (list string) :=
  match columns with
  | [] => Ok []
  | column :: rest =>
      data_type ← getitem column "data_type";
      s ← str_of data_type;
      if negb (String.eqb (str_lower s) "unknown") then
        comment ← getitem column "comment";
        name ← getitem column "name";
        ddls ← metric_columns_ddl rest;
        Ok ((format_value comment +:+ format_value name +:+ " "
             +:+ get_engine_supported_data_type s) :: ddls)
      else metric_columns_ddl rest
  end.

Definition _build_metric_ddl (c : value) : result string :=
  columns ← getitem c "columns";
  items ← py_iter columns;
  columns_ddl ← metric_columns_ddl items;
  comment ← getitem c "comment";
  name ← getitem c "name";
  Ok (format_value comment +:+ "CREATE TABLE " +:+ format_value name
      +:+ " (" +:+ nl +:+ "  "
      +:+ join ("," +:+ nl +:+ "  ") columns_ddl
      +:+ nl +:+ ");").

Definition _build_view_ddl (c : value) : result string :=
  comment ← getitem c "comment";
  name ← getitem c "name";
  statement ← getitem c "statement";
  Ok (format_value comment +:+ "CREATE VIEW " +:+ format_value name
      +:+ nl +:+ "AS " +:+ format_value statement).

(** ** Schema reassembler *)

(** One iteration of the loop of [construct_db_schemas] on the map
    [db_schemas], keyed by [document.meta["name"]]. *)
Definition reassemble_step (db : list (string * dict)) (document : Document)
  : result (list (string * dict)) :=
  parsed ← literal_eval document.(content);
  match parsed with
  | VDict c =>
      ty ← dict_getitem c "type";
      if value_is_str ty "TABLE" then
        name ← meta_name document;
        match alist_get name db with
        | None => Ok (alist_set name c db)
        | Some entry =>
            Ok (alist_set name
                  (dict_set "columns" (dict_get_default "columns" (VList []) entry) c)
                  db)
        end
      else if value_is_str ty "TABLE_COLUMNS" then
        name ← meta_name document;
        match alist_get name db with
        | None =>
            columns ← dict_getitem c "columns";
            Ok (alist_set name [("columns"%string, columns)] db)
        | Some entry =>
            if negb (dict_in "columns" entry) then
              columns ← dict_getitem c "columns";
              Ok (alist_set name (dict_set "columns" columns entry) db)
            else
              old ← dict_getitem entry "columns";
              columns ← dict_getitem c "columns";
              new ← iadd old columns;
              Ok (alist_set name (dict_set "columns" new entry) db)
        end
      else Ok db
  | _ => Raise TypeError
  end.

Fixpoint reassemble_loop (documents : list Document) (db : list (string * dict))
  : result (list (string * dict)) :=
  match documents with
  | [] => Ok db
  | document :: rest =>
      db' ← reassemble_step db document;
      reassemble_loop rest db'
  end.

(** [{k: v for k, v in db_schemas.items() if "type" in v and "columns" in v}] *)
Definition is_complete (kv : string * dict) : bool :=
  dict_in "type" kv.2 && dict_in "columns" kv.2.

(** The map [db_schemas] as it stands when [construct_db_schemas]
    returns its values. *)
Definition reassembled (dbschema_retrieval : list Document)
  : result (list (string * dict)) :=
  db ← reassemble_loop dbschema_retrieval [];
  Ok (List.filter is_complete db).

Definition construct_db_schemas (dbschema_retrieval : list Document)
  : result (list dict) :=
  db ← reassembled dbschema_retrieval;
  Ok (map snd db).

(** ** Token budget evaluator *)

Definition no_flags : AggregateFlags :=
  {| has_calculated_field := false; has_metric := false; has_json_field := false |}.

(** [if _has_calculated_field: has_calculated_field = True] and the
    same for the JSON flag. *)
Definition note_table (f : AggregateFlags) (calculated json : bool) : AggregateFlags :=
  {| has_calculated_field := if calculated then true else f.(has_calculated_field);
     has_metric := f.(has_metric);
     has_json_field := if json then true else f.(has_json_field) |}.

Definition note_metric (f : AggregateFlags) : AggregateFlags :=
  {| has_calculated_field := f.(has_calculated_field);
     has_metric := true;
     has_json_field := f.(has_json_field) |}.

(** The state both assembly loops update: [retrieval_results] and the
    three flags. *)
Definition acc : Type := list RetrievalResult * AggregateFlags.

(** First loop of [check_using_db_schemas_without_pruning]. *)
Fixpoint table_loop (schemas : list dict) (a : acc) : result acc :=
  match schemas with
  | [] => Ok a
  | table_schema :: rest =>
      ty ← dict_getitem table_schema "type";
      if value_is_str ty "TABLE" then
        '(ddl, calculated, json) ← build_table_ddl table_schema None None;
        name ← dict_getitem table_schema "name";
        table_loop rest
          (a.1 ++ [{| table_name := name; table_ddl := ddl |}],
           note_table a.2 calculated json)
      else table_loop rest a
  end.

(** The body both fragment loops share once the content is decoded:
    a METRIC or a VIEW is appended, anything else is skipped. *)
Definition fragment_body (parsed : value) (a : acc) : result acc :=
  ty ← getitem parsed "type";
  if value_is_str ty "METRIC" then
    name ← getitem parsed "name";
    ddl ← _build_metric_ddl parsed;
    Ok (a.1 ++ [{| table_name := name; table_ddl := ddl |}], note_metric a.2)
  else if value_is_str ty "VIEW" then
    name ← getitem parsed "name";
    ddl ← _build_view_ddl parsed;
    Ok (a.1 ++ [{| table_name := name; table_ddl := ddl |}], a.2)
  else Ok a.

(** Second loop of [check_using_db_schemas_without_pruning]. *)
Fixpoint fragment_loop (documents : list Document) (a : acc) : result acc :=
  match documents with
  | [] => Ok a
  | document :: rest =>
      parsed ← literal_eval document.(content);
      a' ← fragment_body parsed a;
      fragment_loop rest a'
  end.

Definition check_using_db_schemas_without_pruning
    (construct_db_schemas : list dict) (dbschema_retrieval : list Document)
    (encoding : string → result (list nat))
    (enable_column_pruning : bool) (context_window_size : Z)
  : result BudgetResult :=
  a ← table_loop construct_db_schemas ([], no_flags);
  a ← fragment_loop dbschema_retrieval a;
  let table_ddls := map table_ddl a.1 in
  toks ← encoding (join " " table_ddls);
  let _token_count := length toks in
  if (Z.of_nat _token_count >? context_window_size)%Z || enable_column_pruning
  then Ok {| db_schemas := []; tokens := _token_count; budget_flags := a.2 |}
  else Ok {| db_schemas := a.1; tokens := _token_count; budget_flags := a.2 |}.

(** ** Prompt *)

(** [[build_table_ddl(s)[0] for s in construct_db_schemas]] *)
Fixpoint all_table_ddls (schemas : list dict) : result (list string) :=
  match schemas with
  | [] => Ok []
  | construct_db_schema :: rest =>
      '(ddl, _, _) ← build_table_ddl construct_db_schema None None;
      ddls ← all_table_ddls rest;
      Ok (ddl :: ddls)
  end.

(** The text sent for embedding and put in the prompt: the history
    questions joined by newlines, a newline, the query. *)
Definition with_histories (query : string) (histories : list AskHistory) : string :=
  join nl (map question histories) +:+ nl +:+ query.

(** [prompt]: the returned dict is either empty ([None]) or holds the
    one key ["prompt"]. *)
Definition prompt (query : string) (construct_db_schemas : list dict)
    (prompt_builder : string → list string → result string)
    (check : BudgetResult) (histories : list AskHistory)
  : result (option string) :=
  match check.(db_schemas) with
  | [] =>
      ddls ← all_table_ddls construct_db_schemas;
      _prompt ← prompt_builder (with_histories query histories) ddls;
      Ok (Some (clean_up_new_lines _prompt))
  | _ :: _ => Ok None
  end.

(** ** Retrieval result assembler *)

(** The loop that re-keys the reply's [results] by table name. *)
Fixpoint reformat_loop (items : list value) (reformated_json : list (key * value))
  : result (list (key * value)) :=
  match items with
  | [] => Ok reformated_json
  | table :: rest =>
      table_contents ← getitem table "table_contents";
      name ← getitem table "table_name";
      k ← to_key name;
      reformat_loop rest (alist_set k table_contents reformated_json)
  end.

(** The loop over the reassembled descriptors on the pruned path. *)
Fixpoint pruned_table_loop (columns_and_tables_needed : list (key * value))
    (tables : gset key) (schemas : list dict) (a : acc) : result acc :=
  match schemas with
  | [] => Ok a
  | table_schema :: rest =>
      ty ← dict_getitem table_schema "type";
      selected ←
        (if value_is_str ty "TABLE" then
           name ← dict_getitem table_schema "name";
           k ← to_key name;
           Ok (bool_decide (k ∈ tables))
         else Ok false);
      if (selected : bool) then
        name ← dict_getitem table_schema "name";
        k ← to_key name;
        table_contents ←
          match alist_get k columns_and_tables_needed with
          | Some v => Ok v
          | None => Raise KeyError
          end;
        selection ← getitem table_contents "columns";
        columns ← py_set selection;
        '(ddl, calculated, json) ←
          build_table_ddl table_schema (Some columns) (Some tables);
        name ← dict_getitem table_schema "name";
        pruned_table_loop columns_and_tables_needed tables rest
          (a.1 ++ [{| table_name := name; table_ddl := ddl |}],
           note_table a.2 calculated json)
      else pruned_table_loop columns_and_tables_needed tables rest a
  end.

(** The loop over the raw fragments on the pruned path. *)
Fixpoint pruned_fragment_loop (columns_and_tables_needed : list (key * value))
    (documents : list Document) (a : acc) : result acc :=
  match documents with
  | [] => Ok a
  | document :: rest =>
      name ← meta_name document;
      if alist_in (KStr name) columns_and_tables_needed then
        parsed ← literal_eval document.(content);
        a' ← fragment_body parsed a;
        pruned_fragment_loop columns_and_tables_needed rest a'
      else pruned_fragment_loop columns_and_tables_needed rest a
  end.

(** [orjson.loads] accepts text only. *)
Definition loads (v : value) : result value :=
  match v with
  | VStr s => orjson_loads s
  | _ => Raise JSONDecodeError
  end.

Definition construct_retrieval_results
    (check : BudgetResult) (filter_columns_in_tables : dict)
    (construct_db_schemas : list dict) (dbschema_retrieval : list Document)
  : result Retrieval :=
  match filter_columns_in_tables with
  | _ :: _ =>
      replies ← dict_getitem filter_columns_in_tables "replies";
      reply ← getitem_0 replies;
      decoded ← loads reply;
      columns_and_tables_needed ← getitem decoded "results";
      items ← py_iter columns_and_tables_needed;
      columns_and_tables_needed ← reformat_loop items [];
      let tables : gset key := list_to_set (map fst columns_and_tables_needed) in
      a ← pruned_table_loop columns_and_tables_needed tables
             construct_db_schemas ([], no_flags);
      a ← pruned_fragment_loop columns_and_tables_needed dbschema_retrieval a;
      Ok {| retrieval_results := a.1; flags := a.2 |}
  | [] =>
      Ok {| retrieval_results := check.(db_schemas);
            flags := check.(budget_flags) |}
  end.
End stages.

(** ** Calls to the collaborators *)

(** The awaited calls of one request, in the order they are issued. *)
Inductive call (payload : Type) :=
| EmbedderRun (text : string)
| TableRetrieverRun (query : query_embedding payload) (filters : filter)
| DbschemaRetrieverRun (query : query_embedding payload) (filters : filter)
| GeneratorRun (prompt_text : string).

Arguments EmbedderRun {payload} text.
Arguments TableRetrieverRun {payload} query filters.
Arguments DbschemaRetrieverRun {payload} query filters.
Arguments GeneratorRun {payload} prompt_text.

(** A computation that may raise and that appends to the log of calls
    issued so far. *)
Definition M (payload : Type) (A : Type) : Type :=
  list (call payload) → result A * list (call payload).

#[global] Instance M_ret {payload} : MRet (M payload) := λ A x log, (Ok x, log).
#[global] Instance M_bind {payload} : MBind (M payload) :=
  λ A B f m log,
    match m log with
    | (Ok a, log') => f a log'
    | (Raise e, log') => (Raise e, log')
    end.

(** A step that calls no collaborator. *)
Definition pure_step {payload A} (r : result A) : M payload A :=
  λ log, (r, log).

(** An awaited call: it is logged, then its outcome is the step's. *)
Definition await {payload A} (c : call payload) (r : result A) : M payload A :=
  λ log, (r, log ++ [c]).

Section pipeline.
Context {payload : Type} {R : PyRuntime} {C : Common} {P : Providers payload}.

Definition embedding (query : string) (histories : list AskHistory)
  : M payload (list (string * payload)) :=
  match query with
  | String _ _ =>
      let query := with_histories query histories in
      await (EmbedderRun query) (embedder_run query)
  | EmptyString => mret []
  end.

(** The filter [table_retrieval] starts from, with the project
    condition when a project id is given. *)
Definition table_description_conditions (project_id : string) : list filter :=
  [Condition "type" "==" (VStr "TABLE_DESCRIPTION")]
  ++ match project_id with
     | String _ _ => [Condition "project_id" "==" (VStr project_id)]
     | EmptyString => []
     end.

Definition table_retrieval (embedding : list (string * payload))
    (project_id : string) (tables : value) : M payload RetrieverOutput :=
  let conditions := table_description_conditions project_id in
  match embedding with
  | _ :: _ =>
      let query := QGet (alist_get "embedding"%string embedding) in
      let filters := Group "AND" conditions in
      await (TableRetrieverRun query filters) (table_retriever_run query filters)
  | [] =>
      let filters := Group "AND" (conditions ++ [Condition "name" "in" tables]) in
      await (TableRetrieverRun QEmptyList filters)
            (table_retriever_run QEmptyList filters)
  end.

Fixpoint table_names_of (tables : list Document) : result (list value) :=
  match tables with
  | [] => Ok []
  | table :: rest =>
      parsed ← literal_eval table.(content);
      name ← getitem parsed "name";
      names ← table_names_of rest;
      Ok (name :: names)
  end.

Definition dbschema_retrieval (table_retrieval : RetrieverOutput)
    (project_id : string) : M payload (list Document) :=
  let tables := default [] table_retrieval.(documents) in
  table_names ← pure_step (table_names_of tables);
  let table_name_conditions := map (Condition "name" "==") table_names in
  match table_name_conditions with
  | _ :: _ =>
      let filters :=
        Group "AND"
          ([Condition "type" "==" (VStr "TABLE_SCHEMA");
            Group "OR" table_name_conditions]
           ++ match project_id with
              | String _ _ => [Condition "project_id" "==" (VStr project_id)]
              | EmptyString => []
              end) in
      results ← await (DbschemaRetrieverRun QEmptyList filters)
                      (dbschema_retriever_run QEmptyList filters);
      pure_step (match results.(documents) with
                 | Some docs => Ok docs
                 | None => Raise KeyError
                 end)
  | [] => mret []
  end.

(** [filter_columns_in_tables] as written: it returns a pair with the
    generator name. *)
Definition filter_columns_in_tables (prompt : option string)
  : M payload (dict * string) :=
  match prompt with
  | Some text =>
      reply ← await (GeneratorRun text) (table_columns_selection_generator text);
      mret (reply, generator_name)
  | None => mret ([], generator_name)
  end.

(** Modelled from the spec: the [trace_cost] decorator of [src.utils],
    which this module imports and applies to the step above. By §4.4
    and §4.5 the assembler receives the generator's answer itself, so
    the decorator takes the pair the step returns and hands on its
    first component. *)
Definition trace_cost {A} (step : M payload (A * string)) : M payload A :=
  '(r, _) ← step; mret r.

(** [None] for [tables] is passed on as it is. *)
Definition tables_value (tables : option (list string)) : value :=
  match tables with
  | Some l => VList (map VStr l)
  | None => VNone
  end.

(** The three retrieval steps up to the schema fragments. *)
Definition retrieve_fragments (query : string) (tables : value)
    (project_id : string) (histories : list AskHistory)
  : M payload (list Document) :=
  e ← embedding query histories;
  t ← table_retrieval e project_id tables;
  dbschema_retrieval t project_id.

(** The pruning request and the assembly that follow the budget
    evaluator. *)
Definition prune_and_assemble (query : string) (histories : list AskHistory)
    (schemas : list dict) (docs : list Document) (check : BudgetResult)
  : M payload Retrieval :=
  p ← pure_step (prompt query schemas prompt_builder_run check histories);
  f ← trace_cost (filter_columns_in_tables p);
  pure_step (construct_retrieval_results check f schemas docs).

(** [DbSchemaRetrieval.run]: the driver evaluates the steps
    [construct_retrieval_results] depends on, each once, in the order
    their parameters name one another. *)
Definition run (query : string) (tables : option (list string))
    (project_id : option string) (histories : option (list AskHistory))
    (enable_column_pruning : bool) : M payload Retrieval :=
  let project_id := default EmptyString project_id in
  let histories := default [] histories in
  docs ← retrieve_fragments query (tables_value tables) project_id histories;
  schemas ← pure_step (construct_db_schemas docs);
  check ← pure_step (check_using_db_schemas_without_pruning schemas docs
                        encoding enable_column_pruning context_window_size);
  prune_and_assemble query histories schemas docs check.
End pipeline.

(** ** The stages in the words of the specification *)

Section spec_words.
Context {R : PyRuntime} {C : Common}.

(** §4.3: "Builds DDL for every TABLE descriptor (no pruning)". *)
Definition table_candidate (table_schema : dict)
  : result (option (RetrievalResult * bool * bool)) :=
  ty ← dict_getitem table_schema "type";
  if value_is_str ty "TABLE" then
    '(ddl, calculated, json) ← build_table_ddl table_schema None None;
    name ← dict_getitem table_schema "name";
    Ok (Some ({| table_name := name; table_ddl := ddl |}, calculated, json))
  else Ok None.

(** §4.3: "plus every METRIC/VIEW fragment found among
    raw_fragments"; the flag tells a metric from a view. *)
Definition fragment_candidate (document : Document)
  : result (option (RetrievalResult * bool)) :=
  parsed ← literal_eval document.(content);
  ty ← getitem parsed "type";
  if value_is_str ty "METRIC" then
    name ← getitem parsed "name";
    ddl ← _build_metric_ddl parsed;
    Ok (Some ({| table_name := name; table_ddl := ddl |}, true))
  else if value_is_str ty "VIEW" then
    name ← getitem parsed "name";
    ddl ← _build_view_ddl parsed;
    Ok (Some ({| table_name := name; table_ddl := ddl |}, false))
  else Ok None.

Fixpoint for_each {A B} (f : A → result (option B)) (l : list A)
  : result (list B) :=
  match l with
  | [] => Ok []
  | x :: l' =>
      y ← f x;
      ys ← for_each f l';
      Ok (match y with Some b => b :: ys | None => ys end)
  end.

(** §3: the flags are an OR-reduction over what is included. *)
Definition or_flags (ts : list (RetrievalResult * bool * bool))
    (fs : list (RetrievalResult * bool)) : AggregateFlags :=
  {| has_calculated_field := existsb (λ t, t.1.2) ts;
     has_metric := existsb snd fs;
     has_json_field := existsb snd ts |}.

(** §4.3: the unpruned candidate set, tables first, then the metrics
    and views of the fragment scan. *)
Definition candidate_set (schemas : list dict) (documents : list Document)
  : result (list RetrievalResult * AggregateFlags) :=
  ts ← for_each table_candidate schemas;
  fs ← for_each fragment_candidate documents;
  Ok (map (λ t, t.1.1) ts ++ map fst fs, or_flags ts fs).

(** The flags after a loop that started from [f] and went through
    the table candidates [ts] and the fragment candidates [fs]. *)
Definition flags_after (f : AggregateFlags)
    (ts : list (RetrievalResult * bool * bool))
    (fs : list (RetrievalResult * bool)) : AggregateFlags :=
  {| has_calculated_field := f.(has_calculated_field) || existsb (λ t, t.1.2) ts;
     has_metric := f.(has_metric) || existsb snd fs;
     has_json_field := f.(has_json_field) || existsb snd ts |}.

(** §4.3: "if token_count > model_context_window OR force_pruning is
    set". *)
Definition pruning_required (token_count : nat) (model_context_window : Z)
    (force_pruning : bool) : Prop :=
  (Z.of_nat token_count > model_context_window)%Z ∨ force_pruning = true.
End spec_words.

(** ** Reassembly in the words of the specification *)

Section merge_words.
Context {R : PyRuntime}.

(** §4.2: "if its declared kind is TABLE, merge static fields into
    the entry, preserving any columns already accumulated; if
    TABLE_COLUMNS, append/attach its column list to the entry's
    columns (creating the entry if absent, with only columns
    populated)". The entry of one table name is [None] while no
    fragment has created it. *)
Definition merge_fragment (entry : option dict) (c : dict) (ty : value)
  : result (option dict) :=
  if value_is_str ty "TABLE" then
    Ok (Some match entry with
             | None => c
             | Some e =>
                 dict_set "columns" (dict_get_default "columns" (VList []) e) c
             end)
  else if value_is_str ty "TABLE_COLUMNS" then
    columns ← dict_getitem c "columns";
    match entry with
    | None => Ok (Some [("columns"%string, columns)])
    | Some e =>
        match dict_get "columns" e with
        | None => Ok (Some (dict_set "columns" columns e))
        | Some old => new ← iadd old columns; Ok (Some (dict_set "columns" new e))
        end
    end
  else Ok entry.

(** The fragments of one table name merged in their order of
    arrival. *)
Fixpoint merge_fragments (documents : list Document) (entry : option dict)
  : result (option dict) :=
  match documents with
  | [] => Ok entry
  | document :: rest =>
      parsed ← literal_eval document.(content);
      match parsed with
      | VDict c =>
          ty ← dict_getitem c "type";
          entry' ← merge_fragment entry c ty;
          merge_fragments rest entry'
      | _ => Raise TypeError
      end
  end.

(** The fragment is stored under the table name [name]. *)
Definition has_name (name : string) (document : Document) : bool :=
  bool_decide (alist_get "name"%string document.(meta) = Some name).

(** §4.2: "drop any entry missing a type tag or missing a columns
    list". *)
Definition complete (entry : dict) : bool :=
  dict_in "type" entry && dict_in "columns" entry.

Definition surfaced (entry : option dict) : option dict :=
  match entry with
  | Some e => if complete e then Some e else None
  | None => None
  end.

(** A fragment the reassembler can take in: its content decodes to a
    dict with a type, and a TABLE or TABLE_COLUMNS fragment has a
    name in its meta. *)
Definition mergeable (document : Document) : Prop :=
  ∃ c ty,
    literal_eval document.(content) = Ok (VDict c)
    ∧ dict_getitem c "type" = Ok ty
    ∧ (value_is_str ty "TABLE" || value_is_str ty "TABLE_COLUMNS" = true →
       ∃ name, meta_name document = Ok name).

(** The fragment is of the kind [ty] and stored under [name]. *)
Definition fragment_of (ty name : string) (document : Document) : bool :=
  has_name name document
  && match literal_eval document.(content) with
     | Ok (VDict c) =>
         match dict_get "type" c with
         | Some t => value_is_str t ty
         | None => false
         end
     | _ => false
     end.

(** The table names of the TABLE and TABLE_COLUMNS fragments, in
    their order of arrival. *)
Fixpoint merged_names (documents : list Document) : list string :=
  match documents with
  | [] => []
  | document :: rest =>
      match meta_name document with
      | Ok name =>
          if fragment_of "TABLE" name document
             || fragment_of "TABLE_COLUMNS" name document
          then name :: merged_names rest
          else merged_names rest
      | Raise _ => merged_names rest
      end
  end.

(** §4.2: "insertion order = first-seen order". *)
Fixpoint first_seen (names seen : list string) : list string :=
  match names with
  | [] => seen
  | name :: rest =>
      first_seen rest (if bool_decide (name ∈ seen) then seen else seen ++ [name])
  end.

(** §3: "a TABLE fragment supplies everything except columns; a
    TABLE_COLUMNS fragment supplies (and can append to) the column
    list". The content decodes to a dict with a type, a TABLE or
    TABLE_COLUMNS fragment is stored under a table name, a TABLE
    content has no columns of its own and a TABLE_COLUMNS content has
    a list of columns. *)
Definition as_specified (document : Document) : Prop :=
  ∃ c ty,
    literal_eval document.(content) = Ok (VDict c)
    ∧ dict_getitem c "type" = Ok ty
    ∧ (value_is_str ty "TABLE" || value_is_str ty "TABLE_COLUMNS" = true →
       ∃ name, meta_name document = Ok name)
    ∧ (value_is_str ty "TABLE" = true → dict_get "columns" c = None)
    ∧ (value_is_str ty "TABLE_COLUMNS" = true →
       ∃ columns, dict_get "columns" c = Some (VList columns)).

(** The TABLE fragments and the TABLE_COLUMNS fragments stored under
    a table name, in their order of arrival. *)
Definition table_fragments (name : string) (documents : list Document)
  : list Document :=
  List.filter (fragment_of "TABLE" name) documents.

Definition column_fragments (name : string) (documents : list Document)
  : list Document :=
  List.filter (fragment_of "TABLE_COLUMNS" name) documents.

Definition fragment_content (document : Document) : dict :=
  match literal_eval document.(content) with
  | Ok (VDict c) => c
  | _ => []
  end.

Definition fragment_columns (document : Document) : list value :=
  match dict_get "columns" (fragment_content document) with
  | Some (VList l) => l
  | _ => []
  end.

(** The columns the entry of a table name ends up with, given its
    TABLE fragments and its TABLE_COLUMNS fragments: those of the
    TABLE_COLUMNS fragments, one after the other. Without any such
    fragment the entry has a [columns] key only by a second TABLE
    fragment. *)
Definition merged_columns (tables columns : list Document)
  : option (list value) :=
  match columns, tables with
  | [], ([] | [_]) => None
  | _, _ => Some (concat (map fragment_columns columns))
  end.

(** The entry of a table name: the content of its last TABLE fragment
    with the columns above. *)
Definition merged_entry (tables columns : list Document) : option dict :=
  match last tables, merged_columns tables columns with
  | None, None => None
  | None, Some l => Some [("columns"%string, VList l)]
  | Some t, None => Some (fragment_content t)
  | Some t, Some l => Some (dict_set "columns" (VList l) (fragment_content t))
  end.
End merge_words.

(** ** The pruned path in the words of the specification *)

Section selection_words.
Context {R : PyRuntime} {C : Common}.

(** The name a reassembled descriptor carries, [None] when it has
    none. *)
Definition descriptor_name (table_schema : dict) : value :=
  match dict_getitem table_schema "name" with
  | Ok name => name
  | Raise _ => VNone
  end.

(** §4.5: a TABLE descriptor "whose name appears in
    pruning_selection". *)
Definition selected_table (tables : gset key) (table_schema : dict) : bool :=
  match dict_getitem table_schema "type", dict_getitem table_schema "name" with
  | Ok ty, Ok name =>
      value_is_str ty "TABLE"
      && match to_key name with
         | Ok k => bool_decide (k ∈ tables)
         | Raise _ => false
         end
  | _, _ => false
  end.

Definition fragment_type_in (types : list string) (document : Document) : bool :=
  match literal_eval document.(content) with
  | Ok parsed =>
      match getitem parsed "type" with
      | Ok ty => existsb (value_is_str ty) types
      | Raise _ => false
      end
  | Raise _ => false
  end.

(** The name inside a fragment's content, [None] when it has
    none. *)
Definition fragment_name (document : Document) : value :=
  match literal_eval document.(content) with
  | Ok parsed =>
      match getitem parsed "name" with
      | Ok name => name
      | Raise _ => VNone
      end
  | Raise _ => VNone
  end.

(** §4.5: a raw fragment "of kind METRIC/VIEW whose table name
    appears in pruning_selection". *)
Definition selected_fragment (selection : list (key * value))
    (document : Document) : bool :=
  match meta_name document with
  | Ok name =>
      alist_in (KStr name) selection
      && fragment_type_in ["METRIC"; "VIEW"]%string document
  | Raise _ => false
  end.

(** The column set a selection entry stands for, as the assembler
    reads it: [set(table_contents["columns"])]. *)
Definition selected_columns (table_contents : value) : result (gset key) :=
  selection ← getitem table_contents "columns";
  py_set selection.

(** Two entries of the reply's [results] that name the same table and
    select the same set of columns. *)
Definition same_entry (table table' : value) : Prop :=
  getitem table "table_name" = getitem table' "table_name"
  ∧ match getitem table "table_contents", getitem table' "table_contents" with
    | Ok c, Ok c' => selected_columns c = selected_columns c'
    | Raise e, Raise e' => e = e'
    | _, _ => False
    end.

(** Two entries of the re-keyed selection under the same name that
    stand for the same set of columns. *)
Definition same_selection (kv kv' : key * value) : Prop :=
  kv.1 = kv'.1 ∧ selected_columns kv.2 = selected_columns kv'.2.

(** The entries of [results] in the generator's answer: the steps of
    [construct_retrieval_results] from [replies] to the iteration
    over [results]. *)
Definition reply_items (filter_columns_in_tables : dict) : result (list value) :=
  replies ← dict_getitem filter_columns_in_tables "replies";
  reply ← getitem_0 replies;
  decoded ← loads reply;
  columns_and_tables_needed ← getitem decoded "results";
  py_iter columns_and_tables_needed.

(** The names of the selection, [set(columns_and_tables_needed.keys())]. *)
Definition selection_names (selection : list (key * value)) : gset key :=
  list_to_set (map fst selection).

(** The key under which an entry of [results] is stored. *)
Definition entry_key (table : value) : result key :=
  name ← getitem table "table_name";
  to_key name.


(** §4.5: "for each table descriptor whose name appears in
    pruning_selection, rebuild DDL via §4.1 using that table's
    selected column set and the full set of selected table names". *)
Definition pruned_table_candidate (selection : list (key * value))
    (table_schema : dict) : result (option (RetrievalResult * bool * bool)) :=
  ty ← dict_getitem table_schema "type";
  if value_is_str ty "TABLE" then
    name ← dict_getitem table_schema "name";
    k ← to_key name;
    match alist_get k selection with
    | Some table_contents =>
        columns ← selected_columns table_contents;
        '(ddl, calculated, json) ←
          build_table_ddl table_schema (Some columns)
            (Some (selection_names selection));
        Ok (Some ({| table_name := name; table_ddl := ddl |}, calculated, json))
    | None => Ok None
    end
  else Ok None.

(** §4.5: "for each raw fragment of kind METRIC/VIEW whose table name
    appears in pruning_selection, build its DDL unconditionally". *)
Definition pruned_fragment_candidate (selection : list (key * value))
    (document : Document) : result (option (RetrievalResult * bool)) :=
  name ← meta_name document;
  if alist_in (KStr name) selection then fragment_candidate document
  else Ok None.

(** §4.5: the pruned result, tables first, then the metrics and views
    of the fragment scan, with the flags of what is included. *)
Definition pruned_set (selection : list (key * value)) (schemas : list dict)
    (documents : list Document) : result Retrieval :=
  ts ← for_each (pruned_table_candidate selection) schemas;
  fs ← for_each (pruned_fragment_candidate selection) documents;
  Ok {| retrieval_results := map (λ t, t.1.1) ts ++ map fst fs;
        flags := or_flags ts fs |}.





End selection_words.

(** The conditions of a filter group on the field [name]. *)
Definition name_conditions (f : filter) : list filter :=
  match f with
  | Group _ conditions =>
      List.filter (λ c, match c with
                        | Condition field _ _ => String.eqb field "name"
                        | Group _ _ => false
                        end) conditions
  | Condition _ _ _ => []
  end.

(** ** Sample collaborators and fragments for the examples *)

Module Sample.

Definition ascii_lower (c : ascii) : ascii :=
  let n := nat_of_ascii c in
  if (65 <=? n)%nat && (n <=? 90)%nat then ascii_of_nat (n + 32) else c.

Fixpoint lower (s : string) : string :=
  match s with
  | EmptyString => EmptyString
  | String c s' => String (ascii_lower c) (lower s')
  end.

(** Formatting inside an f-string: a string is inserted as it is.
    Lists and dicts, which the examples never format, are shown as
    an ellipsis. *)
Definition format (v : value) : string :=
  match v with
  | VStr s => s
  | VNone => "None"
  | VBool true => "True"
  | VBool false => "False"
  | VInt z => pretty z
  | VList _ | VDict _ => "..."
  end.

Definition column (name data_type : string) : value :=
  VDict [("type", VStr "COLUMN"); ("comment", VStr EmptyString);
         ("name", VStr name); ("data_type", VStr data_type)]%string.

Definition column_text (name data_type : string) : string :=
  "{'type': 'COLUMN', 'comment': '', 'name': '" +:+ name
  +:+ "', 'data_type': '" +:+ data_type +:+ "'}".

Definition table_text (name : string) : string :=
  "{'type': 'TABLE', 'comment': '', 'name': '" +:+ name +:+ "'}".

Definition table_value (name : string) : dict :=
  [("type", VStr "TABLE"); ("comment", VStr EmptyString); ("name", VStr name)]%string.

(** The same table stored with a comment. *)
Definition commented_table_text (name : string) : string :=
  "{'type': 'TABLE', 'comment': '-- sales', 'name': '" +:+ name +:+ "'}".

Definition commented_table_value (name : string) : dict :=
  [("type", VStr "TABLE"); ("comment", VStr "-- sales"); ("name", VStr name)]%string.

(** A table stored whole, with its columns. *)
Definition whole_table_text (name : string) (column_texts : list string) : string :=
  "{'type': 'TABLE', 'comment': '', 'name': '" +:+ name +:+ "', 'columns': ["
  +:+ join ", " column_texts +:+ "]}".

Definition whole_table_value (name : string) (columns : list value) : dict :=
  [("type", VStr "TABLE"); ("comment", VStr EmptyString); ("name", VStr name);
   ("columns", VList columns)]%string.

Definition columns_text (column_texts : list string) : string :=
  "{'type': 'TABLE_COLUMNS', 'columns': [" +:+ join ", " column_texts +:+ "]}".

Definition columns_value (columns : list value) : dict :=
  [("type", VStr "TABLE_COLUMNS"); ("columns", VList columns)]%string.

Definition view_text : string :=
  "{'type': 'VIEW', 'comment': '', 'name': 'recent', 'statement': 'SELECT 1'}".

Definition view_value : dict :=
  [("type", VStr "VIEW"); ("comment", VStr EmptyString);
   ("name", VStr "recent"); ("statement", VStr "SELECT 1")]%string.

Definition metric_text : string :=
  "{'type': 'METRIC', 'comment': '', 'name': 'revenue', 'columns': ["
  +:+ column_text "total" "integer" +:+ "]}".

Definition metric_value : dict :=
  [("type", VStr "METRIC"); ("comment", VStr EmptyString);
   ("name", VStr "revenue"); ("columns", VList [column "total" "integer"])]%string.

Definition description_text (name : string) : string :=
  "{'name': '" +:+ name +:+ "', 'description': ''}".

Definition description_value (name : string) : dict :=
  [("name", VStr name); ("description", VStr EmptyString)]%string.

(** A fragment cut off in the middle, which [ast.literal_eval]
    rejects with a [SyntaxError]. *)
Definition malformed_text : string := "{'type': 'TABLE', 'name': ".

(** The fragment texts of the examples with the literal each one
    denotes. *)
Definition literals : list (string * value) :=
  [(table_text "orders", VDict (table_value "orders"));
   (table_text "customers", VDict (table_value "customers"));
   (commented_table_text "orders", VDict (commented_table_value "orders"));
   (whole_table_text "orders" [column_text "id" "integer"],
    VDict (whole_table_value "orders" [column "id" "integer"]));
   (columns_text [column_text "id" "integer"],
    VDict (columns_value [column "id" "integer"]));
   (columns_text [column_text "amt" "unknown"],
    VDict (columns_value [column "amt" "unknown"]));
   (columns_text [column_text "name" "varchar"],
    VDict (columns_value [column "name" "varchar"]));
   (view_text, VDict view_value);
   (metric_text, VDict metric_value);
   (description_text "orders", VDict (description_value "orders"));
   (description_text "customers", VDict (description_value "customers"))].

(** A decoder that agrees with [ast.literal_eval] on the texts of
    the examples: those of [literals] and [malformed_text]. *)
Definition decode_literal (text : string) : result value :=
  match alist_get text literals with
  | Some v => Ok v
  | None => Raise SyntaxError
  end.

Definition dq : string := String (ascii_of_nat 34) EmptyString.

Definition quoted (s : string) : string := dq +:+ s +:+ dq.

(** One entry of the reply's [results] as JSON text and as the value
    it denotes. *)
Definition entry_text (name : string) (columns reasons : list string) : string :=
  "{" +:+ quoted "table_selection_reason" +:+ ": " +:+ quoted "relevant" +:+ ", "
  +:+ quoted "table_contents" +:+ ": {"
  +:+ quoted "chain_of_thought_reasoning" +:+ ": ["
  +:+ join ", " (map quoted reasons) +:+ "], "
  +:+ quoted "columns" +:+ ": [" +:+ join ", " (map quoted columns) +:+ "]}, "
  +:+ quoted "table_name" +:+ ": " +:+ quoted name +:+ "}".

Definition entry_value (name : string) (columns reasons : list string) : value :=
  VDict [("table_selection_reason", VStr "relevant");
         ("table_contents",
          VDict [("chain_of_thought_reasoning", VList (map VStr reasons));
                 ("columns", VList (map VStr columns))]);
         ("table_name", VStr name)]%string.

Definition reply_text (entries : list string) : string :=
  "{" +:+ quoted "results" +:+ ": [" +:+ join ", " entries +:+ "]}".

Definition reply_value (entries : list value) : value :=
  VDict [("results"%string, VList entries)].

Definition orders_entry_text : string :=
  entry_text "orders" ["id"] ["needed for join"].
Definition orders_entry : value :=
  entry_value "orders" ["id"] ["needed for join"].
Definition orders_twice_entry_text : string :=
  entry_text "orders" ["id"; "id"] ["needed for join"; "again"].
Definition orders_twice_entry : value :=
  entry_value "orders" ["id"; "id"] ["needed for join"; "again"].
Definition orders_amt_entry_text : string :=
  entry_text "orders" ["amt"] ["the amount"].
Definition orders_amt_entry : value :=
  entry_value "orders" ["amt"] ["the amount"].
Definition ghost_entry_text : string :=
  entry_text "invoices" ["total"] ["asked for"].
Definition ghost_entry : value :=
  entry_value "invoices" ["total"] ["asked for"].

(** A reply whose [results] is an object where a list is expected. *)
Definition results_object_text : string := "{" +:+ quoted "results" +:+ ": {}}".

(** A reply whose [results] lists table names where entries are
    expected. *)
Definition results_names_text : string :=
  "{" +:+ quoted "results" +:+ ": [" +:+ quoted "orders" +:+ "]}".

(** A reply without [results]. *)
Definition no_results_text : string := "{" +:+ quoted "answer" +:+ ": []}".

(** A reply cut off in the middle. *)
Definition malformed_reply_text : string := "{" +:+ quoted "results" +:+ ": [".

Definition replies : list (string * value) :=
  [(reply_text [orders_entry_text], reply_value [orders_entry]);
   (reply_text [orders_twice_entry_text], reply_value [orders_twice_entry]);
   (reply_text [orders_amt_entry_text; orders_entry_text],
    reply_value [orders_amt_entry; orders_entry]);
   (reply_text [orders_entry_text; ghost_entry_text],
    reply_value [orders_entry; ghost_entry]);
   (results_object_text, VDict [("results"%string, VDict [])]);
   (results_names_text, VDict [("results"%string, VList [VStr "orders"])]);
   (no_results_text, VDict [("answer"%string, VList [])])].

(** A decoder that agrees with [orjson.loads] on the texts of the
    examples: those of [replies] and [malformed_reply_text]. *)
Definition decode_json (text : string) : result value :=
  match alist_get text replies with
  | Some v => Ok v
  | None => Raise JSONDecodeError
  end.

Definition runtime : PyRuntime :=
  {| literal_eval := decode_literal;
     orjson_loads := decode_json;
     str_lower := lower;
     format_value := format |}.

Definition ascii_upper (c : ascii) : ascii :=
  let n := nat_of_ascii c in
  if (97 <=? n)%nat && (n <=? 122)%nat then ascii_of_nat (n - 32) else c.

Fixpoint upper (s : string) : string :=
  match s with
  | EmptyString => EmptyString
  | String c s' => String (ascii_upper c) (upper s')
  end.

(** The column lines of a table DDL with the two flags. *)
Fixpoint table_columns_ddl (columns : list value) (selected : option (gset key))
  : result (list string * bool * bool) :=
  match columns with
  | [] => Ok ([], false, false)
  | column :: rest =>
      name ← getitem column "name";
      k ← to_key name;
      data_type ← getitem column "data_type";
      s ← str_of data_type;
      comment ← getitem column "comment";
      '(ddls, calculated, json) ← table_columns_ddl rest selected;
      let chosen :=
        match selected with
        | Some names => bool_decide (k ∈ names)
        | None => true
        end in
      if chosen && negb (String.eqb (lower s) "unknown") then
        Ok ((format comment +:+ format name +:+ " " +:+ upper s) :: ddls,
            calculated
            || match getitem column "is_calculated" with
               | Ok (VBool true) => true
               | _ => false
               end,
            json || String.eqb (lower s) "json")
      else Ok (ddls, calculated, json)
  end.

(** Modelled from the spec: [build_table_ddl] of
    [src.pipelines.common], after §4.1, for the examples: a
    [CREATE TABLE] statement with one line per column, without the
    columns of type unknown and, when a selection is given, without
    the columns outside it. *)
Definition table_ddl_of (table_schema : dict)
    (columns tables : option (gset key)) : result (string * bool * bool) :=
  cols ← dict_getitem table_schema "columns";
  items ← py_iter cols;
  '(ddls, calculated, json) ← table_columns_ddl items columns;
  comment ← dict_getitem table_schema "comment";
  name ← dict_getitem table_schema "name";
  Ok (format comment +:+ "CREATE TABLE " +:+ format name +:+ " (" +:+ nl +:+ "  "
      +:+ join ("," +:+ nl +:+ "  ") ddls +:+ nl +:+ ");",
      calculated, json).

Definition common : Common :=
  {| build_table_ddl := table_ddl_of;
     clean_up_new_lines := id;
     get_engine_supported_data_type := upper |}.

Definition schema_document (name text : string) : Document :=
  {| content := text;
     meta := [("type", "TABLE_SCHEMA"); ("name", name)]%string |}.

Definition orders_table : Document := schema_document "orders" (table_text "orders").
Definition orders_commented : Document :=
  schema_document "orders" (commented_table_text "orders").
Definition orders_whole : Document :=
  schema_document "orders" (whole_table_text "orders" [column_text "id" "integer"]).
Definition orders_id : Document :=
  schema_document "orders" (columns_text [column_text "id" "integer"]).
Definition orders_amt : Document :=
  schema_document "orders" (columns_text [column_text "amt" "unknown"]).
Definition customers_table : Document :=
  schema_document "customers" (table_text "customers").
Definition customers_name : Document :=
  schema_document "customers" (columns_text [column_text "name" "varchar"]).
Definition recent_view : Document := schema_document "recent" view_text.
Definition revenue_metric : Document := schema_document "revenue" metric_text.
Definition malformed : Document := schema_document "orders" malformed_text.

Definition description_document (name : string) : Document :=
  {| content := description_text name;
     meta := [("type", "TABLE_DESCRIPTION"); ("name", name)]%string |}.

(** The fragments the sample store returns. *)
Definition stored : list Document :=
  [orders_table; orders_id; orders_amt; customers_table; customers_name; recent_view].

(** One token per character. *)
Definition one_per_char (text : string) : result (list nat) :=
  Ok (map nat_of_ascii (list_ascii_of_string text)).

Definition render (question : string) (ddls : list string) : string :=
  nl +:+ "### Database Schema ###" +:+ nl +:+ nl
  +:+ join nl ddls +:+ nl +:+ nl
  +:+ "### INPUT ###" +:+ nl +:+ question +:+ nl.

(** Collaborators over the sample store: the generator answers with
    [reply], the model has a context window of [window] tokens. *)
Definition providers (window : Z) (reply : string) (fragments : list Document)
  : Providers value :=
  {| embedder_run := λ _,
       Ok [("embedding", VList [VInt 1; VInt 0]); ("meta", VDict [])]%string;
     table_retriever_run := λ _ _,
       Ok {| documents :=
               Some [description_document "orders"; description_document "customers"] |};
     dbschema_retriever_run := λ _ _, Ok {| documents := Some fragments |};
     table_columns_selection_generator := λ _,
       Ok [("replies", VList [VStr reply]); ("meta", VList [])]%string;
     generator_name := "sample-model";
     prompt_builder_run := λ question ddls, Ok (render question ddls);
     encoding := one_per_char;
     context_window_size := window |}.

(** The two tables the sample store reassembles to. *)
Definition orders_schema : dict :=
  table_value "orders"
  ++ [("columns"%string, VList [column "id" "integer"; column "amt" "unknown"])].

Definition customers_schema : dict :=
  table_value "customers"
  ++ [("columns"%string, VList [column "name" "varchar"])].

Definition schemas : list dict := [orders_schema; customers_schema].

Definition orders_ddl : string :=
  "CREATE TABLE orders (" +:+ nl +:+ "  id INTEGER" +:+ nl +:+ ");".

Definition customers_ddl : string :=
  "CREATE TABLE customers (" +:+ nl +:+ "  name VARCHAR" +:+ nl +:+ ");".

Definition recent_ddl : string :=
  "CREATE VIEW recent" +:+ nl +:+ "AS SELECT 1".

(** The unpruned candidates of the sample store. *)
Definition candidates : list RetrievalResult :=
  [{| table_name := VStr "orders"; table_ddl := orders_ddl |};
   {| table_name := VStr "customers"; table_ddl := customers_ddl |};
   {| table_name := VStr "recent"; table_ddl := recent_ddl |}].
End Sample.


(** ** The rest of the module *)

(** [needle in hay] on strings. *)
Fixpoint contains (needle hay : string) : bool :=
  String.prefix needle hay
  || match hay with
     | EmptyString => false
     | String _ hay' => contains needle hay'
     end.

(** The tokenizer [DbSchemaRetrieval.__init__] loads for the model
    named [_model], by the name of the encoding. *)
Definition encoding_name (_model : string) : string :=
  if contains "gpt-4o" _model || contains "gpt-4o-mini" _model
  then "o200k_base"
  else "cl100k_base".

(** The position of a call in a request: embedder, table retriever,
    schema retriever, generator. *)
Definition call_kind {payload} (c : call payload) : nat :=
  match c with
  | EmbedderRun _ => 0
  | TableRetrieverRun _ _ => 1
  | DbschemaRetrieverRun _ _ => 2
  | GeneratorRun _ => 3
  end.

(** The kinds are strictly increasing and lie from [lo] up to but not
    including [hi]. *)
Fixpoint ascending (lo hi : nat) (kinds : list nat) : Prop :=
  match kinds with
  | [] => lo ≤ hi
  | k :: rest => lo ≤ k ∧ ascending (S k) hi rest
  end.

(** The step appends to the log calls of strictly increasing kinds, all
    from [lo] up to but not including [hi], and leaves the calls logged
    before as they are. *)
Definition emits {payload A} (lo hi : nat) (step : M payload A) : Prop :=
  ∀ log, ∃ calls,
    (step log).2 = log ++ calls
    ∧ ascending lo hi (map call_kind calls).

Section further_words.
Context {R : PyRuntime} {C : Common}.

(** The condition of the list comprehension of [_build_metric_ddl]:
    the data type of the column is a string that does not lower-case
    to [unknown]. *)
Definition metric_column_kept (column : value) : bool :=
  match getitem column "data_type" with
  | Ok (VStr s) => negb (String.eqb (str_lower s) "unknown")
  | _ => false
  end.

(** [table_schema["type"] == "TABLE"], false when there is no type. *)
Definition is_table (table_schema : dict) : bool :=
  match dict_getitem table_schema "type" with
  | Ok ty => value_is_str ty "TABLE"
  | Raise _ => false
  end.

(** The columns entry of a dict, when it has one, is a list. *)
Definition columns_listed (d : dict) : Prop :=
  match dict_get "columns" d with
  | Some (VList _) | None => True
  | Some _ => False
  end.

(** A fragment of the shape the reassembler is written for: the
    content decodes to a dict with a type; a TABLE or TABLE_COLUMNS
    fragment has a name in its meta; a TABLE_COLUMNS fragment has a
    list of columns, and a TABLE fragment has no columns of its own or
    a list of them. *)
Definition well_formed (document : Document) : Prop :=
  ∃ c ty,
    literal_eval document.(content) = Ok (VDict c)
    ∧ dict_getitem c "type" = Ok ty
    ∧ (value_is_str ty "TABLE" || value_is_str ty "TABLE_COLUMNS" = true →
       ∃ name, meta_name document = Ok name)
    ∧ (value_is_str ty "TABLE_COLUMNS" = true →
       ∃ columns, dict_get "columns" c = Some (VList columns))
    ∧ (value_is_str ty "TABLE" = true → columns_listed c).

(** The entry has no type or the type [TABLE]. *)
Definition table_or_untyped (entry : option dict) : Prop :=
  match entry with
  | Some e =>
      match dict_get "type" e with
      | Some ty => value_is_str ty "TABLE" = true
      | None => True
      end
  | None => True
  end.
End further_words.

(** ** Properties *)

Section alist_properties.
Context {K V : Type} `{EqDecision K}.
Implicit Types (d : list (K * V)) (k : K) (v : V).

Lemma alist_get_set_eq k v d : alist_get k (alist_set k v d) = Some v.
Proof.
  induction d as [|[k' v'] d IH]; simpl.
  - by rewrite decide_True.
  - destruct (decide (k' = k)) as [->|Hne]; simpl.
    + by rewrite decide_True.
    + by rewrite decide_False.
Qed.

Lemma alist_get_set_ne k k' v d :
  k ≠ k' → alist_get k' (alist_set k v d) = alist_get k' d.
Proof.
  intros Hne. induction d as [|[k0 v0] d IH]; simpl.
  - by rewrite decide_False.
  - destruct (decide (k0 = k)) as [->|Hne0]; simpl.
    + by rewrite !decide_False.
    + by rewrite IH.
Qed.

Lemma alist_get_Some_elem k v d : alist_get k d = Some v → (k, v) ∈ d.
Proof.
  induction d as [|[k' v'] d IH]; simpl; [done|].
  destruct (decide (k' = k)) as [->|Hne].
  - intros [= ->]. apply list_elem_of_here.
  - intros Hget. apply list_elem_of_further. by apply IH.
Qed.

Lemma alist_get_None k d : alist_get k d = None ↔ k ∉ map fst d.
Proof.
  induction d as [|[k' v'] d IH]; simpl.
  - split; [intros _; apply not_elem_of_nil|done].
  - rewrite not_elem_of_cons. destruct (decide (k' = k)) as [->|Hne].
    + split; [done|]. by intros [? _].
    + rewrite IH. split; [by split|by intros [_ ?]].
Qed.

Lemma alist_in_keys k d : alist_in k d = true ↔ k ∈ map fst d.
Proof.
  unfold alist_in. destruct (alist_get k d) as [v|] eqn:Hget.
  - split; [intros _|done].
    apply alist_get_Some_elem in Hget.
    apply list_elem_of_fmap. by exists (k, v).
  - apply alist_get_None in Hget. split; [done|]. intros ?. by destruct Hget.
Qed.

Lemma alist_set_keys k v d :
  map fst (alist_set k v d)
  = if alist_in k d then map fst d else map fst d ++ [k].
Proof.
  unfold alist_in. induction d as [|[k' v'] d IH]; simpl; [done|].
  destruct (decide (k' = k)) as [->|Hne]; simpl; [done|].
  rewrite IH. by destruct (alist_get k d).
Qed.

Lemma alist_set_NoDup k v d : NoDup (map fst d) → NoDup (map fst (alist_set k v d)).
Proof.
  intros Hd. rewrite alist_set_keys.
  destruct (alist_in k d) eqn:Hin; [done|].
  apply NoDup_app. split; [done|]. split; [|apply NoDup_singleton].
  intros x Hx ->%list_elem_of_singleton.
  apply alist_in_keys in Hx. congruence.
Qed.

Lemma alist_NoDup_elem k v d :
  NoDup (map fst d) → (k, v) ∈ d ↔ alist_get k d = Some v.
Proof.
  intros Hd. split; [|apply alist_get_Some_elem].
  induction d as [|[k' v'] d IH]; simpl; [by intros ?%elem_of_nil|].
  apply NoDup_cons in Hd as [Hk' Hd].
  intros [[= -> ->]|Hin]%elem_of_cons.
  - by rewrite decide_True.
  - destruct (decide (k' = k)) as [->|Hne]; [|by apply IH].
    destruct Hk'. apply list_elem_of_fmap. by exists (k, v).
Qed.
Lemma alist_set_set k v v' d :
  alist_set k v (alist_set k v' d) = alist_set k v d.
Proof.
  induction d as [|[k' w] d IH]; simpl.
  - by rewrite decide_True.
  - destruct (decide (k' = k)) as [->|Hne]; simpl.
    + by rewrite decide_True.
    + rewrite decide_False by done. by rewrite IH.
Qed.
End alist_properties.

Section embedding_properties.
Context {payload : Type} {R : PyRuntime} {C : Common} {P : Providers payload}.

Lemma name_conditions_base project_id extra :
  name_conditions (Group "AND" (table_description_conditions project_id ++ extra))
  = name_conditions (Group "AND" extra).
Proof.
  unfold table_description_conditions. destruct project_id; reflexivity.
Qed.

(** C9. With an empty query the embedding step returns the empty
    dict without calling the embedder, and table retrieval then calls
    the retriever with the empty list as query embedding and a filter
    that ends with the condition [name in tables]. With a non-empty
    query the embedder is called on the history questions joined by
    newlines, a newline and the query; when it answers with a
    non-empty dict, table retrieval passes on its [embedding] entry
    and the filter has no condition on [name]. *)
Theorem empty_query_falls_back_to_name_filter
    (histories : list AskHistory) (project_id : string) (tables : value)
    (log : list (call payload)) :
  (embedding "" histories log = (Ok [], log)
   ∧ let filters :=
       Group "AND" (table_description_conditions project_id
                    ++ [Condition "name" "in" tables]) in
     (e ← embedding "" histories; table_retrieval e project_id tables) log
     = (table_retriever_run QEmptyList filters,
        log ++ [TableRetrieverRun QEmptyList filters])
     ∧ name_conditions filters = [Condition "name" "in" tables])
  ∧ ∀ query : string, query ≠ EmptyString →
      let text := join nl (map question histories) +:+ nl +:+ query in
      embedding query histories log = (embedder_run text, log ++ [EmbedderRun text])
      ∧ ∀ e, embedder_run text = Ok e → e ≠ [] →
          let filters := Group "AND" (table_description_conditions project_id) in
          let vector := QGet (alist_get "embedding"%string e) in
          (e ← embedding query histories; table_retrieval e project_id tables) log
          = (table_retriever_run vector filters,
             log ++ [EmbedderRun text; TableRetrieverRun vector filters])
          ∧ name_conditions filters = [].
Proof.
  split.
  - split; [reflexivity|]. split; [reflexivity|].
    rewrite name_conditions_base. reflexivity.
  - intros query Hq. destruct query as [|c query]; [done|].
    split; [reflexivity|].
    intros e He Hne. split.
    + unfold mbind, M_bind, embedding, await, with_histories.
      rewrite He. destruct e as [|kv e]; [done|].
      unfold table_retrieval, await. by rewrite <- app_assoc.
    + rewrite <- (app_nil_r (table_description_conditions project_id)).
      by rewrite name_conditions_base.
Qed.
End embedding_properties.

Section budget_properties.
Context {R : PyRuntime} {C : Common}.

Lemma flags_after_nil f : flags_after f [] [] = f.
Proof. destruct f as [[] [] []]; reflexivity. Qed.

Lemma flags_after_table f calculated json r ts :
  flags_after (note_table f calculated json) ts []
  = flags_after f ((r, calculated, json) :: ts) [].
Proof.
  destruct f as [c m j]. unfold flags_after, note_table. simpl.
  destruct calculated, json, c, j; reflexivity.
Qed.

Lemma flags_after_metric f r (b : bool) fs :
  flags_after (if b then note_metric f else f) [] fs
  = flags_after f [] ((r, b) :: fs).
Proof.
  destruct f as [c m j]. unfold flags_after, note_metric. simpl.
  destruct b, m; simpl; rewrite ?orb_false_r; reflexivity.
Qed.

Lemma flags_after_split ts fs :
  flags_after (flags_after no_flags ts []) [] fs = or_flags ts fs.
Proof.
  unfold flags_after, or_flags, no_flags. simpl.
  by rewrite !orb_false_r.
Qed.

(** The first loop visits every descriptor and keeps the tables. *)
Lemma table_loop_for_each schemas a :
  table_loop schemas a
  = (ts ← for_each table_candidate schemas;
     Ok (a.1 ++ map (λ t, t.1.1) ts, flags_after a.2 ts [])).
Proof.
  revert a. induction schemas as [|t rest IH]; intros a; simpl.
  - rewrite app_nil_r, flags_after_nil. by destruct a.
  - set (tail := for_each table_candidate rest) in *.
    unfold table_candidate. destruct (dict_getitem t "type") as [ty|]; simpl; [|done].
    destruct (value_is_str ty "TABLE"); simpl.
    + destruct (build_table_ddl t None None) as [[[ddl calculated] json]|]; simpl; [|done].
      destruct (dict_getitem t "name") as [name|]; simpl; [|done].
      rewrite IH. destruct tail as [ts|]; simpl; [|done].
      rewrite <- app_assoc. simpl.
      by rewrite (flags_after_table _ _ _ {| table_name := name; table_ddl := ddl |}).
    + rewrite IH. by destruct tail.
Qed.

(** The body of the fragment loops appends what [fragment_candidate]
    describes. *)
Lemma fragment_body_candidate document a :
  (parsed ← literal_eval document.(content); fragment_body parsed a)
  = (y ← fragment_candidate document;
     Ok (match y with
         | Some (r, metric) =>
             (a.1 ++ [r], if metric : bool then note_metric a.2 else a.2)
         | None => a
         end : acc)).
Proof.
  unfold fragment_candidate, fragment_body.
  destruct (literal_eval (content document)) as [parsed|]; simpl; [|done].
  destruct (getitem parsed "type") as [ty|]; simpl; [|done].
  destruct (value_is_str ty "METRIC"); simpl.
  { destruct (getitem parsed "name"); simpl; [|done].
    by destruct (_build_metric_ddl parsed). }
  destruct (value_is_str ty "VIEW"); simpl; [|done].
  destruct (getitem parsed "name"); simpl; [|done].
  by destruct (_build_view_ddl parsed).
Qed.

(** The second loop visits every fragment and keeps the metrics and
    the views. *)
Lemma fragment_loop_for_each documents a :
  fragment_loop documents a
  = (fs ← for_each fragment_candidate documents;
     Ok (a.1 ++ map fst fs, flags_after a.2 [] fs)).
Proof.
  revert a. induction documents as [|d rest IH]; intros a; simpl.
  - rewrite app_nil_r, flags_after_nil. by destruct a.
  - pose proof (fragment_body_candidate d a) as Hbody. simpl in Hbody.
    destruct (literal_eval (content d)) as [parsed|] eqn:Hparsed; simpl in *.
    + rewrite Hbody. clear Hbody.
      destruct (fragment_candidate d) as [[[r metric]|]|]; simpl; [| |done].
      * rewrite IH. destruct (for_each fragment_candidate rest) as [fs|]; simpl; [|done].
        rewrite <- app_assoc. simpl. by rewrite (flags_after_metric _ r).
      * rewrite IH. by destruct (for_each fragment_candidate rest).
    + by destruct (fragment_candidate d).
Qed.

(** The two loops of the budget evaluator build the candidate set of
    the specification. *)
Lemma candidate_loops schemas documents :
  (a ← table_loop schemas ([], no_flags); fragment_loop documents a)
  = candidate_set schemas documents.
Proof.
  unfold candidate_set. rewrite table_loop_for_each.
  destruct (for_each table_candidate schemas) as [ts|]; simpl; [|done].
  rewrite fragment_loop_for_each.
  destruct (for_each fragment_candidate documents) as [fs|]; simpl; [|done].
  by rewrite flags_after_split.
Qed.

(** C2. The budget evaluator returns, whenever the candidate set can
    be built and tokenized, the token count of the candidate DDL
    strings joined by single spaces and the flags of the unpruned
    candidate set, in both cases alike; its [db_schemas] is the full
    candidate list unless pruning is required, and so it is empty if
    and only if the token count exceeds the context window, pruning
    is forced, or there is no candidate at all. *)
Theorem budget_evaluator_decision (schemas : list dict) (documents : list Document)
    (encoding : string → result (list nat)) (enable_column_pruning : bool)
    (context_window_size : Z) :
  check_using_db_schemas_without_pruning schemas documents encoding
    enable_column_pruning context_window_size
  = ('(candidates, fl) ← candidate_set schemas documents;
     toks ← encoding (join " " (map table_ddl candidates));
     Ok {| db_schemas :=
             if decide (pruning_required (length toks) context_window_size
                          enable_column_pruning)
             then [] else candidates;
           tokens := length toks;
           budget_flags := fl |})
  ∧ ∀ r,
      check_using_db_schemas_without_pruning schemas documents encoding
        enable_column_pruning context_window_size = Ok r →
      ∃ candidates fl toks,
        candidate_set schemas documents = Ok (candidates, fl)
        ∧ encoding (join " " (map table_ddl candidates)) = Ok toks
        ∧ r.(tokens) = length toks
        ∧ r.(budget_flags) = fl
        ∧ (r.(db_schemas) = [] ↔
           pruning_required (length toks) context_window_size enable_column_pruning
           ∨ candidates = [])
        ∧ (¬ pruning_required (length toks) context_window_size enable_column_pruning →
           r.(db_schemas) = candidates).
Proof.
  assert (Heq :
    check_using_db_schemas_without_pruning schemas documents encoding
      enable_column_pruning context_window_size
    = ('(candidates, fl) ← candidate_set schemas documents;
       toks ← encoding (join " " (map table_ddl candidates));
       Ok {| db_schemas :=
               if decide (pruning_required (length toks) context_window_size
                            enable_column_pruning)
               then [] else candidates;
             tokens := length toks;
             budget_flags := fl |})).
  { unfold check_using_db_schemas_without_pruning.
    rewrite <- candidate_loops.
    destruct (table_loop schemas ([], no_flags)) as [a|]; simpl; [|done].
    destruct (fragment_loop documents a) as [[candidates fl]|]; simpl; [|done].
    destruct (encoding _) as [toks|]; simpl; [|done].
    unfold pruning_required.
    destruct (Z.gtb_spec (Z.of_nat (length toks)) context_window_size);
      destruct enable_column_pruning; simpl; case_decide; try done;
      exfalso; intuition (try lia; try discriminate). }
  split; [exact Heq|].
  intros r Hr. rewrite Heq in Hr. clear Heq.
  destruct (candidate_set schemas documents) as [[candidates fl]|]; simpl in Hr; [|done].
  destruct (encoding _) as [toks|] eqn:Htoks; simpl in Hr; [|done].
  injection Hr as <-. exists candidates, fl, toks. simpl.
  repeat split; try done.
  - case_decide; [by left|by right].
  - intros [Hp|Hc]; case_decide; done.
  - intros Hn. by case_decide.
Qed.

(** C5. Once the budget evaluator returns candidates at some context
    window, it returns the very same result at every larger window:
    a larger window never turns the decision back to pruning
    required. *)
Theorem budget_monotone (schemas : list dict) (documents : list Document)
    (encoding : string → result (list nat)) (enable_column_pruning : bool)
    (w w' : Z) (r : BudgetResult) :
  check_using_db_schemas_without_pruning schemas documents encoding
    enable_column_pruning w = Ok r →
  r.(db_schemas) ≠ [] →
  (w ≤ w')%Z →
  check_using_db_schemas_without_pruning schemas documents encoding
    enable_column_pruning w' = Ok r.
Proof.
  unfold check_using_db_schemas_without_pruning.
  destruct (table_loop schemas ([], no_flags)) as [a|]; simpl; [|done].
  destruct (fragment_loop documents a) as [a'|]; simpl; [|done].
  destruct (encoding _) as [toks|]; simpl; [|done].
  intros Hr Hne Hle.
  destruct (Z.gtb_spec (Z.of_nat (length toks)) w) as [Hgt|Hngt];
    simpl in Hr; [by injection Hr as <-|].
  destruct enable_column_pruning; simpl in Hr; [by injection Hr as <-|].
  destruct (Z.gtb_spec (Z.of_nat (length toks)) w'); [lia|done].
Qed.
End budget_properties.

Section failure_properties.
Context {payload : Type} {R : PyRuntime} {C : Common} {P : Providers payload}.

Lemma reassemble_loop_undecodable before d after e db :
  literal_eval d.(content) = Raise e →
  reassemble_loop (before ++ d :: after) db
  = (db' ← reassemble_loop before db; Raise e).
Proof.
  intros Hbad. revert db. induction before as [|d' rest IH]; intros db; simpl.
  - unfold reassemble_step. by rewrite Hbad.
  - destruct (reassemble_step db d') as [db'|e']; simpl; [apply IH|done].
Qed.

Lemma fragment_loop_undecodable before d after e a :
  literal_eval d.(content) = Raise e →
  fragment_loop (before ++ d :: after) a
  = (a' ← fragment_loop before a; Raise e).
Proof.
  intros Hbad. revert a. induction before as [|d' rest IH]; intros a; simpl.
  - by rewrite Hbad.
  - destruct (literal_eval (content d')) as [parsed|e']; simpl; [|done].
    destruct (fragment_body parsed a) as [a'|e']; simpl; [apply IH|done].
Qed.

(** C1. A fragment whose content cannot be decoded is not dropped.
    The reassembler stops at it with the decoding error, unless a
    fragment before it has already made it raise, with the error of
    that one. The budget evaluator stops at it in the same way, unless
    a descriptor or a fragment before it has made it raise. The
    request that retrieved the fragments ends with the error of the
    reassembler, without any further call and without a result. *)
Theorem undecodable_fragment_aborts (before after : list Document) (d : Document)
    (e : exn) :
  literal_eval d.(content) = Raise e →
  let documents := before ++ d :: after in
  construct_db_schemas documents
  = (db ← reassemble_loop before []; Raise e)
  ∧ (∀ schemas encoding enable_column_pruning context_window_size,
       check_using_db_schemas_without_pruning schemas documents encoding
         enable_column_pruning context_window_size
       = (a ← table_loop schemas ([], no_flags);
          a' ← fragment_loop before a;
          Raise e))
  ∧ (∀ query tables project_id histories enable_column_pruning log log',
       retrieve_fragments query (tables_value tables)
         (default EmptyString project_id) (default [] histories) log
       = (Ok documents, log') →
       run query tables project_id histories enable_column_pruning log
       = (db ← reassemble_loop before []; Raise e, log'))
  ∧ (∀ r, construct_db_schemas documents ≠ Ok r)
  ∧ (∀ db, reassemble_loop before [] = Ok db →
           construct_db_schemas documents = Raise e).
Proof.
  intros Hbad documents.
  assert (Hschemas : construct_db_schemas documents
                     = (db ← reassemble_loop before []; Raise e)).
  { unfold construct_db_schemas, reassembled, documents.
    rewrite (reassemble_loop_undecodable _ _ _ _ _ Hbad).
    by destruct (reassemble_loop before []). }
  split; [exact Hschemas|]. split; [|split; [|split]].
  - intros schemas encoding force w.
    unfold check_using_db_schemas_without_pruning.
    destruct (table_loop schemas ([], no_flags)) as [a|e']; simpl; [|done].
    unfold documents. rewrite (fragment_loop_undecodable _ _ _ _ _ Hbad).
    by destruct (fragment_loop before a).
  - intros query tables project_id histories force log log' Hdocs.
    unfold run, mbind, M_bind. rewrite Hdocs.
    unfold pure_step. rewrite Hschemas.
    by destruct (reassemble_loop before []).
  - intros r. rewrite Hschemas. by destruct (reassemble_loop before []).
  - intros db Hdb. by rewrite Hschemas, Hdb.
Qed.

(** C8. The generator is called exactly when the budget evaluator
    returned no candidates, and then a prompt is built whatever the
    query text, the empty query included. When the evaluator returned
    candidates the prompt is the empty dict, no call is issued and
    the assembler returns the evaluator's candidates and flags
    unchanged; the assembler does the same whenever the pruning step
    hands it the empty dict. *)
Theorem pruning_call_only_when_required (query : string)
    (histories : list AskHistory) (schemas : list dict)
    (documents : list Document) (check : BudgetResult) (log : list (call payload)) :
  (check.(db_schemas) ≠ [] →
     prompt query schemas prompt_builder_run check histories = Ok None
     ∧ prune_and_assemble query histories schemas documents check log
       = (Ok {| retrieval_results := check.(db_schemas);
                flags := check.(budget_flags) |}, log))
  ∧ (check.(db_schemas) = [] →
     ∀ ddls text,
       all_table_ddls schemas = Ok ddls →
       prompt_builder_run (with_histories query histories) ddls = Ok text →
       prompt query schemas prompt_builder_run check histories
       = Ok (Some (clean_up_new_lines text))
       ∧ trace_cost (filter_columns_in_tables (Some (clean_up_new_lines text))) log
         = (table_columns_selection_generator (clean_up_new_lines text),
            log ++ [GeneratorRun (clean_up_new_lines text)]))
  ∧ (∀ outcome log',
       prune_and_assemble query histories schemas documents check log
       = (outcome, log') →
       log' ≠ log → check.(db_schemas) = [])
  ∧ trace_cost (filter_columns_in_tables None) log = (Ok [], log)
  ∧ construct_retrieval_results check [] schemas documents
    = Ok {| retrieval_results := check.(db_schemas);
            flags := check.(budget_flags) |}.
Proof.
  assert (Hpass : check.(db_schemas) ≠ [] →
     prompt query schemas prompt_builder_run check histories = Ok None
     ∧ prune_and_assemble query histories schemas documents check log
       = (Ok {| retrieval_results := check.(db_schemas);
                flags := check.(budget_flags) |}, log)).
  { intros Hne.
    assert (Hprompt : prompt query schemas prompt_builder_run check histories = Ok None).
    { unfold prompt. by destruct (db_schemas check). }
    split; [exact Hprompt|].
    unfold prune_and_assemble, mbind, M_bind, pure_step. by rewrite Hprompt. }
  split; [exact Hpass|]. split; [|split; [|split; reflexivity]].
  - intros Hempty ddls text Hddls Htext. split.
    + unfold prompt. rewrite Hempty, Hddls. simpl. by rewrite Htext.
    + unfold trace_cost, filter_columns_in_tables, mbind, M_bind, await.
      by destruct (table_columns_selection_generator _).
  - intros outcome log' Hrun Hlog.
    destruct (db_schemas check) as [|r rs] eqn:Hdb; [done|].
    destruct Hpass as [_ Hsame]; [done|].
    rewrite Hsame in Hrun. by injection Hrun as _ <-.
Qed.
End failure_properties.

Section pruned_properties.
Context {R : PyRuntime} {C : Common}.

Lemma fragment_body_names parsed a a' :
  fragment_body parsed a = Ok a' →
  ∃ ty, getitem parsed "type" = Ok ty
    ∧ if value_is_str ty "METRIC" || value_is_str ty "VIEW"
      then ∃ name, getitem parsed "name" = Ok name
                   ∧ map table_name a'.1 = map table_name a.1 ++ [name]
      else a' = a.
Proof.
  unfold fragment_body.
  destruct (getitem parsed "type") as [ty|]; simpl; [|done].
  intros Hbody. exists ty. split; [done|]. revert Hbody.
  destruct (value_is_str ty "METRIC"); simpl.
  { destruct (getitem parsed "name") as [name|]; simpl; [|done].
    destruct (_build_metric_ddl parsed); simpl; [|done].
    intros [= <-]. exists name. simpl. by rewrite map_app. }
  destruct (value_is_str ty "VIEW"); simpl.
  { destruct (getitem parsed "name") as [name|]; simpl; [|done].
    destruct (_build_view_ddl parsed); simpl; [|done].
    intros [= <-]. exists name. simpl. by rewrite map_app. }
  by intros [= <-].
Qed.

Lemma selected_table_eq tables t :
  selected_table tables t
  = match dict_getitem t "type", dict_getitem t "name" with
    | Ok ty, Ok name =>
        value_is_str ty "TABLE"
        && match to_key name with
           | Ok k => bool_decide (k ∈ tables)
           | Raise _ => false
           end
    | _, _ => false
    end.
Proof. reflexivity. Qed.

Lemma descriptor_name_eq t :
  descriptor_name t
  = match dict_getitem t "name" with Ok name => name | Raise _ => VNone end.
Proof. reflexivity. Qed.

(** On the pruned path the table results are, in order, the names of
    the TABLE descriptors whose name is in the selection. *)
Lemma pruned_table_loop_names selection tables schemas a a' :
  pruned_table_loop selection tables schemas a = Ok a' →
  map table_name a'.1
  = map table_name a.1
    ++ map descriptor_name (List.filter (selected_table tables) schemas).
Proof.
  revert a. induction schemas as [|t rest IH]; intros a; simpl.
  { intros [= <-]. by rewrite app_nil_r. }
  rewrite selected_table_eq.
  destruct (dict_getitem t "type") as [ty|]; simpl; [|done].
  destruct (value_is_str ty "TABLE"); simpl;
    [|destruct (dict_getitem t "name"); by apply IH].
  destruct (dict_getitem t "name") as [name|] eqn:Hname; simpl; [|done].
  destruct (to_key name) as [k|]; simpl; [|done].
  destruct (bool_decide (k ∈ tables)); simpl; [|by apply IH].
  destruct (alist_get k selection) as [table_contents|]; simpl; [|done].
  destruct (getitem table_contents "columns") as [cols|]; simpl; [|done].
  destruct (py_set cols) as [columns|]; simpl; [|done].
  destruct (build_table_ddl t (Some columns) (Some tables))
    as [[[ddl calculated] json]|]; simpl; [|done].
  intros Hloop. apply IH in Hloop. rewrite Hloop. simpl.
  rewrite map_app, descriptor_name_eq, Hname. simpl. by rewrite <- app_assoc.
Qed.

Lemma selected_fragment_eq selection d :
  selected_fragment selection d
  = match meta_name d with
    | Ok name =>
        alist_in (KStr name) selection
        && match literal_eval d.(content) with
           | Ok parsed =>
               match getitem parsed "type" with
               | Ok ty => value_is_str ty "METRIC" || value_is_str ty "VIEW"
               | Raise _ => false
               end
           | Raise _ => false
           end
    | Raise _ => false
    end.
Proof.
  unfold selected_fragment, fragment_type_in. simpl.
  destruct (meta_name d); [|done].
  destruct (literal_eval (content d)) as [parsed|]; [|done].
  destruct (getitem parsed "type"); [|done].
  by rewrite orb_false_r.
Qed.

Lemma fragment_name_eq d :
  fragment_name d
  = match literal_eval d.(content) with
    | Ok parsed =>
        match getitem parsed "name" with Ok name => name | Raise _ => VNone end
    | Raise _ => VNone
    end.
Proof. reflexivity. Qed.

(** And the fragment results are the names of the METRIC and VIEW
    fragments whose meta name is in the selection. *)
Lemma pruned_fragment_loop_names selection documents a a' :
  pruned_fragment_loop selection documents a = Ok a' →
  map table_name a'.1
  = map table_name a.1
    ++ map fragment_name (List.filter (selected_fragment selection) documents).
Proof.
  revert a. induction documents as [|d rest IH]; intros a; simpl.
  { intros [= <-]. by rewrite app_nil_r. }
  rewrite selected_fragment_eq.
  destruct (meta_name d) as [name|]; simpl; [|done].
  destruct (alist_in (KStr name) selection); simpl; [|by apply IH].
  destruct (literal_eval (content d)) as [parsed|] eqn:Hparsed; simpl; [|done].
  destruct (fragment_body parsed a) as [a1|] eqn:Hbody; simpl; [|done].
  apply fragment_body_names in Hbody as (ty & -> & Hbody).
  intros Hloop. apply IH in Hloop. rewrite Hloop. clear Hloop.
  destruct (value_is_str ty "METRIC" || value_is_str ty "VIEW"); simpl.
  - destruct Hbody as (n & Hn & ->).
    by rewrite fragment_name_eq, Hparsed, Hn, <- app_assoc.
  - by subst a1.
Qed.

(** *** Re-keying the reply *)

Lemma reformat_loop_app items items' selection :
  reformat_loop (items ++ items') selection
  = (selection' ← reformat_loop items selection; reformat_loop items' selection').
Proof.
  revert selection. induction items as [|t rest IH]; intros selection; simpl; [done|].
  destruct (getitem t "table_contents"); simpl; [|done].
  destruct (getitem t "table_name") as [name|]; simpl; [|done].
  destruct (to_key name); simpl; [|done]. apply IH.
Qed.

Lemma reformat_loop_cons t rest selection :
  reformat_loop (t :: rest) selection
  = (table_contents ← getitem t "table_contents";
     k ← entry_key t;
     reformat_loop rest (alist_set k table_contents selection)).
Proof.
  unfold entry_key. simpl.
  destruct (getitem t "table_contents"); simpl; [|done].
  by destruct (getitem t "table_name").
Qed.

Lemma reformat_loop_other items selection selection' k :
  reformat_loop items selection = Ok selection' →
  Forall (λ t, entry_key t ≠ Ok k) items →
  alist_get k selection' = alist_get k selection.
Proof.
  revert selection. induction items as [|t rest IH]; intros selection.
  { by intros [= <-]. }
  rewrite reformat_loop_cons. intros Hloop [Ht Hrest]%Forall_cons.
  destruct (getitem t "table_contents") as [c|]; simpl in Hloop; [|done].
  destruct (entry_key t) as [k'|]; simpl in Hloop; [|done].
  rewrite (IH _ Hloop Hrest). apply alist_get_set_ne. congruence.
Qed.

Lemma reformat_loop_NoDup items selection selection' :
  reformat_loop items selection = Ok selection' →
  NoDup (map fst selection) → NoDup (map fst selection').
Proof.
  revert selection. induction items as [|t rest IH]; intros selection.
  { by intros [= <-]. }
  rewrite reformat_loop_cons. intros Hloop Hnodup.
  destruct (getitem t "table_contents") as [c|]; simpl in Hloop; [|done].
  destruct (entry_key t) as [k'|]; simpl in Hloop; [|done].
  apply (IH _ Hloop). by apply alist_set_NoDup.
Qed.


(** *** Selections that stand for the same column sets *)

Lemma same_entry_refl t : same_entry t t.
Proof. split; [done|]. by destruct (getitem t "table_contents"). Qed.

Lemma same_selection_keys s s' :
  Forall2 same_selection s s' → map fst s = map fst s'.
Proof.
  induction 1 as [|kv kv' s s' [Hk _] _ IH]; simpl; [done|]. by rewrite Hk, IH.
Qed.

Lemma same_selection_get k s s' :
  Forall2 same_selection s s' →
  match alist_get k s, alist_get k s' with
  | Some c, Some c' => selected_columns c = selected_columns c'
  | None, None => True
  | _, _ => False
  end.
Proof.
  induction 1 as [|[k1 c] [k2 c'] s s' [Hk Hc] _ IH]; simpl in *; [done|].
  subst k2. by destruct (decide (k1 = k)).
Qed.

Lemma same_selection_set k c c' s s' :
  Forall2 same_selection s s' →
  selected_columns c = selected_columns c' →
  Forall2 same_selection (alist_set k c s) (alist_set k c' s').
Proof.
  intros Hs Hc.
  induction Hs as [|[k1 c1] [k2 c2] s s' [Hk Hc12] Hs IH]; simpl in *.
  - by repeat constructor.
  - subst k2. destruct (decide (k1 = k)); by repeat constructor.
Qed.

Lemma reformat_loop_same items items' s s' :
  Forall2 same_entry items items' →
  Forall2 same_selection s s' →
  match reformat_loop items s, reformat_loop items' s' with
  | Ok r, Ok r' => Forall2 same_selection r r'
  | Raise e, Raise e' => e = e'
  | _, _ => False
  end.
Proof.
  intros Hitems. revert s s'.
  induction Hitems as [|t t' items items' [Hname Hcontents] _ IH]; intros s s' Hs;
    [done|].
  rewrite !reformat_loop_cons. unfold entry_key. rewrite <- Hname.
  destruct (getitem t "table_contents") as [c|e],
           (getitem t' "table_contents") as [c'|e']; simpl; try done.
  destruct (getitem t "table_name") as [name|]; simpl; [|done].
  destruct (to_key name) as [k|]; simpl; [|done].
  apply IH. by apply same_selection_set.
Qed.

Lemma pruned_table_loop_same s s' tables schemas a :
  Forall2 same_selection s s' →
  pruned_table_loop s tables schemas a = pruned_table_loop s' tables schemas a.
Proof.
  intros Hs. revert a. induction schemas as [|t rest IH]; intros a; simpl; [done|].
  destruct (dict_getitem t "type") as [ty|]; simpl; [|done].
  destruct (value_is_str ty "TABLE"); simpl; [|apply IH].
  destruct (dict_getitem t "name") as [name|]; simpl; [|done].
  destruct (to_key name) as [k|]; simpl; [|done].
  destruct (bool_decide (k ∈ tables)); simpl; [|apply IH].
  pose proof (same_selection_get k _ _ Hs) as Hget.
  destruct (alist_get k s) as [c|], (alist_get k s') as [c'|]; simpl; try done.
  assert (Hcolumns : ∀ (k : gset key → result acc),
    (selection ← getitem c "columns"; columns ← py_set selection; k columns)
    = (columns ← selected_columns c; k columns)).
  { intros k0. unfold selected_columns. by destruct (getitem c "columns"). }
  assert (Hcolumns' : ∀ (k : gset key → result acc),
    (selection ← getitem c' "columns"; columns ← py_set selection; k columns)
    = (columns ← selected_columns c'; k columns)).
  { intros k0. unfold selected_columns. by destruct (getitem c' "columns"). }
  rewrite Hcolumns, Hcolumns', Hget.
  destruct (selected_columns c') as [columns|]; simpl; [|done].
  destruct (build_table_ddl t (Some columns) (Some tables))
    as [[[ddl calculated] json]|]; simpl; [|done].
  apply IH.
Qed.

Lemma pruned_fragment_loop_same s s' documents a :
  (∀ d name, d ∈ documents → meta_name d = Ok name →
             alist_in (KStr name) s = alist_in (KStr name) s') →
  pruned_fragment_loop s documents a = pruned_fragment_loop s' documents a.
Proof.
  revert a. induction documents as [|d rest IH]; intros a Hs; simpl; [done|].
  destruct (meta_name d) as [name|] eqn:Hname; simpl; [|done].
  rewrite <- (Hs d name); [|apply list_elem_of_here|done].
  assert (Hrest : ∀ a', pruned_fragment_loop s rest a' = pruned_fragment_loop s' rest a').
  { intros a'. apply IH. intros d' n Hd'. apply Hs. by apply list_elem_of_further. }
  destruct (alist_in (KStr name) s); [|apply Hrest].
  destruct (literal_eval (content d)) as [parsed|]; simpl; [|done].
  destruct (fragment_body parsed a); simpl; [apply Hrest|done].
Qed.

Lemma alist_in_same_keys (s s' : list (key * value)) k :
  map fst s = map fst s' → alist_in k s = alist_in k s'.
Proof.
  intros Hkeys. apply eq_true_iff_eq. by rewrite !alist_in_keys, Hkeys.
Qed.

(** The pruned branch of the assembler, from the entries of the reply
    on. *)
Lemma construct_retrieval_results_pruned check f schemas documents :
  f ≠ [] →
  construct_retrieval_results check f schemas documents
  = (items ← reply_items f;
     selection ← reformat_loop items [];
     a ← pruned_table_loop selection (selection_names selection) schemas ([], no_flags);
     a ← pruned_fragment_loop selection documents a;
     Ok {| retrieval_results := a.1; flags := a.2 |}).
Proof.
  intros Hne. unfold construct_retrieval_results, reply_items.
  destruct f as [|kv f]; [done|].
  destruct (dict_getitem (kv :: f) "replies") as [replies|]; simpl; [|done].
  destruct (getitem_0 replies) as [reply|]; simpl; [|done].
  destruct (loads reply) as [decoded|]; simpl; [|done].
  destruct (getitem decoded "results") as [results|]; simpl; [|done].
  by destruct (py_iter results).
Qed.

(** *** Sets of columns *)

Lemma keys_of_Ok l ks :
  keys_of l = Ok ks → Forall2 (λ v k, to_key v = Ok k) l ks.
Proof.
  revert ks. induction l as [|v l IH]; intros ks; simpl.
  { intros [= <-]. constructor. }
  destruct (to_key v) as [k|] eqn:Hk; simpl; [|done].
  destruct (keys_of l) as [ks'|]; simpl; [|done].
  intros [= <-]. constructor; [done|by apply IH].
Qed.

Lemma keys_of_Raise l e :
  keys_of l = Raise e → e = TypeError ∧ ∃ v, v ∈ l ∧ to_key v = Raise TypeError.
Proof.
  induction l as [|v l IH]; simpl; [done|].
  destruct (to_key v) as [k|e'] eqn:Hk; simpl.
  - destruct (keys_of l) as [ks'|e'] eqn:Hks; simpl; [done|].
    intros [= <-]. destruct (IH eq_refl) as [-> (v' & Hv' & Hraise)].
    split; [done|]. exists v'. split; [by apply list_elem_of_further|done].
  - intros [= <-]. assert (e' = TypeError) as -> by (destruct v; simpl in Hk; congruence).
    split; [done|]. exists v. split; [apply list_elem_of_here|done].
Qed.

Lemma keys_of_elem l ks k :
  keys_of l = Ok ks → k ∈ ks ↔ ∃ v, v ∈ l ∧ to_key v = Ok k.
Proof.
  intros Hks%keys_of_Ok. induction Hks as [|v k' l ks Hk _ IH].
  { split; [by intros ?%elem_of_nil|by intros (v & ?%elem_of_nil & _)]. }
  rewrite elem_of_cons, IH. split.
  - intros [->|(v' & Hv' & Hk')].
    + exists v. split; [apply list_elem_of_here|done].
    + exists v'. split; [by apply list_elem_of_further|done].
  - intros (v' & [->|Hv']%elem_of_cons & Hk'); [left; congruence|].
    right. by exists v'.
Qed.

(** [set(...)] of two lists with the same members, whatever their
    order and however often a member is repeated. *)
Lemma py_set_same_members l l' :
  (∀ x : value, x ∈ l ↔ x ∈ l') → py_set (VList l) = py_set (VList l').
Proof.
  intros Hsame. unfold py_set. simpl.
  destruct (keys_of l) as [ks|e] eqn:Hks, (keys_of l') as [ks'|e'] eqn:Hks'; simpl.
  - f_equal. apply set_eq. intros k. rewrite !elem_of_list_to_set.
    rewrite (keys_of_elem _ _ _ Hks), (keys_of_elem _ _ _ Hks').
    split; intros (v & Hv & Hk); exists v; split; try done; by apply Hsame.
  - apply keys_of_Raise in Hks' as [_ (v & Hv & Hraise)].
    apply Hsame in Hv. apply keys_of_Ok in Hks.
    apply list_elem_of_lookup in Hv as [i Hi].
    destruct (Forall2_lookup_l _ _ _ _ _ Hks Hi) as (k & _ & Hk). congruence.
  - apply keys_of_Raise in Hks as [_ (v & Hv & Hraise)].
    apply Hsame in Hv. apply keys_of_Ok in Hks'.
    apply list_elem_of_lookup in Hv as [i Hi].
    destruct (Forall2_lookup_l _ _ _ _ _ Hks' Hi) as (k & _ & Hk). congruence.
  - apply keys_of_Raise in Hks as [-> _]. by apply keys_of_Raise in Hks' as [-> _].
Qed.

(** An entry and the same entry with its column list replaced by a
    list with the same members select the same. *)
Lemma same_members_same_entry (d tc : dict) (l l' : list value) :
  dict_get "table_contents" d = Some (VDict tc) →
  dict_get "columns" tc = Some (VList l) →
  (∀ x : value, x ∈ l ↔ x ∈ l') →
  same_entry (VDict d)
    (VDict (dict_set "table_contents" (VDict (dict_set "columns" (VList l') tc)) d)).
Proof.
  intros Hcontents Hcolumns Hsame. unfold same_entry, getitem, dict_getitem, dict_get,
    dict_set in *.
  rewrite alist_get_set_ne by done. split; [done|].
  rewrite Hcontents, alist_get_set_eq.
  unfold selected_columns, getitem, dict_getitem, dict_get.
  rewrite Hcolumns, alist_get_set_eq. simpl.
  by apply py_set_same_members.
Qed.

(** *** Names that select nothing *)








(** The names of the results of the pruned path, in order. *)
Lemma pruned_results_names check f schemas documents r :
  f ≠ [] →
  construct_retrieval_results check f schemas documents = Ok r →
  ∃ items selection,
    reply_items f = Ok items
    ∧ reformat_loop items [] = Ok selection
    ∧ map table_name r.(retrieval_results)
      = map descriptor_name
          (List.filter (selected_table (selection_names selection)) schemas)
        ++ map fragment_name
             (List.filter (selected_fragment selection) documents).
Proof.
  intros Hne. rewrite construct_retrieval_results_pruned by done.
  destruct (reply_items f) as [items|] eqn:Hitems; simpl; [|done].
  destruct (reformat_loop items []) as [selection|] eqn:Hselection; simpl; [|done].
  destruct (pruned_table_loop _ _ _ _) as [a|] eqn:Htables; simpl; [|done].
  destruct (pruned_fragment_loop _ _ _) as [a'|] eqn:Hfragments; simpl; [|done].
  intros [= <-]. exists items, selection. split; [done|]. split; [done|]. simpl.
  apply pruned_table_loop_names in Htables.
  apply pruned_fragment_loop_names in Hfragments.
  by rewrite Hfragments, Htables.
Qed.


Lemma selection_names_in k (selection : list (key * value)) :
  bool_decide (k ∈ selection_names selection) = alist_in k selection.
Proof.
  unfold selection_names.
  destruct (alist_in k selection) eqn:Hin.
  - apply bool_decide_eq_true_2, elem_of_list_to_set. by apply alist_in_keys.
  - apply bool_decide_eq_false_2. intros Hk%elem_of_list_to_set%alist_in_keys.
    congruence.
Qed.

(** The first loop of the pruned path visits every descriptor and
    keeps the selected tables. *)
Lemma pruned_table_loop_for_each selection schemas a :
  pruned_table_loop selection (selection_names selection) schemas a
  = (ts ← for_each (pruned_table_candidate selection) schemas;
     Ok (a.1 ++ map (λ t, t.1.1) ts, flags_after a.2 ts [])).
Proof.
  revert a. induction schemas as [|t rest IH]; intros a; simpl.
  - rewrite app_nil_r, flags_after_nil. by destruct a.
  - set (tail := for_each (pruned_table_candidate selection) rest) in *.
    unfold pruned_table_candidate, selected_columns.
    destruct (dict_getitem t "type") as [ty|]; simpl; [|done].
    destruct (value_is_str ty "TABLE"); simpl; [|rewrite IH; by destruct tail].
    destruct (dict_getitem t "name") as [name|]; simpl; [|done].
    destruct (to_key name) as [k|]; simpl; [|done].
    rewrite selection_names_in. unfold alist_in.
    destruct (alist_get k selection) as [table_contents|]; simpl;
      [|rewrite IH; by destruct tail].
    destruct (getitem table_contents "columns") as [cols|]; simpl; [|done].
    destruct (py_set cols) as [columns|]; simpl; [|done].
    destruct (build_table_ddl t (Some columns) (Some (selection_names selection)))
      as [[[ddl calculated] json]|]; simpl; [|done].
    rewrite IH. destruct tail as [ts|]; simpl; [|done].
    rewrite <- app_assoc. simpl.
    by rewrite (flags_after_table _ _ _ {| table_name := name; table_ddl := ddl |}).
Qed.

(** The second loop visits every fragment and keeps the selected
    metrics and views. *)
Lemma pruned_fragment_loop_for_each selection documents a :
  pruned_fragment_loop selection documents a
  = (fs ← for_each (pruned_fragment_candidate selection) documents;
     Ok (a.1 ++ map fst fs, flags_after a.2 [] fs)).
Proof.
  revert a. induction documents as [|d rest IH]; intros a; simpl.
  - rewrite app_nil_r, flags_after_nil. by destruct a.
  - set (tail := for_each (pruned_fragment_candidate selection) rest) in *.
    unfold pruned_fragment_candidate.
    destruct (meta_name d) as [name|]; simpl; [|done].
    destruct (alist_in (KStr name) selection); simpl;
      [|rewrite IH; by destruct tail].
    pose proof (fragment_body_candidate d a) as Hbody. simpl in Hbody.
    destruct (literal_eval (content d)) as [parsed|] eqn:Hparsed; simpl in *.
    + rewrite Hbody. clear Hbody.
      destruct (fragment_candidate d) as [[[r metric]|]|]; simpl; [| |done].
      * rewrite IH. destruct tail as [fs|]; simpl; [|done].
        rewrite <- app_assoc. simpl. by rewrite (flags_after_metric _ r).
      * rewrite IH. by destruct tail.
    + by destruct (fragment_candidate d).
Qed.

(** On the pruned path the assembler builds the pruned set of the
    specification from the re-keyed reply. *)
Lemma construct_retrieval_results_pruned_set check f schemas documents :
  f ≠ [] →
  construct_retrieval_results check f schemas documents
  = (items ← reply_items f;
     selection ← reformat_loop items [];
     pruned_set selection schemas documents).
Proof.
  intros Hne. rewrite construct_retrieval_results_pruned by done.
  destruct (reply_items f) as [items|]; simpl; [|done].
  destruct (reformat_loop items []) as [selection|]; simpl; [|done].
  unfold pruned_set. rewrite pruned_table_loop_for_each.
  destruct (for_each (pruned_table_candidate selection) schemas) as [ts|]; simpl; [|done].
  rewrite pruned_fragment_loop_for_each.
  destruct (for_each (pruned_fragment_candidate selection) documents) as [fs|];
    simpl; [|done].
  by rewrite flags_after_split.
Qed.

Lemma pruned_table_candidates_names selection schemas ts :
  for_each (pruned_table_candidate selection) schemas = Ok ts →
  map (λ t : RetrievalResult * bool * bool, table_name t.1.1) ts
  = map descriptor_name
      (List.filter (selected_table (selection_names selection)) schemas).
Proof.
  intros Hts.
  pose proof (pruned_table_loop_for_each selection schemas ([], no_flags)) as Hloop.
  rewrite Hts in Hloop. simpl in Hloop.
  apply pruned_table_loop_names in Hloop. simpl in Hloop.
  by rewrite map_map in Hloop.
Qed.

(** C10. When several entries of the reply carry the same table name,
    the re-keyed selection holds the contents of the last of them
    under that name, once, and a TABLE descriptor of that name is
    rebuilt from the columns of that last entry. When the selected
    tables and fragments can be built the assembler returns, with one
    result for each selected descriptor, in their order, and then one
    for each selected fragment, however often a name occurs in the
    reply. Two replies whose entries agree on the names and on the
    sets of selected columns are assembled alike, and an entry whose
    column list repeats a name is such an entry: [set] removes the
    repetition. *)
Theorem repeated_names_and_columns (check : BudgetResult)
    (schemas : list dict) (documents : list Document) :
  (∀ before t after k c selection,
     reformat_loop (before ++ t :: after) [] = Ok selection →
     entry_key t = Ok k →
     getitem t "table_contents" = Ok c →
     Forall (λ t', entry_key t' ≠ Ok k) after →
     alist_get k selection = Some c
     ∧ NoDup (map fst selection)
     ∧ ∀ table_schema name,
         dict_getitem table_schema "type" = Ok (VStr "TABLE") →
         dict_getitem table_schema "name" = Ok name →
         to_key name = Ok k →
         pruned_table_candidate selection table_schema
         = (columns ← selected_columns c;
            '(ddl, calculated, json) ←
              build_table_ddl table_schema (Some columns)
                (Some (selection_names selection));
            Ok (Some ({| table_name := name; table_ddl := ddl |},
                      calculated, json))))
  ∧ (∀ f items selection ts fs,
       f ≠ [] →
       reply_items f = Ok items →
       reformat_loop items [] = Ok selection →
       for_each (pruned_table_candidate selection) schemas = Ok ts →
       for_each (pruned_fragment_candidate selection) documents = Ok fs →
       construct_retrieval_results check f schemas documents
       = Ok {| retrieval_results := map (λ t, t.1.1) ts ++ map fst fs;
               flags := or_flags ts fs |}
       ∧ map (λ t : RetrievalResult * bool * bool, table_name t.1.1) ts
         = map descriptor_name
             (List.filter (selected_table (selection_names selection)) schemas))
  ∧ (∀ f r,
       f ≠ [] →
       construct_retrieval_results check f schemas documents = Ok r →
       ∃ items selection,
         reply_items f = Ok items
         ∧ reformat_loop items [] = Ok selection
         ∧ length r.(retrieval_results)
           = (length (List.filter (selected_table (selection_names selection)) schemas)
              + length (List.filter (selected_fragment selection) documents))%nat)
  ∧ (∀ f f' items items',
       f ≠ [] → f' ≠ [] →
       reply_items f = Ok items →
       reply_items f' = Ok items' →
       Forall2 same_entry items items' →
       construct_retrieval_results check f schemas documents
       = construct_retrieval_results check f' schemas documents)
  ∧ (∀ (d tc : dict) (l l' : list value),
       dict_get "table_contents" d = Some (VDict tc) →
       dict_get "columns" tc = Some (VList l) →
       (∀ x : value, x ∈ l ↔ x ∈ l') →
       same_entry (VDict d)
         (VDict (dict_set "table_contents"
                   (VDict (dict_set "columns" (VList l') tc)) d))).
Proof.
  split; [|split; [|split; [|split]]].
  - intros before t after k c selection Hloop Hk Hc Hafter.
    assert (Hlast : alist_get k selection = Some c).
    { rewrite reformat_loop_app in Hloop.
      destruct (reformat_loop before []) as [s1|]; [|done].
      change (reformat_loop (t :: after) s1 = Ok selection) in Hloop.
      rewrite reformat_loop_cons, Hc, Hk in Hloop. simpl in Hloop.
      rewrite (reformat_loop_other _ _ _ _ Hloop Hafter).
      apply alist_get_set_eq. }
    split; [done|].
    split; [by apply (reformat_loop_NoDup _ _ _ Hloop), NoDup_nil|].
    intros table_schema name Hty Hname Hkey.
    unfold pruned_table_candidate. rewrite Hty. simpl.
    rewrite Hname. simpl. rewrite Hkey. simpl. by rewrite Hlast.
  - intros f items selection ts fs Hne Hitems Hselection Hts Hfs.
    split; [|by apply pruned_table_candidates_names].
    rewrite construct_retrieval_results_pruned_set by done.
    rewrite Hitems. simpl. rewrite Hselection. simpl.
    unfold pruned_set. by rewrite Hts, Hfs.
  - intros f r Hne Hr.
    destruct (pruned_results_names _ _ _ _ _ Hne Hr) as (items & selection & Hi & Hs & Hn).
    exists items, selection. repeat split; try done.
    apply (f_equal length) in Hn.
    by rewrite length_app, !length_map in Hn.
  - intros f f' items items' Hne Hne' Hitems Hitems' Hsame.
    rewrite !construct_retrieval_results_pruned by done.
    rewrite Hitems, Hitems'. simpl.
    pose proof (reformat_loop_same items items' [] [] Hsame ltac:(constructor)) as Hsel.
    destruct (reformat_loop items []) as [s|e], (reformat_loop items' []) as [s'|e'];
      simpl; try done; [|by subst].
    unfold selection_names. rewrite (same_selection_keys _ _ Hsel).
    rewrite (pruned_table_loop_same _ _ _ _ _ Hsel).
    destruct (pruned_table_loop _ _ _ _) as [a|]; simpl; [|done].
    rewrite (pruned_fragment_loop_same s s'); [done|].
    intros d name _ _. apply alist_in_same_keys. by apply same_selection_keys.
  - apply same_members_same_entry.
Qed.
End pruned_properties.

Section reply_properties.
Context {payload : Type} {R : PyRuntime} {C : Common} {P : Providers payload}.



End reply_properties.

Section reassembly_properties.
Context {R : PyRuntime}.

(** One iteration of the reassembly loop merges the fragment into the
    entry of its table name and leaves the other entries alone. *)
Lemma reassemble_step_merge db d :
  reassemble_step db d
  = (parsed ← literal_eval d.(content);
     match parsed with
     | VDict c =>
         ty ← dict_getitem c "type";
         if value_is_str ty "TABLE" || value_is_str ty "TABLE_COLUMNS" then
           name ← meta_name d;
           entry ← merge_fragment (alist_get name db) c ty;
           Ok (match entry with Some e => alist_set name e db | None => db end)
         else Ok db
     | _ => Raise TypeError
     end).
Proof.
  unfold reassemble_step, merge_fragment.
  destruct (literal_eval (content d)) as [[| | | | |c]|]; simpl; try done.
  destruct (dict_getitem c "type") as [ty|]; simpl; [|done].
  destruct (value_is_str ty "TABLE"); simpl.
  { destruct (meta_name d) as [name|]; simpl; [|done].
    by destruct (alist_get name db). }
  destruct (value_is_str ty "TABLE_COLUMNS"); simpl; [|done].
  destruct (meta_name d) as [name|]; simpl; [|done].
  destruct (alist_get name db) as [e|]; simpl.
  - unfold dict_in, alist_in, dict_getitem, dict_get.
    destruct (alist_get "columns"%string e) as [old|]; simpl.
    + destruct (alist_get "columns"%string c) as [columns|]; simpl; [|done].
      by destruct (iadd old columns).
    + by destruct (alist_get "columns"%string c).
  - by destruct (dict_getitem c "columns").
Qed.

Lemma merge_fragment_Some entry c ty entry' :
  value_is_str ty "TABLE" || value_is_str ty "TABLE_COLUMNS" = true →
  merge_fragment entry c ty = Ok entry' → is_Some entry'.
Proof.
  unfold merge_fragment. destruct (value_is_str ty "TABLE"); simpl.
  { intros _ [= <-]. by eexists. }
  intros ->. destruct (dict_getitem c "columns") as [columns|]; simpl; [|done].
  destruct entry as [e|]; [|intros [= <-]; by eexists].
  destruct (dict_get "columns" e) as [old|]; [|intros [= <-]; by eexists].
  destruct (iadd old columns); simpl; [|done]. intros [= <-]. by eexists.
Qed.

Lemma merge_fragment_other entry c ty :
  value_is_str ty "TABLE" || value_is_str ty "TABLE_COLUMNS" = false →
  merge_fragment entry c ty = Ok entry.
Proof.
  unfold merge_fragment. intros [-> ->]%orb_false_iff. done.
Qed.

Lemma has_name_meta name d : has_name name d = true ↔ meta_name d = Ok name.
Proof.
  unfold has_name, meta_name. rewrite bool_decide_eq_true.
  destruct (alist_get "name"%string (meta d)); split; congruence.
Qed.

Lemma reassemble_step_NoDup db d db' :
  reassemble_step db d = Ok db' → NoDup (map fst db) → NoDup (map fst db').
Proof.
  rewrite reassemble_step_merge.
  destruct (literal_eval (content d)) as [[| | | | |c]|]; simpl; try done.
  destruct (dict_getitem c "type") as [ty|]; simpl; [|done].
  destruct (_ || _); [|by intros [= <-]].
  destruct (meta_name d) as [name|]; simpl; [|done].
  destruct (merge_fragment _ _ _) as [[e|]|]; simpl; [| |done].
  - intros [= <-]. apply alist_set_NoDup.
  - by intros [= <-].
Qed.

Lemma reassemble_loop_NoDup documents db db' :
  reassemble_loop documents db = Ok db' → NoDup (map fst db) → NoDup (map fst db').
Proof.
  revert db. induction documents as [|d rest IH]; intros db; simpl.
  { by intros [= <-]. }
  destruct (reassemble_step db d) as [db1|] eqn:Hstep; simpl; [|done].
  intros Hloop Hdb. apply (IH _ Hloop). by apply (reassemble_step_NoDup _ _ _ Hstep).
Qed.

(** What one iteration does to the entry of a given table name. *)
Lemma reassemble_step_lookup db d db' name :
  reassemble_step db d = Ok db' →
  mergeable d
  ∧ if has_name name d
    then merge_fragments [d] (alist_get name db) = Ok (alist_get name db')
    else alist_get name db' = alist_get name db.
Proof.
  rewrite reassemble_step_merge. unfold mergeable. simpl.
  destruct (literal_eval (content d)) as [[| | | | |c]|]; simpl; try done.
  destruct (dict_getitem c "type") as [ty|] eqn:Htype; simpl; [|done].
  destruct (value_is_str ty "TABLE" || value_is_str ty "TABLE_COLUMNS") eqn:Hty.
  - destruct (meta_name d) as [n|] eqn:Hn; simpl; [|done].
    destruct (merge_fragment (alist_get n db) c ty) as [entry|] eqn:Hmerge;
      simpl; [|done].
    destruct (merge_fragment_Some _ _ _ _ Hty Hmerge) as [e ->].
    intros [= <-]. split; [exists c, ty; split; [done|]; split; [done|]; intros _; by exists n|].
    destruct (has_name name d) eqn:Hname.
    + apply has_name_meta in Hname. assert (n = name) as -> by congruence.
      by rewrite Hmerge, alist_get_set_eq.
    + apply alist_get_set_ne. intros ->.
      apply has_name_meta in Hn. congruence.
  - intros [= <-]. split; [exists c, ty; by rewrite Hty|].
    destruct (has_name name d); [|done]. by rewrite merge_fragment_other.
Qed.

Lemma merge_fragments_cons d rest entry :
  merge_fragments (d :: rest) entry
  = (entry' ← merge_fragments [d] entry; merge_fragments rest entry').
Proof.
  simpl. destruct (literal_eval (content d)) as [[| | | | |c]|]; simpl; try done.
  destruct (dict_getitem c "type") as [ty|]; simpl; [|done].
  by destruct (merge_fragment entry c ty).
Qed.

(** The entry of every table name after the loop is the merge of the
    fragments stored under that name, in their order of arrival. *)
Lemma reassemble_loop_lookup documents db db' :
  reassemble_loop documents db = Ok db' →
  Forall mergeable documents
  ∧ ∀ name,
      merge_fragments (List.filter (has_name name) documents) (alist_get name db)
      = Ok (alist_get name db').
Proof.
  revert db. induction documents as [|d rest IH]; intros db; simpl.
  { intros [= <-]. by split. }
  destruct (reassemble_step db d) as [db1|] eqn:Hstep; simpl; [|done].
  intros Hloop. destruct (IH _ Hloop) as [Hrest Hnames]. split.
  - constructor; [|done]. by destruct (reassemble_step_lookup _ _ _ EmptyString Hstep).
  - intros name. destruct (reassemble_step_lookup _ _ _ name Hstep) as [_ Hname].
    destruct (has_name name d).
    + rewrite merge_fragments_cons, Hname. simpl. apply Hnames.
    + rewrite <- Hname. apply Hnames.
Qed.

(** Conversely the loop goes through when every fragment can be taken
    in and the merge of every table name goes through. *)
Lemma reassemble_loop_succeeds documents db :
  Forall mergeable documents →
  (∀ name, is_ok (merge_fragments (List.filter (has_name name) documents)
                    (alist_get name db)) = true) →
  ∃ db', reassemble_loop documents db = Ok db'.
Proof.
  revert db. induction documents as [|d rest IH]; intros db; simpl.
  { by eexists. }
  intros [(c & ty & Hc & Hty & Hmeta) Hrest]%Forall_cons Hnames.
  assert (∃ db1, reassemble_step db d = Ok db1
                 ∧ ∀ name, is_ok (merge_fragments (List.filter (has_name name) rest)
                                    (alist_get name db1)) = true)
    as (db1 & Hstep & Hnames1).
  { rewrite reassemble_step_merge, Hc. simpl. rewrite Hty. simpl.
    destruct (value_is_str ty "TABLE" || value_is_str ty "TABLE_COLUMNS") eqn:Hkind.
    - destruct (Hmeta eq_refl) as [n Hn]. rewrite Hn. simpl.
      pose proof (Hnames n) as Hn'.
      rewrite (proj2 (has_name_meta n d) Hn), merge_fragments_cons in Hn'.
      simpl in Hn'. rewrite Hc in Hn'. simpl in Hn'. rewrite Hty in Hn'. simpl in Hn'.
      destruct (merge_fragment (alist_get n db) c ty) as [entry|] eqn:Hmerge;
        simpl in Hn'; [|done].
      destruct (merge_fragment_Some _ _ _ _ Hkind Hmerge) as [e ->]. simpl.
      eexists. split; [done|]. intros name.
      destruct (decide (n = name)) as [<-|Hne].
      + by rewrite alist_get_set_eq.
      + rewrite alist_get_set_ne by done. specialize (Hnames name).
        destruct (has_name name d) eqn:Hname; [|done].
        apply has_name_meta in Hname. congruence.
    - exists db. split; [done|]. intros name. specialize (Hnames name).
      destruct (has_name name d); [|done].
      rewrite merge_fragments_cons in Hnames. simpl in Hnames.
      rewrite Hc in Hnames. simpl in Hnames. rewrite Hty in Hnames. simpl in Hnames.
      by rewrite merge_fragment_other in Hnames. }
  rewrite Hstep. simpl. by apply IH.
Qed.

Lemma fragment_of_eq ty name d c t :
  literal_eval d.(content) = Ok (VDict c) →
  dict_getitem c "type" = Ok t →
  fragment_of ty name d = has_name name d && value_is_str t ty.
Proof.
  unfold fragment_of, dict_getitem. intros -> Ht.
  by destruct (dict_get "type" c) as [t'|]; [injection Ht as ->|].
Qed.

(** The keys of the map come in the order in which the table names
    are first seen. *)
Lemma reassemble_loop_keys documents db db' :
  reassemble_loop documents db = Ok db' →
  map fst db' = first_seen (merged_names documents) (map fst db).
Proof.
  revert db. induction documents as [|d rest IH]; intros db; simpl.
  { by intros [= <-]. }
  destruct (reassemble_step db d) as [db1|] eqn:Hstep; simpl; [|done].
  intros Hloop. rewrite (IH _ Hloop). clear IH Hloop.
  rewrite reassemble_step_merge in Hstep.
  destruct (literal_eval (content d)) as [[| | | | |c]|] eqn:Hc; simpl in Hstep; try done.
  destruct (dict_getitem c "type") as [ty|] eqn:Hty; simpl in Hstep; [|done].
  destruct (meta_name d) as [n|] eqn:Hn.
  - rewrite !(fragment_of_eq _ _ _ _ _ Hc Hty), (proj2 (has_name_meta n d) Hn). simpl.
    destruct (value_is_str ty "TABLE" || value_is_str ty "TABLE_COLUMNS") eqn:Hkind;
      simpl in *; [|by injection Hstep as <-].
    destruct (merge_fragment (alist_get n db) c ty) as [entry|] eqn:Hmerge;
      simpl in Hstep; [|done].
    destruct (merge_fragment_Some _ _ _ _ Hkind Hmerge) as [e ->].
    injection Hstep as <-. f_equal. rewrite alist_set_keys.
    destruct (alist_in n db) eqn:Hin.
    + apply alist_in_keys in Hin. by rewrite bool_decide_eq_true_2.
    + rewrite bool_decide_eq_false_2; [done|].
      intros Hin'%alist_in_keys. congruence.
  - destruct (value_is_str ty "TABLE" || value_is_str ty "TABLE_COLUMNS");
      simpl in Hstep; [done|]. by injection Hstep as <-.
Qed.

Lemma alist_get_filter (f : dict → bool) (db : list (string * dict)) name :
  NoDup (map fst db) →
  alist_get name (List.filter (λ kv, f kv.2) db)
  = match alist_get name db with
    | Some e => if f e then Some e else None
    | None => None
    end.
Proof.
  induction db as [|[k e] db IH]; simpl; [done|].
  intros [Hk Hdb]%NoDup_cons. specialize (IH Hdb).
  destruct (decide (k = name)) as [->|Hne].
  - destruct (f e); simpl; [by rewrite decide_True|].
    rewrite IH. by apply alist_get_None in Hk as ->.
  - destruct (f e); simpl; [by rewrite decide_False|done].
Qed.

Lemma filter_keys_NoDup (f : string * dict → bool) (db : list (string * dict)) :
  NoDup (map fst db) → NoDup (map fst (List.filter f db)).
Proof.
  induction db as [|[k e] db IH]; simpl; [done|].
  intros [Hk Hdb]%NoDup_cons. destruct (f (k, e)); simpl; [|by apply IH].
  apply NoDup_cons. split; [|by apply IH].
  intros (kv & Hkv & Hin)%list_elem_of_fmap. apply Hk.
  apply list_elem_of_fmap. exists kv. split; [done|].
  apply list_elem_of_In, List.filter_In in Hin as [Hin _]. by apply list_elem_of_In.
Qed.

(** Each reassembled descriptor is the merge of the fragments of its
    own table name, in their order of arrival, when that merge is
    complete. *)
Lemma reassembled_lookup documents db :
  reassembled documents = Ok db →
  NoDup (map fst db)
  ∧ ∀ name, ∃ entry,
      merge_fragments (List.filter (has_name name) documents) None = Ok entry
      ∧ alist_get name db = surfaced entry.
Proof.
  unfold reassembled.
  destruct (reassemble_loop documents []) as [db0|] eqn:Hloop; simpl; [|done].
  intros [= <-].
  pose proof (reassemble_loop_NoDup _ _ _ Hloop (NoDup_nil_2)) as Hnodup.
  split; [by apply filter_keys_NoDup|].
  intros name. exists (alist_get name db0).
  split; [by apply (reassemble_loop_lookup _ _ _ Hloop)|].
  by apply (alist_get_filter complete).
Qed.

Lemma filter_Permutation_bool {A} (f : A → bool) (l l' : list A) :
  l ≡ₚ l' → List.filter f l ≡ₚ List.filter f l'.
Proof.
  induction 1 as [|x l l' _ IH|x y l|l l' l'' _ IH _ IH']; simpl.
  - done.
  - destruct (f x); [by constructor|done].
  - destruct (f x), (f y); try done. apply perm_swap.
  - by etrans.
Qed.

Lemma alist_same_lookup (db db' : list (string * dict)) :
  NoDup (map fst db) → NoDup (map fst db') →
  (∀ name, alist_get name db = alist_get name db') →
  db ≡ₚ db'.
Proof.
  intros Hdb Hdb' Hsame.
  apply NoDup_Permutation; [by apply (NoDup_fmap_1 fst)..|].
  intros [k e]. by rewrite !alist_NoDup_elem, Hsame.
Qed.

Lemma dict_in_set_other k k' v (e : dict) :
  k ≠ k' → dict_in k' (dict_set k v e) = dict_in k' e.
Proof.
  intros Hne. unfold dict_in, dict_set, alist_in. by rewrite alist_get_set_ne.
Qed.

Lemma filter_has_name_elem name (documents : list Document) d :
  d ∈ List.filter (has_name name) documents → d ∈ documents ∧ has_name name d = true.
Proof. intros Hd%list_elem_of_In%List.filter_In. by rewrite list_elem_of_In. Qed.

Lemma filter_fragment_of ty name (documents : list Document) :
  List.filter (fragment_of ty name) (List.filter (has_name name) documents)
  = List.filter (fragment_of ty name) documents.
Proof.
  induction documents as [|d rest IH]; simpl; [done|].
  destruct (has_name name d) eqn:Hname; simpl; [by rewrite IH|].
  unfold fragment_of at 2. by rewrite Hname.
Qed.

Lemma merge_fragments_app l l' entry :
  merge_fragments (l ++ l') entry
  = (entry' ← merge_fragments l entry; merge_fragments l' entry').
Proof.
  revert entry. induction l as [|d l IH]; intros entry; [done|].
  rewrite <- app_comm_cons, merge_fragments_cons, (merge_fragments_cons d l).
  destruct (merge_fragments [d] entry) as [entry1|]; simpl; [apply IH|done].
Qed.

Lemma filter_snoc {A} (f : A → bool) (l : list A) (x : A) :
  List.filter f (l ++ [x]) = List.filter f l ++ (if f x then [x] else []).
Proof. rewrite List.filter_app. simpl. by destruct (f x). Qed.

Lemma merged_columns_table tables columns d :
  merged_columns (tables ++ [d]) columns
  = match last tables with
    | None => merged_columns tables columns
    | Some _ => Some (default [] (merged_columns tables columns))
    end.
Proof.
  destruct tables as [|t [|t' tables]], columns as [|c columns]; try done.
  - rewrite !last_cons. by destruct (last tables).
  - rewrite !last_cons. by destruct (last tables).
Qed.

Lemma merged_columns_columns tables columns d :
  merged_columns tables (columns ++ [d])
  = Some (default [] (merged_columns tables columns) ++ fragment_columns d).
Proof.
  assert (default [] (merged_columns tables columns)
          = concat (map fragment_columns columns)) as ->.
  { by destruct columns as [|c columns], tables as [|t [|t' tables]]. }
  rewrite <- (app_nil_r (fragment_columns d)).
  change (fragment_columns d ++ []) with (concat (map fragment_columns [d])).
  rewrite <- concat_app, <- map_app.
  by destruct columns.
Qed.

Lemma as_specified_kind name d :
  as_specified d → has_name name d = true →
  ∃ c ty,
    literal_eval d.(content) = Ok (VDict c)
    ∧ dict_getitem c "type" = Ok ty
    ∧ fragment_content d = c
    ∧ fragment_of "TABLE" name d = value_is_str ty "TABLE"
    ∧ fragment_of "TABLE_COLUMNS" name d = value_is_str ty "TABLE_COLUMNS"
    ∧ (value_is_str ty "TABLE" = true → dict_get "columns" c = None)
    ∧ (value_is_str ty "TABLE_COLUMNS" = true →
       ∃ l, dict_get "columns" c = Some (VList l)).
Proof.
  intros (c & ty & Hc & Hty & _ & Htable & Hcolumns) Hname.
  exists c, ty. unfold fragment_content.
  rewrite !(fragment_of_eq _ _ _ _ _ Hc Hty), Hname, Hc. by repeat split.
Qed.

Lemma last_table_plain name docs t :
  Forall (λ d, as_specified d ∧ has_name name d = true) docs →
  last (table_fragments name docs) = Some t →
  dict_get "columns" (fragment_content t) = None.
Proof.
  intros Hdocs Ht%last_Some_elem_of.
  apply list_elem_of_In, List.filter_In in Ht as [Ht Htable].
  apply list_elem_of_In in Ht.
  destruct (proj1 (Forall_forall _ _) Hdocs t Ht) as [Hspec Hname].
  destruct (as_specified_kind name t Hspec Hname)
    as (c & ty & _ & _ & -> & Hkind & _ & Hplain & _).
  apply Hplain. by rewrite <- Hkind.
Qed.

(** The fragments of one table name merge into the content of the last
    TABLE fragment with the columns of the TABLE_COLUMNS fragments. *)
Lemma merge_fragments_merged name docs :
  Forall (λ d, as_specified d ∧ has_name name d = true) docs →
  merge_fragments docs None
  = Ok (merged_entry (table_fragments name docs) (column_fragments name docs)).
Proof.
  induction docs as [|d docs IH] using rev_ind; [done|].
  intros Hall. pose proof Hall as [Hdocs [Hd _]%Forall_cons]%Forall_app.
  destruct Hd as [Hspec Hname].
  rewrite merge_fragments_app, (IH Hdocs). simpl.
  pose proof (last_table_plain name docs) as Hplain.
  destruct (as_specified_kind name d Hspec Hname)
    as (c & ty & Hc & Hty & Hcontent & Htable & Hcolumns & Hown & Hlist).
  unfold table_fragments, column_fragments in *.
  rewrite !filter_snoc, Htable, Hcolumns, Hc. simpl. rewrite Hty. simpl.
  unfold merge_fragment, merged_entry.
  destruct (value_is_str ty "TABLE") eqn:Hkind.
  - assert (value_is_str ty "TABLE_COLUMNS" = false) as ->.
    { destruct ty; try done. simpl in *. apply String.eqb_eq in Hkind as ->. done. }
    rewrite app_nil_r, last_snoc, merged_columns_table, Hcontent. simpl.
    set (T := List.filter (fragment_of "TABLE" name) docs) in *.
    set (C := List.filter (fragment_of "TABLE_COLUMNS" name) docs) in *.
    destruct (last T) as [t|] eqn:Hlast.
    + specialize (Hplain t Hdocs eq_refl).
      destruct (merged_columns T C) as [l|]; simpl.
      * unfold dict_get_default, dict_get, dict_set. by rewrite alist_get_set_eq.
      * unfold dict_get_default. by rewrite Hplain.
    + by destruct (merged_columns T C) as [l|].
  - rewrite app_nil_r.
    set (T := List.filter (fragment_of "TABLE" name) docs) in *.
    set (C := List.filter (fragment_of "TABLE_COLUMNS" name) docs) in *.
    destruct (value_is_str ty "TABLE_COLUMNS") eqn:Hkind'.
    + destruct (Hlist eq_refl) as [l' Hl'].
      rewrite merged_columns_columns. unfold fragment_columns.
      rewrite Hcontent, Hl'. unfold dict_getitem. rewrite Hl'. simpl.
      destruct (last T) as [t|] eqn:Hlast.
      * specialize (Hplain t Hdocs eq_refl).
        destruct (merged_columns T C) as [l|]; simpl.
        -- unfold dict_get, dict_set. rewrite alist_get_set_eq. simpl.
           by rewrite alist_set_set.
        -- by rewrite Hplain.
      * by destruct (merged_columns T C) as [l|].
    + by rewrite app_nil_r.
Qed.

Lemma as_specified_mergeable d : as_specified d → mergeable d.
Proof.
  intros (c & ty & Hc & Hty & Hname & _). by exists c, ty.
Qed.

Lemma filter_has_name_specified name documents :
  Forall as_specified documents →
  Forall (λ d, as_specified d ∧ has_name name d = true)
    (List.filter (has_name name) documents).
Proof.
  intros Hdocs. apply Forall_forall. intros d [Hd Hname]%filter_has_name_elem.
  split; [|done]. by apply (proj1 (Forall_forall _ _) Hdocs).
Qed.

(** On fragments as the specification describes them the reassembler
    returns, and the entry of every table name is the merged one when
    it has a type and columns. *)
Lemma reassembled_merged documents :
  Forall as_specified documents →
  ∃ db,
    reassembled documents = Ok db
    ∧ NoDup (map fst db)
    ∧ ∀ name,
        alist_get name db
        = surfaced (merged_entry (table_fragments name documents)
                      (column_fragments name documents)).
Proof.
  intros Hdocs.
  assert (Hmerge : ∀ name,
    merge_fragments (List.filter (has_name name) documents) None
    = Ok (merged_entry (table_fragments name documents)
            (column_fragments name documents))).
  { intros name.
    rewrite (merge_fragments_merged name) by by apply filter_has_name_specified.
    unfold table_fragments, column_fragments. by rewrite !filter_fragment_of. }
  destruct (reassemble_loop_succeeds documents []) as [db0 Hloop].
  { apply Forall_forall. intros d Hd. apply as_specified_mergeable.
    by apply (proj1 (Forall_forall _ _) Hdocs). }
  { intros name. simpl. by rewrite Hmerge. }
  assert (Hdb : reassembled documents = Ok (List.filter is_complete db0)).
  { unfold reassembled. by rewrite Hloop. }
  exists (List.filter is_complete db0). split; [done|].
  destruct (reassembled_lookup _ _ Hdb) as [Hnodup Hlookup].
  split; [done|]. intros name.
  destruct (Hlookup name) as (entry & Hentry & ->).
  rewrite Hmerge in Hentry. by injection Hentry as <-.
Qed.

Lemma merged_entry_same (T T' C C' : list Document) :
  C = C' →
  last T = last T' →
  (C = [] → length T = length T') →
  merged_entry T C = merged_entry T' C'.
Proof.
  intros <- Hlast Hlen. unfold merged_entry. rewrite <- Hlast.
  assert (merged_columns T C = merged_columns T' C) as ->; [|done].
  destruct C as [|c C]; [|by destruct T as [|? [|? ?]], T' as [|? [|? ?]]].
  specialize (Hlen eq_refl).
  by destruct T as [|? [|? ?]], T' as [|? [|? ?]].
Qed.

(** C6. Two TABLE fragments stored under one table name, and no
    TABLE_COLUMNS fragment: each of the two alone is dropped as
    incomplete, yet together they are surfaced, as the content of the
    second one with an empty list of columns that no fragment
    supplied. *)
Theorem table_stored_twice_is_surfaced (d d' : Document) (c c' : dict)
    (name : string) :
  literal_eval d.(content) = Ok (VDict c) →
  literal_eval d'.(content) = Ok (VDict c') →
  dict_getitem c "type" = Ok (VStr "TABLE") →
  dict_getitem c' "type" = Ok (VStr "TABLE") →
  dict_get "columns" c = None →
  dict_get "columns" c' = None →
  meta_name d = Ok name →
  meta_name d' = Ok name →
  construct_db_schemas [d] = Ok []
  ∧ construct_db_schemas [d'] = Ok []
  ∧ construct_db_schemas [d; d'] = Ok [dict_set "columns" (VList []) c'].
Proof.
  intros Hc Hc' Hty Hty' Hcols Hcols' Hname Hname'.
  assert (Hin : dict_in "type" c' = true).
  { unfold dict_in, alist_in. unfold dict_getitem, dict_get in Hty'.
    by destruct (alist_get "type"%string c'). }
  assert (Hone : ∀ d0 c0, literal_eval d0.(content) = Ok (VDict c0) →
                          dict_getitem c0 "type" = Ok (VStr "TABLE") →
                          dict_get "columns" c0 = None →
                          meta_name d0 = Ok name →
                          reassemble_step [] d0 = Ok [(name, c0)]
                          ∧ is_complete (name, c0) = false).
  { intros d0 c0 H0 Ht0 Hc0 Hn0. unfold reassemble_step.
    rewrite H0. simpl. rewrite Ht0. simpl. rewrite Hn0. simpl.
    split; [done|]. unfold is_complete, dict_in, alist_in. simpl.
    unfold dict_get in Hc0. rewrite Hc0. apply andb_false_r. }
  destruct (Hone d c Hc Hty Hcols Hname) as [Hstep Hdrop].
  destruct (Hone d' c' Hc' Hty' Hcols' Hname') as [Hstep' Hdrop'].
  unfold construct_db_schemas, reassembled. simpl.
  rewrite Hstep, Hstep'. simpl. rewrite Hdrop, Hdrop'.
  split; [done|]. split; [done|].
  unfold reassemble_step. rewrite Hc'. simpl. rewrite Hty'. simpl.
  rewrite Hname'. simpl. rewrite decide_True by done. simpl.
  rewrite decide_True by done. simpl.
  unfold dict_get_default. rewrite Hcols.
  unfold is_complete. simpl. rewrite dict_in_set_other, Hin by done.
  unfold dict_in, alist_in, dict_set. by rewrite alist_get_set_eq.
Qed.

(** C3. On fragments as the specification describes them the
    reassembler returns, and two sequences of fragments reassemble to
    the same descriptors, up to their order, when for every table name
    they hold the same TABLE_COLUMNS fragments in the same order and
    the same TABLE fragment last, and the second sequence is a
    permutation of the first or has as many TABLE fragments for every
    name without TABLE_COLUMNS fragment. So it does not matter whether
    the TABLE fragment of a table arrives before or after its
    TABLE_COLUMNS fragments, nor how the fragments of different tables
    are interleaved. The output follows the order in which the names
    are first seen. A TABLE fragment that arrives when its table
    name has an entry keeps the columns of that entry, and a
    TABLE_COLUMNS fragment appends its columns to those of the entry,
    so that the order of the TABLE_COLUMNS fragments of one table is
    the order of its columns and a repeated one repeats its
    columns. *)
Theorem reassembly_per_table (documents documents' : list Document) :
  (Forall as_specified documents →
   documents ≡ₚ documents'
   ∨ (Forall as_specified documents'
      ∧ ∀ name, column_fragments name documents = [] →
                length (table_fragments name documents)
                = length (table_fragments name documents')) →
   (∀ name, column_fragments name documents = column_fragments name documents') →
   (∀ name, last (table_fragments name documents)
            = last (table_fragments name documents')) →
   ∃ db db',
     reassembled documents = Ok db
     ∧ reassembled documents' = Ok db'
     ∧ construct_db_schemas documents = Ok (map snd db)
     ∧ construct_db_schemas documents' = Ok (map snd db')
     ∧ (∀ name, alist_get name db = alist_get name db')
     ∧ map snd db ≡ₚ map snd db')
  ∧ (∀ db,
       reassembled documents = Ok db →
       NoDup (map fst db)
       ∧ (∀ name, ∃ entry,
            merge_fragments (List.filter (has_name name) documents) None = Ok entry
            ∧ alist_get name db = surfaced entry)
       ∧ ∃ db0,
           map fst db0 = first_seen (merged_names documents) []
           ∧ db = List.filter is_complete db0)
  ∧ (∀ e c ty entry',
       value_is_str ty "TABLE" = true →
       merge_fragment (Some e) c ty = Ok entry' →
       ∃ e', entry' = Some e'
             ∧ dict_get "columns" e'
               = Some (dict_get_default "columns" (VList []) e))
  ∧ (∀ e c ty old new,
       value_is_str ty "TABLE_COLUMNS" = true →
       dict_get "columns" e = Some (VList old) →
       dict_get "columns" c = Some (VList new) →
       merge_fragment (Some e) c ty
       = Ok (Some (dict_set "columns" (VList (old ++ new)) e))).
Proof.
  split; [|split; [|split]]; cycle 3.
  { intros e c ty old new Hty Hold Hnew.
    assert (ty = VStr "TABLE_COLUMNS") as ->.
    { destruct ty; try done. simpl in Hty. by apply String.eqb_eq in Hty as ->. }
    unfold merge_fragment, dict_getitem. simpl. by rewrite Hnew, Hold. }
  - intros Hdocs Hother Hcolumns Hlast.
    assert (Forall as_specified documents'
            ∧ ∀ name, column_fragments name documents = [] →
                      length (table_fragments name documents)
                      = length (table_fragments name documents'))
      as [Hdocs' Hcount].
    { destruct Hother as [Hperm|?]; [|done]. split; [by rewrite <- Hperm|].
      intros name _. unfold table_fragments.
      by apply Permutation_length, filter_Permutation_bool. }
    destruct (reassembled_merged documents Hdocs) as (db & Hdb & Hnodup & Hentry).
    destruct (reassembled_merged documents' Hdocs') as (db' & Hdb' & Hnodup' & Hentry').
    assert (Hsame : ∀ name, alist_get name db = alist_get name db').
    { intros name. rewrite Hentry, Hentry'. f_equal.
      apply merged_entry_same; [apply Hcolumns|apply Hlast|apply Hcount]. }
    exists db, db'. unfold construct_db_schemas. rewrite Hdb, Hdb'.
    repeat split; try done.
    by apply Permutation_map, alist_same_lookup.
  - intros db Hdb. destruct (reassembled_lookup _ _ Hdb) as [Hnodup Hlookup].
    split; [done|]. split; [done|].
    unfold reassembled in Hdb.
    destruct (reassemble_loop documents []) as [db0|] eqn:Hloop; simpl in Hdb; [|done].
    injection Hdb as <-. exists db0. split; [|done].
    by apply (reassemble_loop_keys _ _ _ Hloop).
  - intros e c ty entry' Hty. unfold merge_fragment. rewrite Hty.
    intros [= <-]. eexists. split; [done|].
    unfold dict_get, dict_set. apply alist_get_set_eq.
Qed.
End reassembly_properties.

(** ** Properties of the rest of the module *)

Section encoding_properties.

Lemma prefix_app_l (n m hay : string) :
  String.prefix (n +:+ m) hay = true → String.prefix n hay = true.
Proof.
  revert hay. induction n as [|c n IH]; intros [|c' hay]; simpl; try done.
  destruct (Ascii.ascii_dec c c'); [apply IH|done].
Qed.

Lemma contains_app_l (n m hay : string) :
  contains (n +:+ m) hay = true → contains n hay = true.
Proof.
  induction hay as [|c hay IH]; cbn [contains].
  - rewrite !orb_false_r. apply prefix_app_l.
  - intros [Hp|Hc]%orb_true_iff; apply orb_true_iff.
    + left. by apply (prefix_app_l n m).
    + right. by apply IH.
Qed.

(** X8. The tokenizer depends on the model name only through whether
    it contains [gpt-4o]: such a model gets [o200k_base], every other
    model [cl100k_base]; the second test, for [gpt-4o-mini], never
    decides anything. *)
Theorem encoding_name_by_gpt_4o (_model : string) :
  encoding_name _model
  = (if contains "gpt-4o" _model then "o200k_base" else "cl100k_base")%string
  ∧ (contains "gpt-4o-mini" _model = true → encoding_name _model = "o200k_base"%string).
Proof.
  unfold encoding_name.
  destruct (contains "gpt-4o" _model) eqn:H4o; simpl; [done|].
  destruct (contains "gpt-4o-mini" _model) eqn:Hmini; [|done].
  apply (contains_app_l "gpt-4o" "-mini") in Hmini. congruence.
Qed.
End encoding_properties.

Section call_properties.
Context {payload : Type} {R : PyRuntime} {C : Common} {P : Providers payload}.

Lemma ascending_bounds lo hi kinds : ascending lo hi kinds → lo ≤ hi.
Proof.
  revert lo. induction kinds as [|k rest IH]; intros lo; simpl; [done|].
  intros [Hlo Hrest]. apply IH in Hrest. lia.
Qed.

Lemma ascending_from lo lo' hi kinds :
  lo' ≤ lo → ascending lo hi kinds → ascending lo' hi kinds.
Proof. destruct kinds as [|k rest]; simpl; [lia|]. intros ? [? ?]. split; [lia|done]. Qed.

Lemma ascending_app lo mid hi kinds kinds' :
  ascending lo mid kinds → ascending mid hi kinds' → ascending lo hi (kinds ++ kinds').
Proof.
  revert lo. induction kinds as [|k rest IH]; intros lo; simpl.
  - intros Hlo. by apply ascending_from.
  - intros [Hlo Hrest] Hkinds'. split; [done|]. by apply IH.
Qed.

Lemma emits_pure_step {A} lo hi (r : result A) :
  lo ≤ hi → emits (payload := payload) lo hi (pure_step r).
Proof. intros Hle log. exists []. by rewrite app_nil_r. Qed.

Lemma emits_await {A} lo hi (c : call payload) (r : result A) :
  lo ≤ call_kind c < hi → emits lo hi (await c r).
Proof. intros Hc log. exists [c]. split; [done|]. simpl. lia. Qed.

Lemma emits_bind {A B} lo mid hi (step : M payload A) (next : A → M payload B) :
  mid ≤ hi →
  emits lo mid step → (∀ a, emits mid hi (next a)) → emits lo hi (step ≫= next).
Proof.
  intros Hle Hstep Hnext log. unfold mbind, M_bind.
  destruct (Hstep log) as (calls & Hlog & Hcalls).
  destruct (step log) as [[a|e] log1]; simpl in Hlog; subst log1.
  - destruct (Hnext a (log ++ calls)) as (calls' & Hlog' & Hcalls').
    exists (calls ++ calls'). rewrite Hlog', app_assoc, map_app. split; [done|].
    by apply (ascending_app _ mid).
  - exists calls. split; [done|].
    rewrite <- (app_nil_r (map call_kind calls)).
    by apply (ascending_app _ mid).
Qed.

Lemma emits_embedding query histories : emits 0 1 (embedding query histories).
Proof.
  unfold embedding. destruct query; [apply emits_pure_step; lia|].
  apply emits_await. simpl. lia.
Qed.

Lemma emits_table_retrieval e project_id tables :
  emits 1 2 (table_retrieval e project_id tables).
Proof.
  unfold table_retrieval. destruct e; apply emits_await; simpl; lia.
Qed.

Lemma emits_dbschema_retrieval t project_id :
  emits 2 3 (dbschema_retrieval t project_id).
Proof.
  unfold dbschema_retrieval.
  apply (emits_bind 2 2 3); [lia|apply emits_pure_step; lia|].
  intros names. destruct (map _ names); [apply emits_pure_step; lia|].
  apply (emits_bind 2 3 3); [lia|apply emits_await; simpl; lia|].
  intros results. apply emits_pure_step; lia.
Qed.

Lemma emits_filter_columns_in_tables p :
  emits 3 4 (trace_cost (filter_columns_in_tables p)).
Proof.
  unfold trace_cost, filter_columns_in_tables.
  apply (emits_bind 3 4 4); [lia| |intros [f ?]; apply emits_pure_step; lia].
  destruct p as [text|]; [|apply emits_pure_step; lia].
  apply (emits_bind 3 4 4); [lia|apply emits_await; simpl; lia|].
  intros reply. apply emits_pure_step; lia.
Qed.

(** X3. Whatever a request is given and however it ends, it leaves the
    calls logged before it untouched and adds at most one call to each
    collaborator, in the order embedder, table retriever, schema
    retriever, generator: no call is repeated and none is issued out of
    turn. *)
Theorem run_calls_in_order (query : string) (tables : option (list string))
    (project_id : option string) (histories : option (list AskHistory))
    (enable_column_pruning : bool) :
  emits 0 4 (run query tables project_id histories enable_column_pruning)
  ∧ ∀ log outcome log',
      run query tables project_id histories enable_column_pruning log
      = (outcome, log') →
      ∃ calls, log' = log ++ calls ∧ ascending 0 4 (map call_kind calls).
Proof.
  assert (Hrun : emits 0 4 (run query tables project_id histories enable_column_pruning)).
  { unfold run, retrieve_fragments, prune_and_assemble.
    apply (emits_bind 0 3 4); [lia| |].
    - apply (emits_bind 0 1 3); [lia|apply emits_embedding|].
      intros e. apply (emits_bind 1 2 3); [lia|apply emits_table_retrieval|].
      intros t. apply emits_dbschema_retrieval.
    - intros docs. apply (emits_bind 3 3 4); [lia|apply emits_pure_step; lia|].
      intros schemas. apply (emits_bind 3 3 4); [lia|apply emits_pure_step; lia|].
      intros check. apply (emits_bind 3 3 4); [lia|apply emits_pure_step; lia|].
      intros p. apply (emits_bind 3 4 4); [lia|apply emits_filter_columns_in_tables|].
      intros f. apply emits_pure_step; lia. }
  split; [exact Hrun|].
  intros log outcome log' Hlog. destruct (Hrun log) as (calls & Hcalls & Hkinds).
  rewrite Hlog in Hcalls. by exists calls.
Qed.

(** X2. The schema retrieval step asks the store at most once. With no
    table document (no [documents] entry or an empty list) it returns
    no fragment without a call; when the content of a table document
    does not decode or has no name it raises without a call; otherwise
    it issues one call, with the empty list as embedding and a filter
    that holds one name condition for each table document, in their
    order, and the project condition exactly when a project id is
    given. *)
Theorem dbschema_retrieval_calls (t : RetrieverOutput) (project_id : string)
    (log : list (call payload)) :
  let tables := default [] t.(documents) in
  (tables = [] → dbschema_retrieval t project_id log = (Ok [], log))
  ∧ (∀ e, table_names_of tables = Raise e →
          dbschema_retrieval t project_id log = (Raise e, log))
  ∧ (∀ names,
       tables ≠ [] →
       table_names_of tables = Ok names →
       length names = length tables
       ∧ let filters :=
           Group "AND"
             ([Condition "type" "==" (VStr "TABLE_SCHEMA");
               Group "OR" (map (Condition "name" "==") names)]
              ++ match project_id with
                 | String _ _ => [Condition "project_id" "==" (VStr project_id)]
                 | EmptyString => []
                 end) in
         dbschema_retrieval t project_id log
         = (match dbschema_retriever_run QEmptyList filters with
            | Ok results =>
                match results.(documents) with
                | Some docs => Ok docs
                | None => Raise KeyError
                end
            | Raise e => Raise e
            end,
            log ++ [DbschemaRetrieverRun QEmptyList filters])).
Proof.
  intros tables. unfold dbschema_retrieval. fold tables.
  split; [|split].
  - intros ->. reflexivity.
  - intros e He. unfold mbind, M_bind, pure_step. by rewrite He.
  - intros names Hne Hnames.
    assert (Hlen : length names = length tables).
    { clear Hne. revert names Hnames.
      induction tables as [|d rest IH]; intros names; simpl.
      { by intros [= <-]. }
      destruct (literal_eval (content d)) as [parsed|]; simpl; [|done].
      destruct (getitem parsed "name"); simpl; [|done].
      destruct (table_names_of rest) as [names'|]; simpl; [|done].
      intros [= <-]. simpl. f_equal. by apply IH. }
    split; [done|].
    unfold mbind, M_bind, pure_step, await. rewrite Hnames.
    destruct names as [|n names]; [by destruct tables|]. simpl.
    by destruct (dbschema_retriever_run _ _).
Qed.

(** X9. When no schema fragment was retrieved, pruning counts as
    required although nothing exceeds any window: the request builds a
    prompt without any table, calls the generator once and hands its
    answer to the assembler; when the entries of the reply can be
    re-keyed, the result is empty with all flags down. *)
Theorem no_fragment_still_asks_the_generator (query : string)
    (tables : option (list string)) (project_id : option string)
    (histories : option (list AskHistory)) (enable_column_pruning : bool)
    (log log' : list (call payload)) (toks : list nat) (text : string) (f : dict) :
  retrieve_fragments query (tables_value tables)
    (default EmptyString project_id) (default [] histories) log = (Ok [], log') →
  encoding EmptyString = Ok toks →
  prompt_builder_run (with_histories query (default [] histories)) [] = Ok text →
  table_columns_selection_generator (clean_up_new_lines text) = Ok f →
  let check := {| db_schemas := []; tokens := length toks; budget_flags := no_flags |} in
  run query tables project_id histories enable_column_pruning log
  = (construct_retrieval_results check f [] [],
     log' ++ [GeneratorRun (clean_up_new_lines text)])
  ∧ (f ≠ [] →
     ∀ items selection,
       reply_items f = Ok items →
       reformat_loop items [] = Ok selection →
       construct_retrieval_results check f [] []
       = Ok {| retrieval_results := []; flags := no_flags |}).
Proof.
  intros Hdocs Htoks Htext Hf check. split.
  - unfold run, mbind, M_bind. rewrite Hdocs. unfold pure_step. simpl.
    unfold check_using_db_schemas_without_pruning. simpl. rewrite Htoks. simpl.
    assert (Hcheck :
      (if (Z.of_nat (length toks) >? context_window_size)%Z || enable_column_pruning
       then Ok {| db_schemas := []; tokens := length toks; budget_flags := no_flags |}
       else Ok {| db_schemas := []; tokens := length toks; budget_flags := no_flags |})
      = Ok check) by (by destruct (_ || _)).
    rewrite Hcheck.
    unfold prune_and_assemble, mbind, M_bind, pure_step, prompt, trace_cost,
      filter_columns_in_tables, mbind, M_bind, await. simpl.
    rewrite Htext. simpl. by rewrite Hf.
  - intros Hne items selection Hitems Hselection.
    rewrite construct_retrieval_results_pruned by done.
    rewrite Hitems. simpl. by rewrite Hselection.
Qed.
End call_properties.

Section metric_properties.
Context {R : PyRuntime} {C : Common}.

Lemma metric_column_kept_eq column :
  metric_column_kept column
  = match getitem column "data_type" with
    | Ok (VStr s) => negb (String.eqb (str_lower s) "unknown")
    | _ => false
    end.
Proof. reflexivity. Qed.

(** The column lines are those of the columns of a known type. *)
Lemma metric_columns_ddl_kept items lines :
  metric_columns_ddl items = Ok lines →
  metric_columns_ddl (List.filter metric_column_kept items) = Ok lines
  ∧ length lines = length (List.filter metric_column_kept items).
Proof.
  revert lines. induction items as [|column rest IH]; intros lines; simpl.
  { by intros [= <-]. }
  rewrite metric_column_kept_eq.
  destruct (getitem column "data_type") as [[| | |s| |]|] eqn:Hty; simpl; try done.
  destruct (negb (String.eqb (str_lower s) "unknown")) eqn:Hkept; simpl; [|apply IH].
  rewrite Hty. simpl. rewrite Hkept.
  destruct (getitem column "comment"); simpl; [|done].
  destruct (getitem column "name"); simpl; [|done].
  destruct (metric_columns_ddl rest) as [lines'|]; simpl; [|done].
  intros [= <-]. destruct (IH lines' eq_refl) as [-> Hlen]. simpl. by rewrite Hlen.
Qed.

(** With a data type on every column the comprehension goes as on the
    columns of a known type alone. *)
Lemma metric_columns_ddl_filter items :
  Forall (λ column, ∃ s, getitem column "data_type" = Ok (VStr s)) items →
  metric_columns_ddl items
  = metric_columns_ddl (List.filter metric_column_kept items).
Proof.
  induction 1 as [|column rest [s Hty] _ IH]; simpl; [done|].
  rewrite metric_column_kept_eq, Hty. simpl.
  destruct (negb (String.eqb (str_lower s) "unknown")) eqn:Hkept; simpl; [|done].
  rewrite Hty. simpl. rewrite Hkept.
  destruct (getitem column "comment"); simpl; [|done].
  destruct (getitem column "name"); simpl; [|done].
  by rewrite IH.
Qed.

Lemma metric_columns_ddl_returns items :
  Forall (λ column, metric_column_kept column = true
                    ∧ is_ok (getitem column "comment") = true
                    ∧ is_ok (getitem column "name") = true) items →
  ∃ lines, metric_columns_ddl items = Ok lines.
Proof.
  induction 1 as [|column rest (Hkept & Hcomment & Hname) _ [lines IH]]; simpl.
  { by eexists. }
  rewrite metric_column_kept_eq in Hkept.
  destruct (getitem column "data_type") as [[| | |s| |]|]; simpl; try done.
  rewrite Hkept.
  destruct (getitem column "comment"); simpl; [|done].
  destruct (getitem column "name"); simpl; [|done].
  rewrite IH. by eexists.
Qed.

(** X1. A metric column whose data type lower-cases to [unknown] leaves
    no trace in the DDL of the metric, and nothing but its data type
    is read. When every column has a data type, the builder returns or
    raises as it does on the metric without its columns of unknown
    type; it returns as soon as the metric and its columns of a known
    type have a comment and a name; and the DDL it returns has one
    column line for each column of a known type. *)
Theorem metric_ddl_without_unknown_columns (d : dict) (items : list value) :
  dict_get "columns" d = Some (VList items) →
  Forall (λ column, ∃ s, getitem column "data_type" = Ok (VStr s)) items →
  let known := List.filter metric_column_kept items in
  _build_metric_ddl (VDict d)
  = _build_metric_ddl (VDict (dict_set "columns" (VList known) d))
  ∧ (Forall (λ column, is_ok (getitem column "comment") = true
                       ∧ is_ok (getitem column "name") = true) known →
     is_ok (dict_getitem d "comment") = true →
     is_ok (dict_getitem d "name") = true →
     ∃ ddl, _build_metric_ddl (VDict d) = Ok ddl)
  ∧ ∀ ddl,
      _build_metric_ddl (VDict d) = Ok ddl →
      ∃ lines comment name,
        metric_columns_ddl items = Ok lines
        ∧ length lines = length known
        ∧ dict_get "comment" d = Some comment
        ∧ dict_get "name" d = Some name
        ∧ ddl = format_value comment +:+ "CREATE TABLE " +:+ format_value name
                +:+ " (" +:+ nl +:+ "  "
                +:+ join ("," +:+ nl +:+ "  ") lines
                +:+ nl +:+ ");".
Proof.
  intros Hcolumns Htyped known. subst known.
  unfold _build_metric_ddl, getitem, dict_getitem, dict_get, dict_set.
  rewrite alist_get_set_eq, !alist_get_set_ne by done.
  unfold dict_get in Hcolumns. rewrite Hcolumns. simpl.
  rewrite (metric_columns_ddl_filter items Htyped).
  split; [done|]. split.
  - intros Hknown Hcomment Hname.
    destruct (metric_columns_ddl_returns (List.filter metric_column_kept items))
      as [lines ->].
    { apply Forall_forall. intros column Hcolumn.
      pose proof (proj1 (Forall_forall _ _) Hknown column Hcolumn) as [? ?].
      apply list_elem_of_In, List.filter_In in Hcolumn as [_ Hkept]. done. }
    simpl.
    destruct (alist_get "comment"%string d); simpl; [|done].
    destruct (alist_get "name"%string d); simpl; [|done].
    by eexists.
  - intros ddl.
    destruct (metric_columns_ddl (List.filter metric_column_kept items))
      as [lines|] eqn:Hlines; simpl; [|done].
    rewrite <- (metric_columns_ddl_filter items Htyped) in Hlines.
    destruct (metric_columns_ddl_kept _ _ Hlines) as [_ Hlen].
    destruct (alist_get "comment"%string d) as [comment|]; simpl; [|done].
    destruct (alist_get "name"%string d) as [name|]; simpl; [|done].
    intros [= <-]. by exists lines, comment, name.
Qed.
End metric_properties.

Section further_reassembly_properties.
Context {R : PyRuntime}.

Lemma dict_get_set_other k k' v (e : dict) :
  k ≠ k' → dict_get k' (dict_set k v e) = dict_get k' e.
Proof. intros Hne. unfold dict_get, dict_set. by rewrite alist_get_set_ne. Qed.

(** Merging never gives an entry a type other than [TABLE]. *)
Lemma merge_fragments_table_or_untyped documents entry entry' :
  merge_fragments documents entry = Ok entry' →
  table_or_untyped entry → table_or_untyped entry'.
Proof.
  revert entry. induction documents as [|d rest IH]; intros entry; simpl.
  { by intros [= <-]. }
  destruct (literal_eval (content d)) as [[| | | | |c]|]; simpl; try done.
  destruct (dict_getitem c "type") as [ty|] eqn:Hty; simpl; [|done].
  destruct (merge_fragment entry c ty) as [entry1|] eqn:Hmerge; simpl; [|done].
  intros Hrest Hentry. apply (IH _ Hrest). clear IH Hrest.
  assert (Hc : dict_get "type" c = Some ty).
  { unfold dict_getitem in Hty. by destruct (dict_get "type" c); simplify_eq. }
  revert Hmerge. unfold merge_fragment.
  destruct (value_is_str ty "TABLE") eqn:Htable.
  { intros [= <-]. simpl. destruct entry as [e|].
    - by rewrite dict_get_set_other, Hc.
    - by rewrite Hc. }
  destruct (value_is_str ty "TABLE_COLUMNS"); [|by intros [= <-]].
  destruct (dict_getitem c "columns") as [columns|]; simpl; [|done].
  destruct entry as [e|]; [|by intros [= <-]].
  simpl in Hentry. destruct (dict_get "columns" e) as [old|].
  - destruct (iadd old columns); simpl; [|done]. intros [= <-]. simpl.
    by rewrite dict_get_set_other.
  - intros [= <-]. simpl. by rewrite dict_get_set_other.
Qed.

(** Every descriptor the reassembler returns has the type [TABLE]. *)
Lemma construct_db_schemas_tables (documents : list Document)
    (schemas : list dict) :
  construct_db_schemas documents = Ok schemas →
  Forall (λ e, is_table e = true) schemas.
Proof.
  unfold construct_db_schemas.
  destruct (reassembled documents) as [db|] eqn:Hdb; simpl; [|done].
  intros [= <-]. destruct (reassembled_lookup _ _ Hdb) as [Hnodup Hlookup].
  apply Forall_forall. intros e ([name e'] & -> & Hin)%list_elem_of_fmap. simpl.
  apply (alist_NoDup_elem _ _ _ Hnodup) in Hin.
  destruct (Hlookup name) as (entry & Hmerge & Hentry). rewrite Hin in Hentry.
  apply merge_fragments_table_or_untyped in Hmerge; [|done].
  destruct entry as [e0|]; [|done]. simpl in Hentry, Hmerge.
  unfold complete, dict_in, alist_in, dict_get in *.
  destruct (alist_get "type"%string e0) as [ty|] eqn:Hty; simpl in Hentry; [|done].
  destruct (alist_in "columns"%string e0) eqn:Hc; unfold alist_in in Hc;
    rewrite Hc in Hentry; [|done].
  injection Hentry as <-. unfold is_table, dict_getitem, dict_get. by rewrite Hty.
Qed.

Lemma fragment_type_in_eq types d :
  fragment_type_in types d
  = match literal_eval d.(content) with
    | Ok parsed =>
        match getitem parsed "type" with
        | Ok ty => existsb (value_is_str ty) types
        | Raise _ => false
        end
    | Raise _ => false
    end.
Proof. reflexivity. Qed.

Lemma reassemble_loop_merging documents db db' :
  reassemble_loop documents db = Ok db' →
  reassemble_loop
    (List.filter (fragment_type_in ["TABLE"; "TABLE_COLUMNS"]%string) documents) db
  = Ok db'.
Proof.
  revert db. induction documents as [|d rest IH]; intros db; simpl; [done|].
  destruct (reassemble_step db d) as [db1|] eqn:Hstep; simpl; [|done].
  intros Hloop. apply IH in Hloop.
  rewrite fragment_type_in_eq.
  pose proof Hstep as Hstep'. rewrite reassemble_step_merge in Hstep'.
  destruct (literal_eval (content d)) as [[| | | | |c]|]; simpl in *; try done.
  destruct (dict_getitem c "type") as [ty|]; simpl in *; [|done].
  rewrite orb_false_r.
  destruct (value_is_str ty "TABLE" || value_is_str ty "TABLE_COLUMNS").
  - simpl. by rewrite Hstep.
  - by injection Hstep' as <-.
Qed.

(** X5. Fragments of any other kind than TABLE and TABLE_COLUMNS, the
    metrics and views among them, have no part in the reassembly:
    whenever it goes through, it returns what it returns on the TABLE
    and TABLE_COLUMNS fragments alone. *)
Theorem reassembly_ignores_other_kinds (documents : list Document)
    (schemas : list dict) :
  construct_db_schemas documents = Ok schemas →
  construct_db_schemas
    (List.filter (fragment_type_in ["TABLE"; "TABLE_COLUMNS"]%string) documents)
  = Ok schemas.
Proof.
  unfold construct_db_schemas, reassembled.
  destruct (reassemble_loop documents []) as [db|] eqn:Hloop; simpl; [|done].
  by rewrite (reassemble_loop_merging _ _ _ Hloop).
Qed.

Lemma alist_set_Forall (P : dict → Prop) name e (db : list (string * dict)) :
  P e → Forall (λ kv, P kv.2) db → Forall (λ kv, P kv.2) (alist_set name e db).
Proof.
  intros He. induction 1 as [|[k e'] db Hk Hdb IH]; simpl.
  - by repeat constructor.
  - destruct (decide (k = name)); by constructor.
Qed.

Lemma columns_listed_set l (e : dict) : columns_listed (dict_set "columns" (VList l) e).
Proof. unfold columns_listed, dict_get, dict_set. by rewrite alist_get_set_eq. Qed.

Lemma reassemble_step_well_formed db d :
  well_formed d →
  Forall (λ kv, columns_listed kv.2) db →
  ∃ db', reassemble_step db d = Ok db' ∧ Forall (λ kv, columns_listed kv.2) db'.
Proof.
  intros (c & ty & Hc & Hty & Hname & Hcolumns & Htable) Hdb.
  unfold reassemble_step. rewrite Hc. simpl. rewrite Hty. simpl.
  assert (Hentry : ∀ name e, alist_get name db = Some e → columns_listed e).
  { intros name e He%alist_get_Some_elem.
    by apply (proj1 (Forall_forall _ _) Hdb (name, e)). }
  destruct (value_is_str ty "TABLE") eqn:Hkind; simpl in *.
  { destruct (Hname eq_refl) as [name ->]. simpl.
    destruct (alist_get name db) as [e|] eqn:He; eexists; (split; [done|]).
    - apply alist_set_Forall; [|done].
      specialize (Hentry _ _ He). unfold columns_listed, dict_get_default in *.
      destruct (dict_get "columns" e) as [[| | | |l|]|]; try done;
        apply columns_listed_set.
    - apply alist_set_Forall; [|done]. by apply Htable. }
  destruct (value_is_str ty "TABLE_COLUMNS") eqn:Hkind'; simpl in *;
    [|by eexists].
  destruct (Hname eq_refl) as [name ->]. simpl.
  destruct (Hcolumns eq_refl) as [columns Hcols].
  unfold dict_getitem. rewrite Hcols. simpl.
  destruct (alist_get name db) as [e|] eqn:He.
  - specialize (Hentry _ _ He). unfold columns_listed in Hentry.
    unfold dict_in, alist_in, dict_get in *.
    destruct (alist_get "columns"%string e) as [[| | | |l|]|]; try done; simpl;
      eexists; (split; [done|]); apply alist_set_Forall; try done;
      apply columns_listed_set.
  - eexists. split; [done|]. apply alist_set_Forall; [|done].
    unfold columns_listed. by simpl.
Qed.

(** X10. On fragments of the shape it is written for the reassembler
    never raises: when every content decodes to a dict with a type,
    every TABLE and TABLE_COLUMNS fragment is stored under a name, and
    the columns are lists, it returns descriptors. *)
Theorem reassembly_of_well_formed_fragments (documents : list Document) :
  Forall well_formed documents →
  ∃ schemas, construct_db_schemas documents = Ok schemas.
Proof.
  intros Hdocs.
  assert (Hloop : ∀ db, Forall (λ kv, columns_listed kv.2) db →
                        ∃ db', reassemble_loop documents db = Ok db').
  { induction Hdocs as [|d rest Hd _ IH]; intros db Hdb; simpl; [by eexists|].
    destruct (reassemble_step_well_formed db d Hd Hdb) as (db1 & -> & Hdb1).
    simpl. by apply IH. }
  destruct (Hloop [] ltac:(constructor)) as [db Hdb].
  unfold construct_db_schemas, reassembled. rewrite Hdb. simpl. by eexists.
Qed.
End further_reassembly_properties.

Section further_assembly_properties.
Context {R : PyRuntime} {C : Common}.

Lemma for_each_elem {A B} (f : A → result (option B)) (l : list A) ys y :
  for_each f l = Ok ys →
  y ∈ ys ↔ ∃ x, x ∈ l ∧ f x = Ok (Some y).
Proof.
  revert ys. induction l as [|x l IH]; intros ys; simpl.
  { intros [= <-]. split; [by intros ?%elem_of_nil|by intros (? & ?%elem_of_nil & _)]. }
  destruct (f x) as [o|] eqn:Hx; simpl; [|done].
  destruct (for_each f l) as [ys'|]; simpl; [|done].
  intros [= <-]. specialize (IH ys' eq_refl).
  assert (Hrest : y ∈ ys' ↔ ∃ x', x' ∈ l ∧ f x' = Ok (Some y)) by done.
  destruct o as [b|]; rewrite ?elem_of_cons, Hrest; split.
  - intros [->|(x' & Hx' & Hy)]; [exists x|exists x'];
      (split; [by constructor|done]).
  - intros (x' & [->|Hx']%elem_of_cons & Hy); [left; congruence|right; by exists x'].
  - intros (x' & Hx' & Hy). exists x'. split; [by constructor|done].
  - intros (x' & [->|Hx']%elem_of_cons & Hy); [congruence|by exists x'].
Qed.

Lemma for_each_ok {A B} (f : A → result (option B)) (l : list A) ys x :
  for_each f l = Ok ys → x ∈ l → ∃ o, f x = Ok o.
Proof.
  revert ys. induction l as [|x' l IH]; intros ys; simpl; [by intros _ ?%elem_of_nil|].
  destruct (f x') as [o|] eqn:Hx; simpl; [|done].
  destruct (for_each f l) as [ys'|]; simpl; [|done].
  intros _ [->|Hin]%elem_of_cons; [by exists o|by apply (IH ys')].
Qed.

Lemma is_table_eq t :
  is_table t
  = match dict_getitem t "type" with
    | Ok ty => value_is_str ty "TABLE"
    | Raise _ => false
    end.
Proof. reflexivity. Qed.

(** The table candidates are, in order, the descriptors of type
    [TABLE]. *)
Lemma table_candidates_names schemas ts :
  for_each table_candidate schemas = Ok ts →
  map (λ t : RetrievalResult * bool * bool, table_name t.1.1) ts
  = map descriptor_name (List.filter is_table schemas).
Proof.
  revert ts. induction schemas as [|t rest IH]; intros ts; simpl.
  { by intros [= <-]. }
  rewrite is_table_eq. set (tail := for_each table_candidate rest) in *.
  unfold table_candidate.
  destruct (dict_getitem t "type") as [ty|]; simpl; [|done].
  destruct (value_is_str ty "TABLE"); simpl.
  - destruct (build_table_ddl t None None) as [[[ddl calculated] json]|]; simpl; [|done].
    destruct (dict_getitem t "name") as [name|] eqn:Hname; simpl; [|done].
    destruct tail as [ts'|]; simpl; [|done].
    intros [= <-]. simpl. by rewrite (IH ts' eq_refl), descriptor_name_eq, Hname.
  - destruct tail as [ts'|]; simpl; [|done]. intros [= <-]. by apply IH.
Qed.

(** The fragment candidates are, in order, the fragments of kind
    METRIC or VIEW, flagged when they are metrics. *)
Lemma fragment_candidates_names documents fs :
  for_each fragment_candidate documents = Ok fs →
  map (λ f : RetrievalResult * bool, table_name f.1) fs
  = map fragment_name
      (List.filter (fragment_type_in ["METRIC"; "VIEW"]%string) documents)
  ∧ existsb snd fs = existsb (fragment_type_in ["METRIC"%string]) documents.
Proof.
  revert fs. induction documents as [|d rest IH]; intros fs; simpl.
  { by intros [= <-]. }
  rewrite !fragment_type_in_eq.
  set (tail := for_each fragment_candidate rest) in *.
  unfold fragment_candidate.
  destruct (literal_eval (content d)) as [parsed|] eqn:Hparsed; simpl; [|done].
  destruct (getitem parsed "type") as [ty|]; simpl; [|done].
  destruct (value_is_str ty "METRIC"); simpl.
  { destruct (getitem parsed "name") as [name|] eqn:Hname; simpl; [|done].
    destruct (_build_metric_ddl parsed); simpl; [|done].
    destruct tail as [fs'|]; simpl; [|done].
    intros [= <-]. destruct (IH fs' eq_refl) as [Hnames _]. simpl.
    by rewrite Hnames, fragment_name_eq, Hparsed, Hname. }
  destruct (value_is_str ty "VIEW"); simpl.
  { destruct (getitem parsed "name") as [name|] eqn:Hname; simpl; [|done].
    destruct (_build_view_ddl parsed); simpl; [|done].
    destruct tail as [fs'|]; simpl; [|done].
    intros [= <-]. destruct (IH fs' eq_refl) as [Hnames Hmetric]. simpl.
    by rewrite Hnames, Hmetric, fragment_name_eq, Hparsed, Hname. }
  destruct tail as [fs'|]; simpl; [|done]. intros [= <-]. by apply IH.
Qed.

Lemma filter_sublist {A} (f g : A → bool) (l : list A) :
  (∀ x, f x = true → g x = true) →
  List.filter f l `sublist_of` List.filter g l.
Proof.
  intros Hfg. induction l as [|x l IH]; simpl; [constructor|].
  destruct (f x) eqn:Hf.
  - rewrite (Hfg x Hf). by constructor.
  - destruct (g x); [by constructor|done].
Qed.

Lemma map_sublist {A B} (f : A → B) (l k : list A) :
  l `sublist_of` k → map f l `sublist_of` map f k.
Proof. induction 1; simpl; by constructor. Qed.

Lemma selected_table_is_table tables t : selected_table tables t = true → is_table t = true.
Proof.
  rewrite selected_table_eq, is_table_eq.
  destruct (dict_getitem t "type") as [ty|]; [|done].
  destruct (dict_getitem t "name"); [|done]. by intros [? _]%andb_true_iff.
Qed.

Lemma selected_fragment_kind selection d :
  selected_fragment selection d = true →
  fragment_type_in ["METRIC"; "VIEW"]%string d = true.
Proof.
  unfold selected_fragment. destruct (meta_name d); [|done].
  by intros [_ ?]%andb_true_iff.
Qed.

Lemma fragment_body_metric parsed a a' :
  fragment_body parsed a = Ok a' →
  ∃ ty, getitem parsed "type" = Ok ty
        ∧ a'.2.(has_metric) = a.2.(has_metric) || value_is_str ty "METRIC".
Proof.
  unfold fragment_body.
  destruct (getitem parsed "type") as [ty|]; simpl; [|done].
  intros Hbody. exists ty. split; [done|]. revert Hbody.
  destruct (value_is_str ty "METRIC"); simpl.
  { destruct (getitem parsed "name"); simpl; [|done].
    destruct (_build_metric_ddl parsed); simpl; [|done].
    intros [= <-]. simpl. by rewrite orb_true_r. }
  rewrite orb_false_r.
  destruct (value_is_str ty "VIEW"); simpl; [|by intros [= <-]].
  destruct (getitem parsed "name"); simpl; [|done].
  destruct (_build_view_ddl parsed); simpl; [|done]. by intros [= <-].
Qed.

Lemma pruned_table_loop_metric selection tables schemas a a' :
  pruned_table_loop selection tables schemas a = Ok a' →
  a'.2.(has_metric) = a.2.(has_metric).
Proof.
  revert a. induction schemas as [|t rest IH]; intros a; simpl.
  { by intros [= <-]. }
  destruct (dict_getitem t "type") as [ty|]; simpl; [|done].
  destruct (value_is_str ty "TABLE"); simpl; [|by apply IH].
  destruct (dict_getitem t "name") as [name|]; simpl; [|done].
  destruct (to_key name) as [k|]; simpl; [|done].
  destruct (bool_decide (k ∈ tables)); simpl; [|by apply IH].
  destruct (alist_get k selection) as [table_contents|]; simpl; [|done].
  destruct (getitem table_contents "columns") as [cols|]; simpl; [|done].
  destruct (py_set cols) as [columns|]; simpl; [|done].
  destruct (build_table_ddl t (Some columns) (Some tables))
    as [[[ddl calculated] json]|]; simpl; [|done].
  intros Hloop. by apply IH in Hloop.
Qed.

Lemma pruned_fragment_loop_metric selection documents a a' :
  pruned_fragment_loop selection documents a = Ok a' →
  a'.2.(has_metric) = true →
  a.2.(has_metric) = true
  ∨ existsb (fragment_type_in ["METRIC"%string]) documents = true.
Proof.
  revert a. induction documents as [|d rest IH]; intros a; simpl.
  { intros [= <-]. by left. }
  rewrite fragment_type_in_eq.
  destruct (meta_name d) as [name|]; simpl; [|done].
  destruct (alist_in (KStr name) selection); simpl.
  - destruct (literal_eval (content d)) as [parsed|]; simpl; [|done].
    destruct (fragment_body parsed a) as [a1|] eqn:Hbody; simpl; [|done].
    apply fragment_body_metric in Hbody as (ty & -> & Hmetric).
    intros Hloop Ha'. destruct (IH _ Hloop Ha') as [Ha1|Hrest].
    + rewrite Hmetric in Ha1. apply orb_true_iff in Ha1 as [?|Hty]; [by left|].
      right. simpl. by rewrite Hty.
    + right. rewrite Hrest. by rewrite orb_true_r.
  - intros Hloop Ha'. destruct (IH _ Hloop Ha') as [?|Hrest]; [by left|].
    right. rewrite Hrest. by rewrite orb_true_r.
Qed.

(** X6. Pruning only takes away: whenever the candidate set can be
    built and the assembler returns on the pruned path, the names of
    its results are a subsequence of the names of the unpruned
    candidates, and it reports a metric only if the candidate set has
    one. *)
Theorem pruned_results_among_candidates (check : BudgetResult) (f : dict)
    (schemas : list dict) (documents : list Document)
    (candidates : list RetrievalResult) (fl : AggregateFlags) (r : Retrieval) :
  f ≠ [] →
  candidate_set schemas documents = Ok (candidates, fl) →
  construct_retrieval_results check f schemas documents = Ok r →
  map table_name r.(retrieval_results) `sublist_of` map table_name candidates
  ∧ (r.(flags).(has_metric) = true → fl.(has_metric) = true).
Proof.
  intros Hne Hcandidates Hr.
  unfold candidate_set in Hcandidates.
  destruct (for_each table_candidate schemas) as [ts|] eqn:Hts;
    simpl in Hcandidates; [|done].
  destruct (for_each fragment_candidate documents) as [fs|] eqn:Hfs;
    simpl in Hcandidates; [|done].
  injection Hcandidates as <- <-.
  apply table_candidates_names in Hts.
  apply fragment_candidates_names in Hfs as [Hfs Hmetric].
  split.
  - destruct (pruned_results_names _ _ _ _ _ Hne Hr) as (items & selection & _ & _ & ->).
    rewrite map_app, !map_map, Hts, Hfs.
    apply sublist_app; apply map_sublist, filter_sublist.
    + apply selected_table_is_table.
    + apply selected_fragment_kind.
  - simpl. rewrite Hmetric.
    rewrite construct_retrieval_results_pruned in Hr by done.
    destruct (reply_items f) as [items|]; simpl in Hr; [|done].
    destruct (reformat_loop items []) as [selection|]; simpl in Hr; [|done].
    destruct (pruned_table_loop _ _ _ _) as [a|] eqn:Htables; simpl in Hr; [|done].
    destruct (pruned_fragment_loop _ _ _) as [a'|] eqn:Hfragments; simpl in Hr; [|done].
    injection Hr as <-. simpl. intros Ha'.
    apply pruned_table_loop_metric in Htables. simpl in Htables.
    destruct (pruned_fragment_loop_metric _ _ _ _ Hfragments Ha') as [Ha|?]; [|done].
    congruence.
Qed.

(** X7. The flags the budget evaluator returns are what the candidates
    show: [has_metric] is up exactly when a fragment is a METRIC, and
    [has_calculated_field] and [has_json_field] are up exactly when the
    DDL builder reports a calculated field, or a JSON field, for some
    descriptor of type [TABLE]; views never raise a flag. *)
Theorem budget_flags_meaning (schemas : list dict) (documents : list Document)
    (encoding : string → result (list nat)) (enable_column_pruning : bool)
    (context_window_size : Z) (r : BudgetResult) :
  check_using_db_schemas_without_pruning schemas documents encoding
    enable_column_pruning context_window_size = Ok r →
  r.(budget_flags).(has_metric)
  = existsb (fragment_type_in ["METRIC"%string]) documents
  ∧ (r.(budget_flags).(has_calculated_field) = true ↔
     ∃ t ddl json, t ∈ schemas ∧ is_table t = true
                   ∧ build_table_ddl t None None = Ok (ddl, true, json))
  ∧ (r.(budget_flags).(has_json_field) = true ↔
     ∃ t ddl calculated, t ∈ schemas ∧ is_table t = true
                         ∧ build_table_ddl t None None = Ok (ddl, calculated, true)).
Proof.
  unfold check_using_db_schemas_without_pruning. intros Hr.
  pose proof (candidate_loops schemas documents) as Hloops.
  destruct (table_loop schemas ([], no_flags)) as [a|]; simpl in *; [|done].
  destruct (fragment_loop documents a) as [a'|]; simpl in *; [|done].
  assert (Hflags : r.(budget_flags) = a'.2).
  { destruct (encoding _); simpl in Hr; [|done].
    destruct (_ || _); by injection Hr as <-. }
  rewrite Hflags. clear Hr Hflags. unfold candidate_set in Hloops.
  destruct (for_each table_candidate schemas) as [ts|] eqn:Hts; simpl in Hloops; [|done].
  destruct (for_each fragment_candidate documents) as [fs|] eqn:Hfs;
    simpl in Hloops; [|done].
  injection Hloops as ->. simpl.
  assert (Hcandidate : ∀ t rr calculated json,
    table_candidate t = Ok (Some (rr, calculated, json)) ↔
    is_table t = true
    ∧ ∃ name, dict_getitem t "name" = Ok name
              ∧ build_table_ddl t None None = Ok (table_ddl rr, calculated, json)
              ∧ table_name rr = name).
  { intros t rr calculated json. unfold table_candidate. rewrite is_table_eq.
    destruct (dict_getitem t "type") as [ty|]; simpl; [|by split; [|intros [? _]]].
    destruct (value_is_str ty "TABLE"); simpl; [|by split; [|intros [? _]]].
    destruct (build_table_ddl t None None) as [[[ddl c] j]|]; simpl.
    - destruct (dict_getitem t "name") as [name|]; simpl.
      + split.
        * intros Heq. simplify_eq. split; [done|]. by exists name.
        * intros [_ (name' & Hname' & Hbuild & Hname)].
          destruct rr. simpl in *. by simplify_eq.
      + split; [done|]. by intros [_ (? & ? & _)].
    - split; [done|]. by intros [_ (? & _ & ? & _)]. }
  split; [by apply fragment_candidates_names in Hfs as [_ ->]|].
  split.
  - rewrite existsb_exists. split.
    + intros ([[rr calculated] json] & Hin%list_elem_of_In & Hc). simpl in Hc. subst.
      apply (for_each_elem _ _ _ _ Hts) in Hin as (t & Ht & Hcand).
      apply Hcandidate in Hcand as (Htable & name & _ & Hbuild & _).
      by exists t, (table_ddl rr), json.
    + intros (t & ddl & json & Ht & Htable & Hbuild).
      destruct (for_each_ok _ _ _ _ Hts Ht) as [o Ho].
      assert (∃ name, dict_getitem t "name" = Ok name) as [name Hname].
      { revert Ho. unfold table_candidate. rewrite is_table_eq in Htable.
        destruct (dict_getitem t "type"); simpl; [|done]. rewrite Htable, Hbuild. simpl.
        destruct (dict_getitem t "name"); [by eexists|done]. }
      exists ({| table_name := name; table_ddl := ddl |}, true, json).
      split; [|done]. apply list_elem_of_In, (for_each_elem _ _ _ _ Hts).
      exists t. split; [done|]. apply Hcandidate. split; [done|]. by exists name.
  - rewrite existsb_exists. split.
    + intros ([[rr calculated] json] & Hin%list_elem_of_In & Hc). simpl in Hc. subst.
      apply (for_each_elem _ _ _ _ Hts) in Hin as (t & Ht & Hcand).
      apply Hcandidate in Hcand as (Htable & name & _ & Hbuild & _).
      by exists t, (table_ddl rr), calculated.
    + intros (t & ddl & calculated & Ht & Htable & Hbuild).
      destruct (for_each_ok _ _ _ _ Hts Ht) as [o Ho].
      assert (∃ name, dict_getitem t "name" = Ok name) as [name Hname].
      { revert Ho. unfold table_candidate. rewrite is_table_eq in Htable.
        destruct (dict_getitem t "type"); simpl; [|done]. rewrite Htable, Hbuild. simpl.
        destruct (dict_getitem t "name"); [by eexists|done]. }
      exists ({| table_name := name; table_ddl := ddl |}, calculated, true).
      split; [|done]. apply list_elem_of_In, (for_each_elem _ _ _ _ Hts).
      exists t. split; [done|]. apply Hcandidate. split; [done|]. by exists name.
Qed.

Lemma filter_all {A} (f : A → bool) (l : list A) :
  Forall (λ x, f x = true) l → List.filter f l = l.
Proof. induction 1 as [|x l Hx _ IH]; simpl; [done|]. by rewrite Hx, IH. Qed.

(** X4. Every descriptor the reassembler returns has the type [TABLE]:
    no METRIC, VIEW or TABLE_COLUMNS content is surfaced as a
    descriptor. So the budget evaluator skips none of them: its
    candidates are, in order, all the reassembled descriptors and then
    the METRIC and VIEW fragments. *)
Theorem surfaced_descriptors_are_tables (documents : list Document)
    (schemas : list dict) :
  construct_db_schemas documents = Ok schemas →
  Forall (λ e, is_table e = true) schemas
  ∧ ∀ candidates fl,
      candidate_set schemas documents = Ok (candidates, fl) →
      map table_name candidates
      = map descriptor_name schemas
        ++ map fragment_name
             (List.filter (fragment_type_in ["METRIC"; "VIEW"]%string) documents).
Proof.
  intros Hschemas%construct_db_schemas_tables. split; [done|].
  intros candidates fl. unfold candidate_set.
  destruct (for_each table_candidate schemas) as [ts|] eqn:Hts; simpl; [|done].
  destruct (for_each fragment_candidate documents) as [fs|] eqn:Hfs; simpl; [|done].
  intros [= <- <-].
  apply table_candidates_names in Hts.
  apply fragment_candidates_names in Hfs as [Hfs _].
  by rewrite map_app, !map_map, Hts, Hfs, filter_all.
Qed.

Lemma all_table_ddls_candidates schemas ts :
  Forall (λ e, is_table e = true) schemas →
  for_each table_candidate schemas = Ok ts →
  all_table_ddls schemas = Ok (map (λ t : RetrievalResult * bool * bool, table_ddl t.1.1) ts)
  ∧ length ts = length schemas.
Proof.
  intros Hschemas. revert ts.
  induction Hschemas as [|t rest Ht _ IH]; intros ts; simpl.
  { by intros [= <-]. }
  set (tail := for_each table_candidate rest) in *.
  unfold table_candidate. rewrite is_table_eq in Ht.
  destruct (dict_getitem t "type") as [ty|]; simpl; [|done]. rewrite Ht.
  destruct (build_table_ddl t None None) as [[[ddl calculated] json]|]; simpl; [|done].
  destruct (dict_getitem t "name") as [name|]; simpl; [|done].
  destruct tail as [ts'|]; simpl; [|done].
  intros [= <-]. destruct (IH ts' eq_refl) as [-> Hlen]. simpl. by rewrite Hlen.
Qed.

(** X11. The prompt for pruning shows the reassembled tables only: when
    it is built, the DDL strings put before the generator are those of
    the first candidates of the budget evaluator, one for each
    reassembled descriptor; the metrics and views that follow them in
    the candidate set, and count in the token budget, are not shown. *)
Theorem prompt_lists_tables_only (documents : list Document) (schemas : list dict)
    (candidates : list RetrievalResult) (fl : AggregateFlags)
    (query : string) (histories : list AskHistory)
    (prompt_builder : string → list string → result string) (check : BudgetResult) :
  construct_db_schemas documents = Ok schemas →
  candidate_set schemas documents = Ok (candidates, fl) →
  check.(db_schemas) = [] →
  prompt query schemas prompt_builder check histories
  = (text ← prompt_builder (with_histories query histories)
              (map table_ddl (take (length schemas) candidates));
     Ok (Some (clean_up_new_lines text))).
Proof.
  intros Hschemas%construct_db_schemas_tables. unfold candidate_set.
  destruct (for_each table_candidate schemas) as [ts|] eqn:Hts; simpl; [|done].
  destruct (for_each fragment_candidate documents) as [fs|] eqn:Hfs; simpl; [|done].
  intros [= <- <-] Hcheck.
  destruct (all_table_ddls_candidates _ _ Hschemas Hts) as [Hddls Hlen].
  unfold prompt. rewrite Hcheck, Hddls. simpl.
  rewrite <- Hlen, <- (length_map (λ t : RetrievalResult * bool * bool, t.1.1) ts).
  by rewrite take_app_length, map_map.
Qed.
End further_assembly_properties.

(** ** Examples *)

(** With an empty query no call reaches the embedder and the retriever
    is asked for the listed tables by name; with the query [q] and one
    earlier question the embedder gets both and the filter has no name
    condition. *)
Lemma empty_query_falls_back_to_name_filter_example :
  let P := Sample.providers 4000 (Sample.reply_text [Sample.orders_entry_text]) Sample.stored in
  (e ← embedding (P := P) "" []; table_retrieval (P := P) e "" (VList [VStr "orders"])) []
  = (Ok {| documents := Some [Sample.description_document "orders";
                              Sample.description_document "customers"] |},
     [TableRetrieverRun QEmptyList
        (Group "AND" [Condition "type" "==" (VStr "TABLE_DESCRIPTION");
                      Condition "name" "in" (VList [VStr "orders"])])])
  ∧ (e ← embedding (P := P) "total per customer" [{| question := "list orders" |}];
     table_retrieval (P := P) e "" (VList [VStr "orders"])) []
  = (Ok {| documents := Some [Sample.description_document "orders";
                              Sample.description_document "customers"] |},
     [EmbedderRun ("list orders" +:+ nl +:+ "total per customer");
      TableRetrieverRun (QGet (Some (VList [VInt 1; VInt 0])))
        (Group "AND" [Condition "type" "==" (VStr "TABLE_DESCRIPTION")])]).
Proof.
  intros P.
  pose proof (empty_query_falls_back_to_name_filter (P := P)
                [] "" (VList [VStr "orders"]) []) as [[_ [Hempty _]] _].
  pose proof (empty_query_falls_back_to_name_filter (P := P)
                [{| question := "list orders" |}] "" (VList [VStr "orders"]) [])
    as [_ Hquery].
  split.
  - exact Hempty.
  - destruct (Hquery "total per customer"%string ltac:(discriminate)) as [_ Hrun].
    destruct (Hrun [("embedding", VList [VInt 1; VInt 0]); ("meta", VDict [])]%string
                eq_refl ltac:(discriminate)) as [Hcalls _].
    exact Hcalls.
Defined.

(** On the sample store the evaluator counts 111 tokens over three
    candidates and, at a window of 4000 tokens, returns them all. *)
Lemma budget_evaluator_decision_example :
  ∃ candidates fl toks,
    candidate_set (R := Sample.runtime) (C := Sample.common)
      Sample.schemas Sample.stored = Ok (candidates, fl)
    ∧ Sample.one_per_char (join " " (map table_ddl candidates)) = Ok toks
    ∧ 111 = length toks
    ∧ no_flags = fl
    ∧ (Sample.candidates = [] ↔ pruning_required (length toks) 4000 false ∨ candidates = [])
    ∧ (¬ pruning_required (length toks) 4000 false → Sample.candidates = candidates).
Proof.
  apply (proj2 (budget_evaluator_decision (R := Sample.runtime) (C := Sample.common)
                  Sample.schemas Sample.stored Sample.one_per_char false 4000)
           {| db_schemas := Sample.candidates; tokens := 111; budget_flags := no_flags |}).
  vm_compute. reflexivity.
Defined.

(** With no descriptor and no fragment the evaluator returns an empty
    [db_schemas] although nothing exceeds the window and pruning is not
    forced. *)
Lemma budget_evaluator_decision_counterexample :
  check_using_db_schemas_without_pruning (R := Sample.runtime) (C := Sample.common)
    [] [] Sample.one_per_char false 4000
  = Ok {| db_schemas := []; tokens := 0; budget_flags := no_flags |}
  ∧ ¬ ((Z.of_nat 0 > 4000)%Z ∨ false = true).
Proof.
  split; [reflexivity|]. intros [?|?]; [lia|discriminate].
Defined.

(** The sample store fits a window of 200 tokens, hence one of 4000. *)
Lemma budget_monotone_example :
  check_using_db_schemas_without_pruning (R := Sample.runtime) (C := Sample.common)
    Sample.schemas Sample.stored Sample.one_per_char false 4000
  = Ok {| db_schemas := Sample.candidates; tokens := 111; budget_flags := no_flags |}.
Proof.
  apply (budget_monotone _ _ _ _ 200 4000).
  - vm_compute. reflexivity.
  - discriminate.
  - lia.
Defined.

(** Reassembling the orders fragments together with a fragment cut off
    in the middle raises the decoding error instead of returning the
    orders table. *)
Lemma undecodable_fragment_aborts_example :
  construct_db_schemas (R := Sample.runtime)
    [Sample.orders_table; Sample.orders_id; Sample.malformed; Sample.customers_table]
  = Raise SyntaxError.
Proof.
  apply (proj2 (proj2 (proj2 (proj2
           (undecodable_fragment_aborts (R := Sample.runtime) (C := Sample.common)
              (P := Sample.providers 4000 Sample.malformed_reply_text Sample.stored)
              [Sample.orders_table; Sample.orders_id] [Sample.customers_table]
              Sample.malformed SyntaxError ltac:(reflexivity)))))
           [("orders"%string,
             Sample.table_value "orders"
             ++ [("columns"%string, VList [Sample.column "id" "integer"])])]).
  vm_compute. reflexivity.
Defined.

(** Such a fragment is not dropped: without the
    malformed fragment the orders table is reassembled, with it the
    reassembler and the budget evaluator raise, and so does the whole
    request. *)
Lemma undecodable_fragment_dropped_counterexample :
  let good := [Sample.orders_table; Sample.orders_id] in
  let bad := [Sample.orders_table; Sample.orders_id; Sample.malformed] in
  literal_eval (PyRuntime := Sample.runtime) Sample.malformed.(content) = Raise SyntaxError
  ∧ construct_db_schemas (R := Sample.runtime) good
    = Ok [Sample.table_value "orders"
          ++ [("columns"%string, VList [Sample.column "id" "integer"])]]
  ∧ construct_db_schemas (R := Sample.runtime) bad = Raise SyntaxError
  ∧ check_using_db_schemas_without_pruning (R := Sample.runtime) (C := Sample.common)
      [] bad Sample.one_per_char false 4000 = Raise SyntaxError
  ∧ run (R := Sample.runtime) (C := Sample.common)
      (P := Sample.providers 4000 Sample.malformed_reply_text bad)
      "orders" None None None false []
    = (Raise SyntaxError,
       [EmbedderRun (nl +:+ "orders");
        TableRetrieverRun (QGet (Some (VList [VInt 1; VInt 0])))
          (Group "AND" [Condition "type" "==" (VStr "TABLE_DESCRIPTION")]);
        DbschemaRetrieverRun QEmptyList
          (Group "AND"
             [Condition "type" "==" (VStr "TABLE_SCHEMA");
              Group "OR" [Condition "name" "==" (VStr "orders");
                          Condition "name" "==" (VStr "customers")]])]).
Proof. vm_compute. repeat split; reflexivity. Defined.



(** When the sample store fits the window, no prompt is built and the
    evaluator's candidates come back unchanged without any call. *)
Lemma pruning_call_only_when_required_example :
  let check := {| db_schemas := Sample.candidates; tokens := 111;
                  budget_flags := no_flags |} in
  prune_and_assemble (R := Sample.runtime) (C := Sample.common)
    (P := Sample.providers 4000 (Sample.reply_text [Sample.orders_entry_text]) Sample.stored)
    "orders" [] Sample.schemas Sample.stored check []
  = (Ok {| retrieval_results := Sample.candidates; flags := no_flags |}, []).
Proof.
  intros check.
  apply (proj1 (pruning_call_only_when_required (R := Sample.runtime)
                  (C := Sample.common)
                  (P := Sample.providers 4000 (Sample.reply_text [Sample.orders_entry_text])
                          Sample.stored)
                  "orders" [] Sample.schemas Sample.stored check [])).
  discriminate.
Defined.

(** With no query text and a store that exceeds the window, the prompt
    is not empty: it is built, the generator is called with it, and the
    result is the pruned one, not the evaluator's empty candidates. *)
Lemma empty_query_prompt_counterexample :
  let P := Sample.providers 40 (Sample.reply_text [Sample.orders_entry_text])
             Sample.stored in
  let check := {| db_schemas := []; tokens := 111; budget_flags := no_flags |} in
  let text := Sample.render nl [Sample.orders_ddl; Sample.customers_ddl] in
  check_using_db_schemas_without_pruning (R := Sample.runtime) (C := Sample.common)
    Sample.schemas Sample.stored Sample.one_per_char false 40 = Ok check
  ∧ prompt (C := Sample.common) EmptyString Sample.schemas
      (prompt_builder_run (Providers := P)) check [] = Ok (Some text)
  ∧ prune_and_assemble (R := Sample.runtime) (C := Sample.common) (P := P)
      EmptyString [] Sample.schemas Sample.stored check []
    = (Ok {| retrieval_results :=
               [{| table_name := VStr "orders"; table_ddl := Sample.orders_ddl |}];
             flags := no_flags |},
       [GeneratorRun text]).
Proof. vm_compute. repeat split; reflexivity. Defined.


(** A reply that names [orders] twice, first with the column [amt],
    then with the column [id], is assembled from the last entry: the
    result is the orders table once, restricted to [id]. A reply that
    lists the column [id] twice is assembled like the reply that lists
    it once. *)
Lemma repeated_names_and_columns_example :
  let answer text : dict := [("replies", VList [VStr text]); ("meta", VList [])]%string in
  let check := {| db_schemas := []; tokens := 111; budget_flags := no_flags |} in
  let contents : value :=
    VDict [("chain_of_thought_reasoning", VList [VStr "needed for join"]);
           ("columns", VList [VStr "id"])]%string in
  construct_retrieval_results (R := Sample.runtime) (C := Sample.common) check
    (answer (Sample.reply_text [Sample.orders_amt_entry_text; Sample.orders_entry_text]))
    Sample.schemas Sample.stored
  = Ok {| retrieval_results :=
            [{| table_name := VStr "orders"; table_ddl := Sample.orders_ddl |}];
          flags := no_flags |}
  ∧ (∃ selection,
       reformat_loop [Sample.orders_amt_entry; Sample.orders_entry] [] = Ok selection
       ∧ alist_get (KStr "orders") selection = Some contents
       ∧ NoDup (map fst selection)
       ∧ pruned_table_candidate (C := Sample.common) selection Sample.orders_schema
         = Ok (Some ({| table_name := VStr "orders"; table_ddl := Sample.orders_ddl |},
                     false, false)))
  ∧ construct_retrieval_results (R := Sample.runtime) (C := Sample.common) check
      (answer (Sample.reply_text [Sample.orders_entry_text]))
      Sample.schemas Sample.stored
    = construct_retrieval_results (R := Sample.runtime) (C := Sample.common) check
        (answer (Sample.reply_text [Sample.orders_twice_entry_text]))
        Sample.schemas Sample.stored.
Proof.
  intros answer check contents.
  pose proof (repeated_names_and_columns (R := Sample.runtime) (C := Sample.common)
                check Sample.schemas Sample.stored)
    as (Hlast & Hbuilt & _ & Hsame & _).
  split; [|split].
  - apply (proj1 (Hbuilt
             (answer (Sample.reply_text [Sample.orders_amt_entry_text;
                                         Sample.orders_entry_text]))
             [Sample.orders_amt_entry; Sample.orders_entry]
             [(KStr "orders", contents)]
             [({| table_name := VStr "orders"; table_ddl := Sample.orders_ddl |},
               false, false)]
             []
             ltac:(discriminate) ltac:(reflexivity) ltac:(reflexivity)
             ltac:(vm_compute; reflexivity) ltac:(vm_compute; reflexivity))).
  - exists [(KStr "orders", contents)]. split; [reflexivity|].
    destruct (Hlast [Sample.orders_amt_entry] Sample.orders_entry []
                (KStr "orders") contents [(KStr "orders", contents)]
                ltac:(reflexivity) ltac:(reflexivity) ltac:(reflexivity)
                ltac:(constructor)) as (Hget & Hnodup & Hcandidate).
    split; [exact Hget|]. split; [exact Hnodup|].
    rewrite (Hcandidate Sample.orders_schema (VStr "orders")
               ltac:(reflexivity) ltac:(reflexivity) ltac:(reflexivity)).
    vm_compute. reflexivity.
  - apply (Hsame _ _ [Sample.orders_entry] [Sample.orders_twice_entry]).
    + discriminate.
    + discriminate.
    + reflexivity.
    + reflexivity.
    + constructor; [|constructor].
      split; [reflexivity|]. vm_compute. reflexivity.
Defined.

(** Two tables whose fragments arrive in three orders. In the second
    one the names are interleaved and the TABLE fragment of [orders]
    comes after one of its TABLE_COLUMNS fragments; in the third one it
    is repeated as well. The same descriptors come out, in the order in
    which the names are first seen. *)
Lemma reassembly_per_table_example :
  let documents :=
    [Sample.orders_table; Sample.orders_id; Sample.orders_amt;
     Sample.customers_table; Sample.customers_name] in
  let permuted :=
    [Sample.customers_name; Sample.orders_id; Sample.orders_table;
     Sample.customers_table; Sample.orders_amt] in
  let repeated :=
    [Sample.customers_name; Sample.orders_id; Sample.orders_table;
     Sample.customers_table; Sample.orders_amt; Sample.orders_table] in
  ∃ r r' r'',
    construct_db_schemas (R := Sample.runtime) documents = Ok r
    ∧ construct_db_schemas (R := Sample.runtime) permuted = Ok r'
    ∧ construct_db_schemas (R := Sample.runtime) repeated = Ok r''
    ∧ r ≡ₚ r'
    ∧ r ≡ₚ r''
    ∧ r = [Sample.orders_schema; Sample.customers_schema]
    ∧ r' = [Sample.customers_schema; Sample.orders_schema]
    ∧ r'' = [Sample.customers_schema; Sample.orders_schema].
Proof.
  intros documents permuted repeated.
  assert (Hspecified : Forall (as_specified (R := Sample.runtime)) repeated).
  { repeat (constructor;
      [eexists _, _; split; [vm_compute; reflexivity|]; split; [reflexivity|];
       split; [intros _; by eexists|];
       split; intros Hk; first [discriminate Hk|reflexivity|by eexists]|]).
    constructor. }
  assert (Hdocuments : Forall (as_specified (R := Sample.runtime)) documents).
  { apply Forall_forall. intros d Hd.
    apply (proj1 (Forall_forall _ _) Hspecified).
    repeat (apply elem_of_cons in Hd as [->|Hd]); [..|by apply elem_of_nil in Hd];
      repeat constructor. }
  destruct (proj1 (reassembly_per_table (R := Sample.runtime) documents permuted))
    as (db & db' & _ & _ & Hdb & Hdb' & _ & Hperm); [exact Hdocuments|..].
  { left.
    apply (@Permutation_cons_app _ _ [Sample.customers_name; Sample.orders_id]
             [Sample.customers_table; Sample.orders_amt]).
    apply (@Permutation_cons_app _ _ [Sample.customers_name]
             [Sample.customers_table; Sample.orders_amt]).
    apply (@Permutation_cons_app _ _ [Sample.customers_name; Sample.customers_table]
             []).
    apply perm_swap. }
  { intros name. unfold column_fragments, fragment_of, has_name. simpl.
    repeat case_bool_decide; simplify_eq; reflexivity. }
  { intros name. unfold table_fragments, fragment_of, has_name. simpl.
    repeat case_bool_decide; simplify_eq; reflexivity. }
  destruct (proj1 (reassembly_per_table (R := Sample.runtime) documents repeated))
    as (db0 & db'' & _ & _ & Hdb0 & Hdb'' & _ & Hperm''); [exact Hdocuments|..].
  { right. split; [exact Hspecified|].
    intros name. unfold column_fragments, table_fragments, fragment_of, has_name.
    simpl. repeat case_bool_decide; simplify_eq; try reflexivity; discriminate. }
  { intros name. unfold column_fragments, fragment_of, has_name. simpl.
    repeat case_bool_decide; simplify_eq; reflexivity. }
  { intros name. unfold table_fragments, fragment_of, has_name. simpl.
    repeat case_bool_decide; simplify_eq; reflexivity. }
  assert (Hsame : map snd db0 = map snd db) by congruence.
  rewrite Hsame in Hperm''.
  exists (map snd db), (map snd db'), (map snd db'').
  split; [exact Hdb|]. split; [exact Hdb'|]. split; [exact Hdb''|].
  split; [exact Hperm|]. split; [exact Hperm''|].
  assert (Hr : construct_db_schemas (R := Sample.runtime) documents
               = Ok [Sample.orders_schema; Sample.customers_schema])
    by (vm_compute; reflexivity).
  assert (Hr' : construct_db_schemas (R := Sample.runtime) permuted
                = Ok [Sample.customers_schema; Sample.orders_schema])
    by (vm_compute; reflexivity).
  assert (Hr'' : construct_db_schemas (R := Sample.runtime) repeated
                 = Ok [Sample.customers_schema; Sample.orders_schema])
    by (vm_compute; reflexivity).
  repeat split; congruence.
Defined.

(** The order of the TABLE_COLUMNS fragments of one table shows in its
    columns, a repeated TABLE_COLUMNS fragment repeats its columns, of
    two different TABLE fragments of one table the last one is kept,
    and a TABLE fragment with columns of its own loses them when it
    arrives after a TABLE_COLUMNS fragment: neither the permuted nor
    the repeated fragments give the same descriptor. *)
Lemma reassembly_order_counterexample :
  let id := Sample.column "id" "integer" in
  let amt := Sample.column "amt" "unknown" in
  let orders columns : dict :=
    Sample.table_value "orders" ++ [("columns"%string, VList columns)] in
  let commented columns : dict :=
    Sample.commented_table_value "orders" ++ [("columns"%string, VList columns)] in
  [Sample.orders_table; Sample.orders_id; Sample.orders_amt]
  ≡ₚ [Sample.orders_table; Sample.orders_amt; Sample.orders_id]
  ∧ construct_db_schemas (R := Sample.runtime)
      [Sample.orders_table; Sample.orders_id; Sample.orders_amt] = Ok [orders [id; amt]]
  ∧ construct_db_schemas (R := Sample.runtime)
      [Sample.orders_table; Sample.orders_amt; Sample.orders_id] = Ok [orders [amt; id]]
  ∧ ¬ [orders [id; amt]] ≡ₚ [orders [amt; id]]
  ∧ construct_db_schemas (R := Sample.runtime)
      [Sample.orders_table; Sample.orders_id] = Ok [orders [id]]
  ∧ construct_db_schemas (R := Sample.runtime)
      [Sample.orders_table; Sample.orders_id; Sample.orders_id] = Ok [orders [id; id]]
  ∧ ¬ [orders [id]] ≡ₚ [orders [id; id]]
  ∧ [Sample.orders_table; Sample.orders_commented; Sample.orders_id]
    ≡ₚ [Sample.orders_commented; Sample.orders_table; Sample.orders_id]
  ∧ construct_db_schemas (R := Sample.runtime)
      [Sample.orders_table; Sample.orders_commented; Sample.orders_id]
    = Ok [commented [id]]
  ∧ construct_db_schemas (R := Sample.runtime)
      [Sample.orders_commented; Sample.orders_table; Sample.orders_id]
    = Ok [orders [id]]
  ∧ ¬ [commented [id]] ≡ₚ [orders [id]]
  ∧ construct_db_schemas (R := Sample.runtime)
      [Sample.orders_whole; Sample.orders_amt] = Ok [orders [id; amt]]
  ∧ construct_db_schemas (R := Sample.runtime)
      [Sample.orders_amt; Sample.orders_whole] = Ok [orders [amt]]
  ∧ ¬ [orders [id; amt]] ≡ₚ [orders [amt]].
Proof.
  intros id amt orders commented.
  split; [apply perm_skip, perm_swap|].
  split; [reflexivity|]. split; [reflexivity|].
  split; [intros Hp; apply Permutation_length_1 in Hp; discriminate Hp|].
  split; [reflexivity|]. split; [reflexivity|].
  split; [intros Hp; apply Permutation_length_1 in Hp; discriminate Hp|].
  split; [apply perm_swap|].
  split; [reflexivity|]. split; [reflexivity|].
  split; [intros Hp; apply Permutation_length_1 in Hp; discriminate Hp|].
  split; [reflexivity|]. split; [reflexivity|].
  intros Hp. apply Permutation_length_1 in Hp. discriminate Hp.
Defined.

(** The TABLE fragment of [orders] alone is dropped; stored twice, and
    still without any TABLE_COLUMNS fragment, it is surfaced with an
    empty column list. *)
Lemma table_stored_twice_is_surfaced_example :
  construct_db_schemas (R := Sample.runtime) [Sample.orders_table] = Ok []
  ∧ construct_db_schemas (R := Sample.runtime)
      [Sample.orders_table; Sample.orders_table]
    = Ok [Sample.table_value "orders" ++ [("columns"%string, VList [])]].
Proof.
  destruct (table_stored_twice_is_surfaced (R := Sample.runtime)
              Sample.orders_table Sample.orders_table
              (Sample.table_value "orders") (Sample.table_value "orders") "orders"
              eq_refl eq_refl eq_refl eq_refl eq_refl eq_refl eq_refl eq_refl)
    as (Hone & _ & Htwice).
  split; [exact Hone|exact Htwice].
Defined.

(** [gpt-4o-mini-2024-07-18] contains [gpt-4o-mini]. *)
Lemma encoding_name_by_gpt_4o_example :
  encoding_name "gpt-4o-mini-2024-07-18" = "o200k_base"%string
  ∧ encoding_name "gpt-4-turbo" = "cl100k_base"%string.
Proof.
  split.
  - apply (proj2 (encoding_name_by_gpt_4o "gpt-4o-mini-2024-07-18")). reflexivity.
  - exact (proj1 (encoding_name_by_gpt_4o "gpt-4-turbo")).
Defined.

(** A metric with a column of type integer and a column of unknown type
    that has neither comment nor name: the DDL is built, with the one
    column. *)
Lemma metric_ddl_without_unknown_columns_example :
  let total := Sample.column "total" "integer" in
  let broken := VDict [("data_type"%string, VStr "UNKNOWN")] in
  let metric columns : dict :=
    [("type", VStr "METRIC"); ("comment", VStr EmptyString);
     ("name", VStr "revenue"); ("columns", VList columns)]%string in
  _build_metric_ddl (R := Sample.runtime) (C := Sample.common)
    (VDict (metric [total; broken]))
  = Ok ("CREATE TABLE revenue (" +:+ nl +:+ "  total INTEGER" +:+ nl +:+ ");").
Proof.
  intros total broken metric.
  rewrite (proj1 (metric_ddl_without_unknown_columns (R := Sample.runtime)
                    (C := Sample.common) (metric [total; broken]) [total; broken]
                    eq_refl
                    ltac:(repeat constructor; eexists; reflexivity))).
  reflexivity.
Defined.

(** Two table documents, a project id: one call to the store, with a
    name condition for each table and the project condition. *)
Lemma dbschema_retrieval_calls_example :
  let P := Sample.providers 4000 Sample.malformed_reply_text Sample.stored in
  let t := {| documents := Some [Sample.description_document "orders";
                                 Sample.description_document "customers"] |} in
  let filters :=
    Group "AND"
      [Condition "type" "==" (VStr "TABLE_SCHEMA");
       Group "OR" [Condition "name" "==" (VStr "orders");
                   Condition "name" "==" (VStr "customers")];
       Condition "project_id" "==" (VStr "p1")] in
  dbschema_retrieval (R := Sample.runtime) (P := P) t "p1" []
  = (Ok Sample.stored, [DbschemaRetrieverRun QEmptyList filters]).
Proof.
  intros P t filters.
  destruct (proj2 (proj2 (dbschema_retrieval_calls (R := Sample.runtime)
                            (P := P) t "p1" []))
              [VStr "orders"; VStr "customers"]
              ltac:(discriminate) ltac:(reflexivity)) as [_ Hcall].
  exact Hcall.
Defined.

(** A request over the sample store with a small window: four calls,
    one to each collaborator, in order. *)
Lemma run_calls_in_order_example :
  ∃ calls,
    (run (R := Sample.runtime) (C := Sample.common)
       (P := Sample.providers 40 (Sample.reply_text [Sample.orders_entry_text])
               Sample.stored)
       "orders" None None None false []).2 = [] ++ calls
    ∧ ascending 0 4 (map call_kind calls).
Proof.
  exact (proj1 (run_calls_in_order (R := Sample.runtime) (C := Sample.common)
                  (P := Sample.providers 40 (Sample.reply_text [Sample.orders_entry_text])
                          Sample.stored)
                  "orders" None None None false) []).
Defined.

(** An empty store: the generator is still asked, and the result is
    empty. *)
Lemma no_fragment_still_asks_the_generator_example :
  let P := Sample.providers 4000 (Sample.reply_text [Sample.orders_entry_text]) [] in
  run (R := Sample.runtime) (C := Sample.common) (P := P)
    "orders" None None None false []
  = (Ok {| retrieval_results := []; flags := no_flags |},
     [EmbedderRun (nl +:+ "orders");
      TableRetrieverRun (QGet (Some (VList [VInt 1; VInt 0])))
        (Group "AND" [Condition "type" "==" (VStr "TABLE_DESCRIPTION")]);
      DbschemaRetrieverRun QEmptyList
        (Group "AND"
           [Condition "type" "==" (VStr "TABLE_SCHEMA");
            Group "OR" [Condition "name" "==" (VStr "orders");
                        Condition "name" "==" (VStr "customers")]]);
      GeneratorRun (Sample.render (nl +:+ "orders") [])]).
Proof.
  intros P.
  assert (Hdocs :
    retrieve_fragments (R := Sample.runtime) (P := P) "orders" (tables_value None)
      (default EmptyString None) (default [] None) []
    = (Ok [],
       [EmbedderRun (nl +:+ "orders");
        TableRetrieverRun (QGet (Some (VList [VInt 1; VInt 0])))
          (Group "AND" [Condition "type" "==" (VStr "TABLE_DESCRIPTION")]);
        DbschemaRetrieverRun QEmptyList
          (Group "AND"
             [Condition "type" "==" (VStr "TABLE_SCHEMA");
              Group "OR" [Condition "name" "==" (VStr "orders");
                          Condition "name" "==" (VStr "customers")]])]))
    by (vm_compute; reflexivity).
  destruct (no_fragment_still_asks_the_generator (R := Sample.runtime)
              (C := Sample.common) (P := P) "orders" None None None false [] _ [] _ _
              Hdocs eq_refl eq_refl eq_refl) as [Hrun Hresult].
  rewrite Hrun.
  rewrite (Hresult ltac:(discriminate) [Sample.orders_entry]
             [(KStr "orders",
               VDict [("chain_of_thought_reasoning", VList [VStr "needed for join"]);
                      ("columns", VList [VStr "id"])]%string)]
             ltac:(vm_compute; reflexivity) ltac:(vm_compute; reflexivity)).
  reflexivity.
Defined.

(** The sample store reassembles to two descriptors, both of type
    [TABLE], and they lead the candidates. *)
Lemma surfaced_descriptors_are_tables_example :
  Forall (λ e, is_table e = true) Sample.schemas
  ∧ map table_name Sample.candidates
    = map descriptor_name Sample.schemas
      ++ map (fragment_name (R := Sample.runtime))
           (List.filter (fragment_type_in (R := Sample.runtime) ["METRIC"; "VIEW"]%string)
              Sample.stored).
Proof.
  destruct (surfaced_descriptors_are_tables (R := Sample.runtime) (C := Sample.common)
              Sample.stored Sample.schemas ltac:(reflexivity)) as [Htables Hnames].
  split; [exact Htables|].
  apply (Hnames Sample.candidates no_flags). vm_compute. reflexivity.
Defined.

(** Without its view the sample store reassembles to the same two
    descriptors. *)
Lemma reassembly_ignores_other_kinds_example :
  construct_db_schemas (R := Sample.runtime)
    [Sample.orders_table; Sample.orders_id; Sample.orders_amt;
     Sample.customers_table; Sample.customers_name]
  = Ok Sample.schemas.
Proof.
  apply (reassembly_ignores_other_kinds (R := Sample.runtime) Sample.stored).
  reflexivity.
Defined.

(** Every fragment of the sample store has the expected shape. *)
Lemma reassembly_of_well_formed_fragments_example :
  ∃ schemas, construct_db_schemas (R := Sample.runtime) Sample.stored = Ok schemas.
Proof.
  apply (reassembly_of_well_formed_fragments (R := Sample.runtime)).
  repeat (constructor;
    [eexists _, _; split; [vm_compute; reflexivity|]; split; [reflexivity|];
     split; [intros Hk; first [by eexists|discriminate Hk]|];
     split; [intros Hk; first [discriminate Hk|by eexists]|];
     intros Hk; first [discriminate Hk|exact I]|]).
  constructor.
Defined.

(** The reply selects [orders]: the pruned result is a subsequence of
    the three candidates of the sample store. *)
Lemma pruned_results_among_candidates_example :
  map table_name [{| table_name := VStr "orders"; table_ddl := Sample.orders_ddl |}]
  `sublist_of` map table_name Sample.candidates.
Proof.
  apply (proj1 (pruned_results_among_candidates (R := Sample.runtime)
                  (C := Sample.common)
                  {| db_schemas := []; tokens := 111; budget_flags := no_flags |}
                  [("replies", VList [VStr (Sample.reply_text [Sample.orders_entry_text])]);
                   ("meta", VList [])]%string
                  Sample.schemas Sample.stored Sample.candidates no_flags
                  {| retrieval_results :=
                       [{| table_name := VStr "orders";
                           table_ddl := Sample.orders_ddl |}];
                     flags := no_flags |}
                  ltac:(discriminate) ltac:(vm_compute; reflexivity)
                  ltac:(vm_compute; reflexivity))).
Defined.

(** The sample store with its metric: the metric flag is up, the other
    two are down as the sample builder reports no such field. *)
Lemma budget_flags_meaning_example :
  has_metric
    {| has_calculated_field := false; has_metric := true; has_json_field := false |}
  = existsb (fragment_type_in (R := Sample.runtime) ["METRIC"%string])
      (Sample.stored ++ [Sample.revenue_metric]).
Proof.
  apply (proj1 (budget_flags_meaning (R := Sample.runtime) (C := Sample.common)
                  Sample.schemas (Sample.stored ++ [Sample.revenue_metric])
                  Sample.one_per_char false 4000
                  {| db_schemas :=
                       Sample.candidates
                       ++ [{| table_name := VStr "revenue";
                              table_ddl := "CREATE TABLE revenue (" +:+ nl
                                           +:+ "  total INTEGER" +:+ nl +:+ ");" |}];
                     tokens := 153;
                     budget_flags :=
                       {| has_calculated_field := false; has_metric := true;
                          has_json_field := false |} |}
                  ltac:(vm_compute; reflexivity))).
Defined.

(** The prompt over the sample store lists the two tables and leaves
    the view out. *)
Lemma prompt_lists_tables_only_example :
  prompt (C := Sample.common) EmptyString Sample.schemas
    (λ question ddls, Ok (Sample.render question ddls))
    {| db_schemas := []; tokens := 111; budget_flags := no_flags |} []
  = Ok (Some (Sample.render nl [Sample.orders_ddl; Sample.customers_ddl])).
Proof.
  apply (prompt_lists_tables_only (R := Sample.runtime) (C := Sample.common)
           Sample.stored Sample.schemas Sample.candidates no_flags EmptyString []
           (λ question ddls, Ok (Sample.render question ddls))
           {| db_schemas := []; tokens := 111; budget_flags := no_flags |}
           ltac:(reflexivity) ltac:(vm_compute; reflexivity) ltac:(reflexivity)).
Defined.
